(** * DSAT what-if analyzer: a shallow embedding of [analysis.py]

    The scoring and simulation engine of class [DSATWhatIfAnalyzer] is
    embedded method by method.  A Python [int] is a [Z]; a Python
    [float] is an IEEE-754 binary64 value, a [spec_float] at precision 53
    and maximal exponent 1024; a dictionary read with [.get] is a record
    with optional fields; a dictionary built by the code is an
    association list in insertion order.  The two effects the methods
    have, lines printed on standard output and exceptions raised by
    arithmetic, are carried by the monad [Py], whose trace also records
    each entry into the classifier and the calculator. *)

From Stdlib Require Import ZArith List Ascii String Bool Lia.
From Stdlib Require Import Sorted Permutation.
From Stdlib Require Import Floats.SpecFloat DecimalString.
Import ListNotations.
Open Scope string_scope.
Open Scope list_scope.
Open Scope Z_scope.

(** ** Python numbers *)

Module PyFloat.

Definition float := spec_float.

Definition prec : Z := 53.
Definition emax : Z := 1024.

Inductive exn := ZeroDivisionError | OverflowError.

Inductive result (A : Type) :=
| Ok (a : A)
| Raise (e : exn).
Arguments Ok {A} a.
Arguments Raise {A} e.

(** An integer seen as the unrounded binary number [z * 2^0]. *)
Definition of_int (z : Z) : float :=
  match z with
  | Z0 => S754_zero false
  | Zpos p => S754_finite false p 0
  | Zneg p => S754_finite true p 0
  end.

Definition is_finite (x : float) : bool :=
  match x with
  | S754_zero _ | S754_finite _ _ _ => true
  | _ => false
  end.

(** [a / b] on two [int]s: the correctly rounded quotient;
    [ZeroDivisionError] when [b] is zero, [OverflowError] when the
    rounded quotient is not a finite double. *)
Definition int_true_div (a b : Z) : result float :=
  if b =? 0 then Raise ZeroDivisionError
  else
    let q := SFdiv prec emax (of_int a) (of_int b) in
    if is_finite q then Ok q else Raise OverflowError.

(** [float(z)] where the source lets an [int] meet a [float]: the
    nearest double, exact below [2^53].  The integers converted are the
    literals [60], [100] and [1000] and the length of a list. *)
Definition float_of_int (z : Z) : float :=
  binary_normalize prec emax z 0 false.

(** [x / d] for a [float] [x] and an [int] [d]: the divisor is
    converted, and a zero divisor raises. *)
Definition float_div_int (x : float) (d : Z) : result float :=
  if d =? 0 then Raise ZeroDivisionError
  else Ok (SFdiv prec emax x (float_of_int d)).

(** A decimal literal of the source, [0.6] being [literal 6 10]: the
    double nearest to the written value. *)
Definition literal (num den : Z) : float :=
  SFdiv prec emax (of_int num) (of_int den).

Definition ltb (x y : float) : bool := SFltb x y.
Definition leb (x y : float) : bool := SFleb x y.
Definition eqb (x y : float) : bool := SFeqb x y.
Definition mul (x y : float) : float := SFmul prec emax x y.

(** A JSON number. *)
Inductive number :=
| PyInt (z : Z)
| PyFloatV (f : float).

End PyFloat.
Import PyFloat.

(** ** Effects: printed lines, calls, exceptions *)

Inductive difficulty := hard_tier | easy_tier.

Definition difficulty_eqb (a b : difficulty) : bool :=
  match a, b with
  | hard_tier, hard_tier | easy_tier, easy_tier => true
  | _, _ => false
  end.

Inductive event :=
| Printed (line : string)
| Enter_determine_module2_difficulty (module1_correct module1_total : Z)
| Enter_calculate_scaled_score (subject : string) (raw_score : Z)
    (module2_difficulty : difficulty).

Definition Py (A : Type) : Type := (list event * result A)%type.

Definition ret {A : Type} (a : A) : Py A := ([], Ok a).

Definition bind {A B : Type} (m : Py A) (f : A -> Py B) : Py B :=
  match m with
  | (l, Ok a) => let (l', r) := f a in (l ++ l', r)
  | (l, Raise e) => (l, Raise e)
  end.

Definition print (line : string) : Py unit := ([Printed line], Ok tt).
Definition enter (e : event) : Py unit := ([e], Ok tt).
Definition lift {A : Type} (r : result A) : Py A := ([], r).

Definition output {A : Type} (m : Py A) : list event := fst m.
Definition value {A : Type} (m : Py A) : result A := snd m.

Declare Scope py_scope.
Delimit Scope py_scope with py.
Notation "x <- m ;; k" := (bind m (fun x => k))
  (at level 61, m at next level, right associativity) : py_scope.
Notation "m ;; k" := (bind m (fun _ => k))
  (at level 61, right associativity) : py_scope.
Open Scope py_scope.

Fixpoint foldM {A B : Type} (f : A -> B -> Py A) (acc : A) (l : list B)
  : Py A :=
  match l with
  | [] => ret acc
  | x :: rest => acc' <- f acc x ;; foldM f acc' rest
  end.

Fixpoint mapM {A B : Type} (f : A -> Py B) (l : list A) : Py (list B) :=
  match l with
  | [] => ret []
  | x :: rest => y <- f x ;; ys <- mapM f rest ;; ret (y :: ys)
  end.

(** ** Small pieces of the Python runtime *)

Definition len {A : Type} (l : list A) : Z := Z.of_nat (List.length l).

(** [sum(1 for x in l if p(x))] *)
Definition count_if {A : Type} (p : A -> bool) (l : list A) : Z :=
  len (filter p l).

(** [range(n)] *)
Definition range (n : nat) : list Z := List.map Z.of_nat (seq 0 n).

(** [l[:n]], with Python's reading of a negative bound. *)
Definition slice_to {A : Type} (l : list A) (n : Z) : list A :=
  if 0 <=? n then firstn (Z.to_nat n) l
  else firstn (Z.to_nat (len l + n)) l.

(** [o == s] for the result [o] of a [.get]. *)
Definition get_eqb (o : option string) (s : string) : bool :=
  match o with
  | Some s' => String.eqb s' s
  | None => false
  end.

(** [o in l] for the result [o] of a [.get] and a list of literals. *)
Definition get_in (o : option string) (l : list string) : bool :=
  existsb (get_eqb o) l.

(** ** Data model *)

(** One response record of [student_data], as the methods read it.
    [subject_name] is [q.get('subject', {}).get('name')] and
    [topic_name] is [q.get('topic', {}).get('name')]; a missing key is
    [None]. *)
Module Response.
Record t := {
  question_id : option string;
  _id : option string;
  subject_name : option string;
  section : option string;
  topic_name : option string;
  correct : option bool;
  time_spent : option number;
  compleixty : option string;
  complexity : option string
}.
End Response.

(** Truth value of [q.get('correct')]. *)
Definition is_correct (q : Response.t) : bool :=
  match Response.correct q with
  | Some b => b
  | None => false
  end.

(** [q.get('question_id', q.get('_id'))] *)
Definition identifier (q : Response.t) : option string :=
  match Response.question_id q with
  | Some i => Some i
  | None => Response._id q
  end.

(** [q.get('compleixty', q.get('complexity', 'Unknown'))] *)
Definition complexity_label (q : Response.t) : string :=
  match Response.compleixty q with
  | Some c => c
  | None =>
      match Response.complexity q with
      | Some c => c
      | None => "Unknown"
      end
  end.

(** [q.get('time_spent', 0) / 1000] *)
Definition time_spent_s (q : Response.t) : result float :=
  match Response.time_spent q with
  | Some (PyInt ms) => int_true_div ms 1000
  | Some (PyFloatV ms) => float_div_int ms 1000
  | None => int_true_div 0 1000
  end.

(** One entry [{"raw": _, "hard": _, "easy": _}] and one item
    [{"key": _, "map": [...]}] of [scoring_maps]. *)
Module Score.
Record t := { raw : Z; hard : Z; easy : Z }.
(** [score[module2_difficulty]] *)
Definition at_tier (score : t) (d : difficulty) : Z :=
  match d with
  | hard_tier => hard score
  | easy_tier => easy score
  end.
End Score.

Module ScoringMap.
Record t := { key : string; map : list Score.t }.
End ScoringMap.

(** The fields [__init__] sets. *)
Module Analyzer.
Record t := {
  scoring_maps : list ScoringMap.t;
  adaptive_threshold : float;
  placeholder_scoring : bool
}.
End Analyzer.

(** The dictionaries [analyze_performance] builds for one subject.  The
    [int] [0] stored as accuracy in the zeroed summary is the float
    [+0.0], its equal. *)
Module Module1.
Record t := { correct : Z; total : Z; accuracy : float }.
End Module1.

Module Module2.
Record t := { correct : Z; total : Z; difficulty : difficulty }.
End Module2.

Module SlowQuestion.
Record t := {
  question_id : option string;
  topic : option string;
  time_spent_s : float
}.
End SlowQuestion.

Module Performance.
Record t := {
  Module_1 : Module1.t;
  Module_2 : Module2.t;
  raw_score : Z;
  scaled_score : Z;
  slow_questions : list SlowQuestion.t;
  weak_topics : list (string * string);
  topic_clusters : list (string * string)
}.
End Performance.

(** The value of the [defaultdict] entry of one topic. *)
Module TopicStats.
Record t := { correct : Z; total : Z; time_spent_s : list float }.
Definition default : t :=
  {| correct := 0; total := 0; time_spent_s := [] |}.
End TopicStats.

(** The dictionaries [what_if_analysis] builds for one subject. *)
Module HighImpact.
Record t := {
  question_id : option string;
  topic : option string;
  complexity : string
}.
End HighImpact.

Module WhatIf.
Record t := {
  current_score : Z;
  new_score : Z;
  score_gain : Z;
  high_impact_questions : list HighImpact.t
}.
End WhatIf.

(** One historical record given to the calibrator. *)
Module Sample.
Record t := {
  module1_correct : Z;
  module1_total : Z;
  got_hard_module2 : bool
}.
End Sample.

(** ** The methods of [DSATWhatIfAnalyzer] *)

Definition placeholder_maps : list ScoringMap.t :=
  [ {| ScoringMap.key := "Math";
       ScoringMap.map :=
         List.map (fun i => {| Score.raw := i;
                               Score.hard := 200 + i * 15;
                               Score.easy := 200 + i * 10 |}) (range 45) |};
    {| ScoringMap.key := "Reading and Writing";
       ScoringMap.map :=
         List.map (fun i => {| Score.raw := i;
                               Score.hard := 200 + i * 11;
                               Score.easy := 200 + i * 8 |}) (range 55) |} ].

(** [__init__]: [None] and the empty list are both false for
    [if not scoring_maps]. *)
Definition __init__ (scoring_maps : option (list ScoringMap.t))
  (adaptive_threshold : float) : Py Analyzer.t :=
  match scoring_maps with
  | None | Some [] =>
      print "Warning: No scoring maps provided. Using placeholder scoring." ;;
      ret {| Analyzer.scoring_maps := placeholder_maps;
             Analyzer.adaptive_threshold := adaptive_threshold;
             Analyzer.placeholder_scoring := true |}
  | Some maps =>
      ret {| Analyzer.scoring_maps := maps;
             Analyzer.adaptive_threshold := adaptive_threshold;
             Analyzer.placeholder_scoring := false |}
  end.

Definition determine_module2_difficulty (self : Analyzer.t)
  (module1_correct module1_total : Z) : Py difficulty :=
  enter (Enter_determine_module2_difficulty module1_correct module1_total) ;;
  if module1_total =? 0 then
    print "Warning: No Module 1 questions found. Defaulting to 'easy' Module 2." ;;
    ret easy_tier
  else
    ratio <- lift (int_true_div module1_correct module1_total) ;;
    ret (if leb (Analyzer.adaptive_threshold self) ratio
         then hard_tier else easy_tier).

Definition calculate_scaled_score (self : Analyzer.t) (subject : string)
  (raw_score : Z) (module2_difficulty : difficulty) : Py Z :=
  enter (Enter_calculate_scaled_score subject raw_score module2_difficulty) ;;
  let map_data :=
    option_map ScoringMap.map
      (find (fun item => String.eqb (ScoringMap.key item) subject)
         (Analyzer.scoring_maps self)) in
  match map_data with
  | None | Some [] =>
      print ("Warning: No scoring map for " ++ subject
             ++ ". Returning default score.")%string ;;
      ret 200
  | Some map_data =>
      match find (fun score => Score.raw score =? raw_score) map_data with
      | Some score => ret (Score.at_tier score module2_difficulty)
      | None => ret 200
      end
  end.

Definition subjects : list string := ["Math"; "Reading and Writing"].

Definition module2_labels : list string :=
  ["Hard"; "Adaptive"; "Module 2"; "AdaptiveHard"].

(** The three comprehensions both methods start with. *)
Definition subject_data_of (student_data : list Response.t)
  (subject : string) : list Response.t :=
  filter (fun q => get_eqb (Response.subject_name q) subject) student_data.

Definition module1_data_of (subject_data : list Response.t)
  : list Response.t :=
  filter (fun q => get_eqb (Response.section q) "Static") subject_data.

Definition module2_data_of (subject_data : list Response.t)
  : list Response.t :=
  filter (fun q => get_in (Response.section q) module2_labels) subject_data.

(** The summary stored when a subject has no Module 1 question. *)
Definition zeroed_performance : Performance.t :=
  {| Performance.Module_1 :=
       {| Module1.correct := 0; Module1.total := 0;
          Module1.accuracy := S754_zero false |};
     Performance.Module_2 :=
       {| Module2.correct := 0; Module2.total := 0;
          Module2.difficulty := easy_tier |};
     Performance.raw_score := 0;
     Performance.scaled_score := 200;
     Performance.slow_questions := [];
     Performance.weak_topics := [];
     Performance.topic_clusters := [] |}.

(** The list comprehension [slow_questions]; the quotient is evaluated
    once in the condition and once more in the entry. *)
Fixpoint slow_questions_of (subject_data : list Response.t)
  : Py (list SlowQuestion.t) :=
  match subject_data with
  | [] => ret []
  | q :: rest =>
      seconds <- lift (time_spent_s q) ;;
      if ltb (float_of_int 60) seconds then
        seconds' <- lift (time_spent_s q) ;;
        entries <- slow_questions_of rest ;;
        ret ({| SlowQuestion.question_id := identifier q;
                SlowQuestion.topic := Response.topic_name q;
                SlowQuestion.time_spent_s := seconds' |} :: entries)
      else slow_questions_of rest
  end.

(** [topics[topic]] followed by an update: the entry is created at the
    end of the dictionary when the key is new. *)
Fixpoint topics_update (topic : string) (f : TopicStats.t -> TopicStats.t)
  (topics : list (string * TopicStats.t)) : list (string * TopicStats.t) :=
  match topics with
  | [] => [(topic, f TopicStats.default)]
  | (k, stats) :: rest =>
      if String.eqb k topic then (k, f stats) :: rest
      else (k, stats) :: topics_update topic f rest
  end.

(** One turn of the loop that fills [topics]; [if topic:] holds for a
    present, non-empty name. *)
Definition topics_step (topics : list (string * TopicStats.t))
  (q : Response.t) : Py (list (string * TopicStats.t)) :=
  match Response.topic_name q with
  | Some topic =>
      if String.eqb topic "" then ret topics
      else
        seconds <- lift (time_spent_s q) ;;
        ret (topics_update topic
               (fun stats =>
                  {| TopicStats.correct :=
                       if is_correct q then TopicStats.correct stats + 1
                       else TopicStats.correct stats;
                     TopicStats.total := TopicStats.total stats + 1;
                     TopicStats.time_spent_s :=
                       TopicStats.time_spent_s stats ++ [seconds] |})
               topics)
  | None => ret topics
  end.

Section Runtime.

(** Two built-ins of the interpreter are taken as they are:
    [sum] over a list of floats (its rounding depends on the
    interpreter's version) and the format specification [:.2f]. *)
Variable py_sum : list float -> float.
Variable format_2f : float -> string.

(** The dictionary comprehension [weak_topics]. *)
Fixpoint weak_topics_of (topics : list (string * TopicStats.t))
  : Py (list (string * string)) :=
  match topics with
  | [] => ret []
  | (topic, stats) :: rest =>
      weak <-
        (if 0 <? TopicStats.total stats then
           ratio <- lift (int_true_div (TopicStats.correct stats)
                            (TopicStats.total stats)) ;;
           ret (ltb ratio (literal 5 10))
         else ret false) ;;
      if (weak : bool) then
        ratio <- lift (int_true_div (TopicStats.correct stats)
                         (TopicStats.total stats)) ;;
        entries <- weak_topics_of rest ;;
        ret ((topic, (format_2f (mul ratio (float_of_int 100)) ++ "%")%string)
               :: entries)
      else weak_topics_of rest
  end.

(** The dictionary comprehension [topic_clusters]. *)
Fixpoint topic_clusters_of (topics : list (string * TopicStats.t))
  : Py (list (string * string)) :=
  match topics with
  | [] => ret []
  | (topic, stats) :: rest =>
      if 0 <? TopicStats.total stats then
        ratio <- lift (int_true_div (TopicStats.correct stats)
                         (TopicStats.total stats)) ;;
        mean <- lift (float_div_int
                        (py_sum (TopicStats.time_spent_s stats))
                        (len (TopicStats.time_spent_s stats))) ;;
        entries <- topic_clusters_of rest ;;
        ret ((topic,
              ("Acc: " ++ format_2f (mul ratio (float_of_int 100))
               ++ "%, Avg Time: " ++ format_2f mean ++ "s")%string)
               :: entries)
      else topic_clusters_of rest
  end.

(** The body of the loop of [analyze_performance] for one subject. *)
Definition analyze_subject (self : Analyzer.t)
  (student_data : list Response.t) (source_file subject : string)
  : Py Performance.t :=
  let subject_data := subject_data_of student_data subject in
  let module1_data := module1_data_of subject_data in
  let module2_data := module2_data_of subject_data in
  let module1_correct := count_if is_correct module1_data in
  let module1_total := len module1_data in
  let module2_correct := count_if is_correct module2_data in
  let module2_total := len module2_data in
  let raw_score := module1_correct + module2_correct in
  if module1_total =? 0 then
    print ("Warning: No Module 1 questions found for " ++ subject ++ " in "
           ++ source_file ++ ". Skipping scoring.")%string ;;
    ret zeroed_performance
  else
    (if module2_total =? 0 then
       print ("Warning: No Module 2 questions found for " ++ subject
              ++ " in " ++ source_file
              ++ ". Scores based on Module 1 only.")%string
     else ret tt) ;;
    module2_difficulty <-
      determine_module2_difficulty self module1_correct module1_total ;;
    scaled_score <-
      calculate_scaled_score self subject raw_score module2_difficulty ;;
    slow_questions <- slow_questions_of subject_data ;;
    topics <- foldM topics_step [] subject_data ;;
    accuracy <-
      (if 0 <? module1_total
       then lift (int_true_div module1_correct module1_total)
       else ret (S754_zero false)) ;;
    weak_topics <- weak_topics_of topics ;;
    topic_clusters <- topic_clusters_of topics ;;
    ret {| Performance.Module_1 :=
             {| Module1.correct := module1_correct;
                Module1.total := module1_total;
                Module1.accuracy := accuracy |};
           Performance.Module_2 :=
             {| Module2.correct := module2_correct;
                Module2.total := module2_total;
                Module2.difficulty := module2_difficulty |};
           Performance.raw_score := raw_score;
           Performance.scaled_score := scaled_score;
           Performance.slow_questions := slow_questions;
           Performance.weak_topics := weak_topics;
           Performance.topic_clusters := topic_clusters |}.

(** [analyze_performance]: the dictionary [performance], one pair per
    subject in the order of the loop. *)
Definition analyze_performance (self : Analyzer.t)
  (student_data : list Response.t) (source_file : string)
  : Py (list (string * Performance.t)) :=
  mapM (fun subject =>
          summary <- analyze_subject self student_data source_file subject ;;
          ret (subject, summary))
    subjects.

End Runtime.

(** The entry of [high_impact_questions] built from one response. *)
Definition high_impact_entry (q : Response.t) : HighImpact.t :=
  {| HighImpact.question_id := identifier q;
     HighImpact.topic := Response.topic_name q;
     HighImpact.complexity := complexity_label q |}.

(** The body of the loop of [what_if_analysis] for one subject. *)
Definition what_if_subject (self : Analyzer.t)
  (student_data : list Response.t) (subject : string)
  (additional_correct : Z) : Py WhatIf.t :=
  let subject_data := subject_data_of student_data subject in
  let module1_data := module1_data_of subject_data in
  let module2_data := module2_data_of subject_data in
  let module1_correct := count_if is_correct module1_data in
  let module1_total := len module1_data in
  let module2_correct := count_if is_correct module2_data in
  let current_raw_score := module1_correct + module2_correct in
  current_difficulty <-
    determine_module2_difficulty self module1_correct module1_total ;;
  current_score <-
    calculate_scaled_score self subject current_raw_score current_difficulty ;;
  let new_module1_correct :=
    Z.min (module1_correct + additional_correct) module1_total in
  new_difficulty <-
    determine_module2_difficulty self new_module1_correct module1_total ;;
  let new_raw_score := new_module1_correct + module2_correct in
  new_score <-
    calculate_scaled_score self subject new_raw_score new_difficulty ;;
  let high_impact_questions :=
    filter (fun q => negb (is_correct q)) module1_data in
  ret {| WhatIf.current_score := current_score;
         WhatIf.new_score := new_score;
         WhatIf.score_gain := new_score - current_score;
         WhatIf.high_impact_questions :=
           List.map high_impact_entry
             (slice_to high_impact_questions additional_correct) |}.

(** [what_if_analysis]: the dictionary [results]. *)
Definition what_if_analysis (self : Analyzer.t)
  (student_data : list Response.t) (source_file : string)
  (additional_correct : Z) : Py (list (string * WhatIf.t)) :=
  mapM (fun subject =>
          outcome <- what_if_subject self student_data subject
                       additional_correct ;;
          ret (subject, outcome))
    subjects.

(** The loop of [calculate_prediction_accuracy], with its two counters. *)
Fixpoint prediction_counts (data : list Sample.t) (threshold : float)
  (correct_predictions total_valid : Z) : Py (Z * Z) :=
  match data with
  | [] => ret (correct_predictions, total_valid)
  | student :: rest =>
      if Sample.module1_total student =? 0 then
        prediction_counts rest threshold correct_predictions total_valid
      else
        ratio <- lift (int_true_div (Sample.module1_correct student)
                         (Sample.module1_total student)) ;;
        let predicted := if leb threshold ratio then hard_tier else easy_tier in
        let actual :=
          if Sample.got_hard_module2 student then hard_tier else easy_tier in
        prediction_counts rest threshold
          (if difficulty_eqb predicted actual
           then correct_predictions + 1 else correct_predictions)
          (total_valid + 1)
  end.

(** [calculate_prediction_accuracy]; the [int] [0] returned when no
    sample is valid is the float [+0.0], which compares as [0] does. *)
Definition calculate_prediction_accuracy (data : list Sample.t)
  (threshold : float) : Py float :=
  counts <- prediction_counts data threshold 0 0 ;;
  let '(correct_predictions, total_valid) := counts in
  if total_valid =? 0 then ret (S754_zero false)
  else lift (int_true_div correct_predictions total_valid).

(** The loop of [find_optimal_threshold] over the thresholds left. *)
Fixpoint threshold_scan (data : list Sample.t) (thresholds : list float)
  (best_accuracy best_threshold : float) : Py float :=
  match thresholds with
  | [] => ret best_threshold
  | threshold :: rest =>
      accuracy <- calculate_prediction_accuracy data threshold ;;
      if ltb best_accuracy accuracy
      then threshold_scan data rest accuracy threshold
      else threshold_scan data rest best_accuracy best_threshold
  end.

(** [find_optimal_threshold]; [thresholds] is the sequence
    [np.arange(0.3, 0.8, 0.05)] yields. *)
Definition find_optimal_threshold (thresholds : list float)
  (data : list Sample.t) : Py float :=
  threshold_scan data thresholds (S754_zero false) (literal 5 10).

(** ** Vocabulary of the statements *)

(** [d[k]] on an association list. *)
Fixpoint assoc {A : Type} (k : string) (d : list (string * A)) : option A :=
  match d with
  | [] => None
  | (k', v) :: rest => if String.eqb k' k then Some v else assoc k rest
  end.

Definition keys {A : Type} (d : list (string * A)) : list string :=
  List.map fst d.

Definition returns {A : Type} (r : result A) : bool :=
  match r with
  | Ok _ => true
  | Raise _ => false
  end.

(** Every quotient [time_spent / 1000] of the list is a double. *)
Definition times_ok (l : list Response.t) : bool :=
  forallb (fun q => returns (time_spent_s q)) l.

(** The condition of the comprehension [slow_questions]. *)
Definition is_slow (q : Response.t) : bool :=
  match time_spent_s q with
  | Ok seconds => ltb (float_of_int 60) seconds
  | Raise _ => false
  end.

(** A response is listed by [entry]. *)
Definition slow_entry_of (q : Response.t) (entry : SlowQuestion.t) : Prop :=
  SlowQuestion.question_id entry = identifier q
  /\ SlowQuestion.topic entry = Response.topic_name q
  /\ time_spent_s q = Ok (SlowQuestion.time_spent_s entry).

(** The response enters the loop over topics under the key [topic]. *)
Definition has_topic (topic : string) (q : Response.t) : bool :=
  get_eqb (Response.topic_name q) topic && negb (String.eqb topic "").

(** The counts and the times the loop over topics gathers under one key,
    read off the responses themselves. *)
Definition topic_total (topic : string) (l : list Response.t) : Z :=
  count_if (has_topic topic) l.

Definition topic_correct (topic : string) (l : list Response.t) : Z :=
  count_if (fun q => has_topic topic q && is_correct q) l.

Definition represents (topic : string) (l : list Response.t)
  (entry : option TopicStats.t) : Prop :=
  match entry with
  | None => topic_total topic l = 0
  | Some stats =>
      TopicStats.total stats = topic_total topic l
      /\ 0 < TopicStats.total stats
      /\ TopicStats.correct stats = topic_correct topic l
      /\ Forall2 (fun q seconds => time_spent_s q = Ok seconds)
           (filter (has_topic topic) l) (TopicStats.time_spent_s stats)
  end.

(** What the loop leaves under each key is a non-empty, consistent
    count. *)
Definition stats_ok (stats : TopicStats.t) : Prop :=
  0 <= TopicStats.correct stats <= TopicStats.total stats
  /\ 0 < TopicStats.total stats
  /\ len (TopicStats.time_spent_s stats) = TopicStats.total stats.

(** The strings the two comprehensions store for a topic whose accuracy
    is [ratio]. *)
Definition weak_topic_text (format_2f : float -> string) (ratio : float)
  : string :=
  (format_2f (mul ratio (float_of_int 100)) ++ "%")%string.

Definition topic_cluster_text (format_2f : float -> string)
  (ratio mean : float) : string :=
  ("Acc: " ++ format_2f (mul ratio (float_of_int 100))
   ++ "%, Avg Time: " ++ format_2f mean ++ "s")%string.

(** The Module 1 and Module 2 responses of one subject. *)
Definition stage1 (student_data : list Response.t) (subject : string)
  : list Response.t :=
  module1_data_of (subject_data_of student_data subject).

Definition stage2 (student_data : list Response.t) (subject : string)
  : list Response.t :=
  module2_data_of (subject_data_of student_data subject).

(** [weak] and [clusters] are the two dictionaries of topics of the
    responses [l]: a topic no response carries has no entry; a topic
    some response carries has its cluster, computed from all the
    responses that carry it, and is weak exactly when its accuracy is
    below one half. *)
Definition topics_summarised (py_sum : list float -> float)
  (format_2f : float -> string) (l : list Response.t)
  (weak clusters : list (string * string)) : Prop :=
  forall topic,
    (topic_total topic l = 0 ->
     assoc topic clusters = None /\ assoc topic weak = None)
    /\ (0 < topic_total topic l ->
        exists ratio times mean,
          int_true_div (topic_correct topic l) (topic_total topic l)
          = Ok ratio
          /\ Forall2 (fun q seconds => time_spent_s q = Ok seconds)
               (filter (has_topic topic) l) times
          /\ float_div_int (py_sum times) (len times) = Ok mean
          /\ assoc topic clusters
             = Some (topic_cluster_text format_2f ratio mean)
          /\ assoc topic weak
             = if ltb ratio (literal 5 10)
               then Some (weak_topic_text format_2f ratio) else None).

(** The section label is neither the Module 1 label nor a Module 2 one. *)
Definition unlabelled (q : Response.t) : bool :=
  negb (get_eqb (Response.section q) "Static")
  && negb (get_in (Response.section q) module2_labels).

Definition is_call (e : event) : bool :=
  match e with
  | Printed _ => false
  | _ => true
  end.

(** A sample a candidate's record can hold: [0 <= correct <= total]. *)
Definition sample_ok (s : Sample.t) : bool :=
  (0 <=? Sample.module1_correct s)
  && (Sample.module1_correct s <=? Sample.module1_total s).

Definition tier_of (threshold ratio : float) : difficulty :=
  if leb threshold ratio then hard_tier else easy_tier.

(** The accuracy of a threshold as the specification words it: among
    the samples with a positive Module 1 total, the share whose
    predicted tier is the observed one; [0] when there is no such
    sample. *)
Definition valid_sample (s : Sample.t) : bool :=
  0 <? Sample.module1_total s.

Definition predicted_right (threshold : float) (s : Sample.t) : bool :=
  valid_sample s
  && match int_true_div (Sample.module1_correct s) (Sample.module1_total s)
     with
     | Ok ratio =>
         difficulty_eqb (tier_of threshold ratio)
           (if Sample.got_hard_module2 s then hard_tier else easy_tier)
     | Raise _ => false
     end.

Definition accuracy_by_counting (data : list Sample.t) (threshold : float)
  : result float :=
  if count_if valid_sample data =? 0 then Ok (S754_zero false)
  else int_true_div (count_if (predicted_right threshold) data)
         (count_if valid_sample data).

Definition accuracy_value (data : list Sample.t) (threshold : float)
  : float :=
  match accuracy_by_counting data threshold with
  | Ok accuracy => accuracy
  | Raise _ => S754_nan
  end.

(** The thresholds are scanned in ascending order. *)
Definition ascending (thresholds : list float) : Prop :=
  StronglySorted (fun x y => ltb x y = true) thresholds.

(** ** Sample inputs *)

(** A response with every field the engine reads. *)
Definition response (id subject section topic : string) (correct : bool)
  (time_spent : Z) : Response.t :=
  {| Response.question_id := Some id;
     Response._id := None;
     Response.subject_name := Some subject;
     Response.section := Some section;
     Response.topic_name := Some topic;
     Response.correct := Some correct;
     Response.time_spent := Some (PyInt time_spent);
     Response.compleixty := None;
     Response.complexity := None |}.

(** The analyzer [DSATWhatIfAnalyzer(None, 0.6)] builds. *)
Definition placeholder_analyzer : Analyzer.t :=
  {| Analyzer.scoring_maps := placeholder_maps;
     Analyzer.adaptive_threshold := literal 6 10;
     Analyzer.placeholder_scoring := true |}.

(** One instance of the two built-ins: summation from the left, and
    the decimal nearest to the exact binary value, ties to even, with
    two digits after the point. *)
Definition sum_from_left (l : list float) : float :=
  fold_left (SFadd prec emax) l (S754_zero false).

Definition digits_of (n : Z) : string :=
  NilZero.string_of_uint (N.to_uint (Z.to_N n)).

Definition format_hundredths (s : bool) (hundredths : Z) : string :=
  ((if s then "-" else "")
   ++ digits_of (hundredths / 100) ++ "."
   ++ digits_of (hundredths mod 100 / 10)
   ++ digits_of (hundredths mod 10))%string.

Definition format_2f_exact (x : float) : string :=
  match x with
  | S754_nan => "nan"
  | S754_infinity s => if s then "-inf" else "inf"
  | S754_zero s => format_hundredths s 0
  | S754_finite s m e =>
      if 0 <=? e then format_hundredths s (Z.pos m * 2 ^ e * 100)
      else
        let den := 2 ^ (- e) in
        let q := Z.pos m * 100 / den in
        let r := Z.pos m * 100 mod den in
        format_hundredths s
          match 2 * r ?= den with
          | Lt => q
          | Gt => q + 1
          | Eq => if Z.even q then q else q + 1
          end
  end.

(** A candidate with Math responses in Module 2 only. *)
Definition module2_only : list Response.t :=
  [response "q1" "Math" "Hard" "Algebra" true 30000].

(** A candidate with two Module 1 responses, two Module 2 responses and
    one response under a label of neither module. *)
Definition mixed_sections : list Response.t :=
  [response "q1" "Math" "Static" "Algebra" true 30000;
   response "q2" "Math" "Static" "Geometry" false 61000;
   response "q3" "Math" "Hard" "Algebra" true 60000;
   response "q4" "Math" "Review" "Geometry" false 90000;
   response "q5" "Math" "Adaptive" "Algebra" false 45000].

(** The candidate of the scenario: 20 of 22 Module 1 Math responses
    correct, no Module 2 response. *)
Definition twenty_of_twenty_two : list Response.t :=
  repeat (response "right" "Math" "Static" "Algebra" true 30000) 20
  ++ [response "wrong-1" "Math" "Static" "Geometry" false 30000;
      response "wrong-2" "Math" "Static" "Geometry" false 30000].

(** One sample, routed to the easy module after 20 of 22, and three
    ascending thresholds below its ratio. *)
Definition easy_after_20_of_22 : list Sample.t :=
  [ {| Sample.module1_correct := 20; Sample.module1_total := 22;
       Sample.got_hard_module2 := false |} ].

Definition three_thresholds : list float :=
  [literal 30 100; literal 35 100; literal 40 100].

(** The two samples of the script. *)
Definition script_samples : list Sample.t :=
  [ {| Sample.module1_correct := 20; Sample.module1_total := 22;
       Sample.got_hard_module2 := true |};
    {| Sample.module1_correct := 25; Sample.module1_total := 27;
       Sample.got_hard_module2 := true |} ].

(** Three incorrect Module 1 responses: one with both spellings of the
    complexity field, one with [complexity] only, one with neither. *)
Definition with_complexity (id : string)
  (compleixty complexity : option string) : Response.t :=
  {| Response.question_id := Some id;
     Response._id := None;
     Response.subject_name := Some "Math";
     Response.section := Some "Static";
     Response.topic_name := Some "Algebra";
     Response.correct := Some false;
     Response.time_spent := Some (PyInt 30000);
     Response.compleixty := compleixty;
     Response.complexity := complexity |}.

Definition three_labels : list Response.t :=
  [with_complexity "q1" (Some "medium") (Some "easy");
   with_complexity "q2" None (Some "hard");
   with_complexity "q3" None None].

(** ** Vocabulary of the further properties *)

(** What a call of the classifier leaves in the trace when the total is
    zero. *)
Definition determine_warning : list event :=
  [Enter_determine_module2_difficulty 0 0;
   Printed
     "Warning: No Module 1 questions found. Defaulting to 'easy' Module 2."].

(** The recorded time is a whole number of milliseconds (or missing,
    read as [0]), and it exceeds one minute. *)
Definition whole_time (q : Response.t) : bool :=
  match Response.time_spent q with
  | Some (PyFloatV _) => false
  | _ => true
  end.

Definition over_one_minute (q : Response.t) : bool :=
  match Response.time_spent q with
  | Some (PyInt ms) => 60000 <? ms
  | _ => false
  end.

(** The test [student['module1_total'] == 0] fails: the sample is
    counted. *)
Definition counted_sample (s : Sample.t) : bool :=
  negb (Sample.module1_total s =? 0).

(** The keys the loop over topics meets, in the order of the responses:
    the present, non-empty topic names. *)
Definition topic_labels (l : list Response.t) : list string :=
  flat_map (fun q => match Response.topic_name q with
                     | Some topic => if String.eqb topic "" then [] else [topic]
                     | None => []
                     end) l.

(** The distinct elements of a list, each at its first occurrence. *)
Definition first_occurrences (l : list string) : list string :=
  rev (nodup string_dec (rev l)).

(** [k in d] *)
Definition has_key {A : Type} (d : list (string * A)) (k : string) : bool :=
  match assoc k d with
  | Some _ => true
  | None => false
  end.

(** The topic is weak among the responses [l]: the quotient of its
    correct responses by its responses is below one half. *)
Definition is_weak_topic (l : list Response.t) (topic : string) : bool :=
  match int_true_div (topic_correct topic l) (topic_total topic l) with
  | Ok ratio => ltb ratio (literal 5 10)
  | Raise _ => false
  end.

(** [topics[topic]] creates a missing key at the end of the dictionary. *)
Definition add_label (ks : list string) (k : string) : list string :=
  if in_dec string_dec k ks then ks else ks ++ [k].

(** ** The loader and its surroundings *)

(** What [list(collection.find({"source_file": source_file}))] gives:
    the documents, a [PyMongoError] with its text, or another
    exception. *)
Inductive find_outcome :=
| Found (documents : list Response.t)
| PyMongoError (text : string)
| Find_raises (exception : string).

(** A path of the file system: absent, a JSON file holding a list of
    records, or a file [open] or [json.load] fails on. *)
Inductive file_state :=
| Absent
| Holds (records : list Response.t)
| Unreadable (exception : string).

(** The exceptions that leave [load_student_data]. *)
Inductive load_error :=
| FileNotFoundError (text : string)
| ValueError (text : string)
| Other_exception (exception : string).

Inductive outcome (A : Type) :=
| Returned (a : A)
| Raised (e : load_error).
Arguments Returned {A} a.
Arguments Raised {A} e.

Definition Load (A : Type) : Type := (list event * outcome A)%type.

Definition load_ret {A : Type} (a : A) : Load A := ([], Returned a).

Definition load_bind {A B : Type} (m : Load A) (f : A -> Load B) : Load B :=
  match m with
  | (l, Returned a) => let (l', r) := f a in (l ++ l', r)
  | (l, Raised e) => (l, Raised e)
  end.

Definition load_print (line : string) : Load unit :=
  ([Printed line], Returned tt).

Definition raise {A : Type} (e : load_error) : Load A := ([], Raised e).

Declare Scope load_scope.
Delimit Scope load_scope with load.
Notation "x <- m ;; k" := (load_bind m (fun x => k))
  (at level 61, m at next level, right associativity) : load_scope.
Notation "m ;; k" := (load_bind m (fun _ => k))
  (at level 61, right associativity) : load_scope.

(** [q.get('section', 'Unknown')] *)
Definition section_label (q : Response.t) : string :=
  match Response.section q with
  | Some s => s
  | None => "Unknown"
  end.

Definition identifier_eq_dec (a b : option string) : {a = b} + {a <> b}.
Proof. decide equality. apply string_dec. Defined.

(** [not data] *)
Definition is_empty {A : Type} (l : list A) : bool :=
  match l with
  | [] => true
  | _ :: _ => false
  end.

Definition duplicate_warning (source_file : string) : string :=
  "Warning: Duplicate question IDs detected in " ++ source_file
  ++ ". Using 'question_id' for uniqueness.".

Section Loader.

(** The file system, and the [repr] of the set of section labels (its
    order is the interpreter's) and of a list of records. *)
Variable files : string -> file_state.
Variable repr_sections : list string -> string.
Variable repr_records : list Response.t -> string.

(** The first [if] of [load_student_data]: the query of the
    collection.  It leaves the pair [(data, use_mongodb)]. *)
Definition query_collection (collection : option (string -> find_outcome))
  (source_file : string) (use_mongodb : bool)
  : Load (list Response.t * bool) :=
  (match use_mongodb, collection with
   | true, Some find =>
       match find source_file with
       | Found data =>
           if is_empty data then
             load_print ("No data found for " ++ source_file
                         ++ " in student_results collection. Falling back to local JSON file.") ;;
             load_ret (data, false)
           else load_ret (data, true)
       | PyMongoError e =>
           load_print ("MongoDB error: " ++ e
                       ++ ". Falling back to local JSON file.") ;;
           load_ret ([], false)
       | Find_raises e => raise (Other_exception e)
       end
   | _, _ => load_ret ([], use_mongodb)
   end)%load.

(** The second [if]: the local JSON file. *)
Definition read_local_file (source_file : string)
  (data : list Response.t) (use_mongodb : bool) : Load (list Response.t) :=
  if negb use_mongodb || is_empty data then
    match files source_file with
    | Absent =>
        raise (FileNotFoundError ("File " ++ source_file ++ " not found."))
    | Unreadable e => raise (Other_exception e)
    | Holds records => load_ret records
    end
  else load_ret data.

(** The rest of the method: the check of the data and the report. *)
Definition report_loaded (source_file : string) (data : list Response.t)
  : Load (list Response.t) :=
  (if is_empty data then
     raise (ValueError ("No valid data loaded from " ++ source_file ++ "."))
   else
     let sections := List.map section_label data in
     let question_ids := List.map identifier data in
     (if negb (len question_ids
               =? len (nodup identifier_eq_dec question_ids))
      then load_print (duplicate_warning source_file)
      else load_ret tt) ;;
     load_print ("Loaded " ++ source_file ++ ". Unique sections found: "
                 ++ repr_sections sections) ;;
     load_print ("First few records: " ++ repr_records (slice_to data 3)) ;;
     load_ret data)%load.

Definition load_student_data (collection : option (string -> find_outcome))
  (source_file : string) (use_mongodb : bool) : Load (list Response.t) :=
  (state <- query_collection collection source_file use_mongodb ;;
   data <- read_local_file source_file (fst state) (snd state) ;;
   report_loaded source_file data)%load.

End Loader.

(** The database has an answer for the file: a non-empty list of
    documents. *)
Definition database_answer (collection : option (string -> find_outcome))
  (source_file : string) (use_mongodb : bool)
  : option (list Response.t) :=
  match use_mongodb, collection with
  | true, Some find =>
      match find source_file with
      | Found (q :: data) => Some (q :: data)
      | _ => None
      end
  | _, _ => None
  end.

(** The query itself fails with an exception the loader does not
    catch. *)
Definition query_raises (collection : option (string -> find_outcome))
  (source_file : string) (use_mongodb : bool) : option string :=
  match use_mongodb, collection with
  | true, Some find =>
      match find source_file with
      | Find_raises e => Some e
      | _ => None
      end
  | _, _ => None
  end.
(** What the local JSON file gives the loader. *)
Definition local_file_outcome (files : string -> file_state)
  (source_file : string) : outcome (list Response.t) :=
  match files source_file with
  | Absent =>
      Raised (FileNotFoundError ("File " ++ source_file ++ " not found."))
  | Unreadable e => Raised (Other_exception e)
  | Holds [] =>
      Raised (ValueError ("No valid data loaded from " ++ source_file ++ "."))
  | Holds (q :: data) => Returned (q :: data)
  end.

(** ** The loop of the script over the files *)

(** One element of [results]. *)
Module Row.
Record t := { file : string; subject : string; scaled_score : Z }.
End Row.

(** What the handler [except Exception as e] of the loop can catch. *)
Inductive script_error :=
| Load_error (e : load_error)
| Engine_error (e : exn)
| KeyError (key : string).

(** [str(n)] for an [int]. *)
Definition str_int (n : Z) : string :=
  if n <? 0 then "-" ++ digits_of (- n) else digits_of n.

Definition difficulty_text (d : difficulty) : string :=
  match d with
  | hard_tier => "hard"
  | easy_tier => "easy"
  end.

Definition newline : string := String (Ascii.ascii_of_nat 10) "".

Section Script.

(** The built-ins of the engine and of the loader, the [repr] of the
    three kinds of values the loop prints, and [str(e)] for an
    exception of the engine. *)
Variable py_sum : list float -> float.
Variable format_2f : float -> string.
Variable files : string -> file_state.
Variable repr_sections : list string -> string.
Variable repr_records : list Response.t -> string.
Variable repr_topics : list (string * string) -> string.
Variable repr_slow : list SlowQuestion.t -> string.
Variable repr_high_impact : list HighImpact.t -> string.
Variable exception_text : exn -> string.

(** The globals [analyzer], [student_collection] and [use_mongodb]. *)
Variable analyzer : Analyzer.t.
Variable student_collection : string -> find_outcome.
Variable use_mongodb : bool.

Definition placeholder_mark : string :=
  if Analyzer.placeholder_scoring analyzer then "(placeholder)" else "".

Definition error_text (e : script_error) : string :=
  match e with
  | Load_error (FileNotFoundError text) => text
  | Load_error (ValueError text) => text
  | Load_error (Other_exception text) => text
  | Engine_error e => exception_text e
  | KeyError key => "'" ++ key ++ "'"
  end.

(** One turn of the loop over [performance.items()]: the lines printed
    and the rows appended to [results]. *)
Definition report_metrics (file_path : string)
  (item : string * Performance.t) : list event * list Row.t :=
  let '(subject, metrics) := item in
  let module1 := Performance.Module_1 metrics in
  let module2 := Performance.Module_2 metrics in
  if (Module1.total module1 =? 0) && (Module2.total module2 =? 0) then
    ([Printed ("Skipping " ++ subject ++ ": No questions found.")], [])
  else
    ([Printed (subject ++ ":");
      Printed ("  Module 1: " ++ str_int (Module1.correct module1) ++ "/"
               ++ str_int (Module1.total module1) ++ " ("
               ++ format_2f (mul (Module1.accuracy module1)
                               (float_of_int 100)) ++ "%)");
      Printed ("  Module 2: " ++ str_int (Module2.correct module2) ++ "/"
               ++ str_int (Module2.total module2) ++ " ("
               ++ difficulty_text (Module2.difficulty module2) ++ ")");
      Printed ("  Scaled Score: "
               ++ str_int (Performance.scaled_score metrics) ++ " "
               ++ placeholder_mark);
      Printed ("  Weak Topics: "
               ++ repr_topics (Performance.weak_topics metrics));
      Printed ("  Slow Questions (>60s): "
               ++ repr_slow (Performance.slow_questions metrics));
      Printed ("  Topic Clusters: "
               ++ repr_topics (Performance.topic_clusters metrics))],
     [{| Row.file := file_path;
         Row.subject := subject;
         Row.scaled_score := Performance.scaled_score metrics |}]).

Fixpoint report_performance (file_path : string)
  (performance : list (string * Performance.t))
  : list event * list Row.t :=
  match performance with
  | [] => ([], [])
  | item :: rest =>
      let '(out, rows) := report_metrics file_path item in
      let '(out', rows') := report_performance file_path rest in
      (out ++ out', rows ++ rows')
  end.

(** The loop over [what_if_results.items()]; [performance[subject]]
    raises [KeyError] for a missing key, and the rows appended before
    stay in [results]. *)
Fixpoint report_what_if (file_path : string)
  (performance : list (string * Performance.t))
  (what_if_results : list (string * WhatIf.t))
  : list event * list Row.t * option script_error :=
  match what_if_results with
  | [] => ([], [], None)
  | (subject, result) :: rest =>
      match assoc subject performance with
      | None => ([], [], Some (KeyError subject))
      | Some metrics =>
          let '(out, rows) :=
            if Module1.total (Performance.Module_1 metrics) =? 0 then
              ([Printed ("Skipping " ++ subject
                         ++ ": No Module 1 questions for what-if analysis.")],
               [])
            else
              ([Printed (subject ++ ":");
                Printed ("  Current Score: "
                         ++ str_int (WhatIf.current_score result) ++ " "
                         ++ placeholder_mark);
                Printed ("  New Score: "
                         ++ str_int (WhatIf.new_score result) ++ " "
                         ++ placeholder_mark);
                Printed ("  Score Gain: "
                         ++ str_int (WhatIf.score_gain result));
                Printed ("  High-Impact Questions: "
                         ++ repr_high_impact
                              (WhatIf.high_impact_questions result))],
               [{| Row.file := file_path;
                   Row.subject := subject ++ " (+2)";
                   Row.scaled_score := WhatIf.new_score result |}]) in
          let '(out', rows', caught) :=
            report_what_if file_path performance rest in
          (out ++ out', rows ++ rows', caught)
      end
  end.

(** The body of the loop [for file_path in file_paths]: the lines
    printed, the rows appended to [results], and the exception the
    handler caught, if any. *)
Definition analyze_file (file_path : string)
  : list event * list Row.t * option script_error :=
  let banner := [Printed (newline ++ "Analyzing student: " ++ file_path)] in
  let handler (e : script_error) :=
    [Printed ("Error processing " ++ file_path ++ ": " ++ error_text e)] in
  match load_student_data files repr_sections repr_records
          (if use_mongodb then Some student_collection else None)
          file_path use_mongodb with
  | (out1, Raised e) =>
      (banner ++ out1 ++ handler (Load_error e), [], Some (Load_error e))
  | (out1, Returned student_data) =>
      match analyze_performance py_sum format_2f analyzer student_data
              file_path with
      | (out2, Raise e) =>
          (banner ++ out1 ++ out2 ++ handler (Engine_error e), [],
           Some (Engine_error e))
      | (out2, Ok performance) =>
          let '(out3, rows3) := report_performance file_path performance in
          match what_if_analysis analyzer student_data file_path 2 with
          | (out4, Raise e) =>
              (banner ++ out1 ++ out2 ++ out3 ++ out4
               ++ handler (Engine_error e), rows3, Some (Engine_error e))
          | (out4, Ok what_if_results) =>
              let '(out5, rows5, caught) :=
                report_what_if file_path performance what_if_results in
              (banner ++ out1 ++ out2 ++ out3 ++ out4
               ++ [Printed (newline ++ "What-If Analysis (Correct 2 Additional Module 1 Questions):")]
               ++ out5
               ++ match caught with
                  | Some e => handler e
                  | None => []
                  end,
               rows3 ++ rows5, caught)
          end
      end
  end.

(** [results] after the loop over [file_paths]. *)
Fixpoint analyze_files (file_paths : list string)
  : list event * list Row.t :=
  match file_paths with
  | [] => ([], [])
  | file_path :: rest =>
      let '(out, rows, _) := analyze_file file_path in
      let '(out', rows') := analyze_files rest in
      (out ++ out', rows ++ rows')
  end.

End Script.

(** The rows the loop appends for one subject of one file. *)
Definition current_row (file_path subject : string)
  (performance : list (string * Performance.t)) : list Row.t :=
  match assoc subject performance with
  | Some metrics =>
      [{| Row.file := file_path;
          Row.subject := subject;
          Row.scaled_score := Performance.scaled_score metrics |}]
  | None => []
  end.

Definition what_if_row (file_path subject : string)
  (what_if_results : list (string * WhatIf.t)) : list Row.t :=
  match assoc subject what_if_results with
  | Some result =>
      [{| Row.file := file_path;
          Row.subject := subject ++ " (+2)";
          Row.scaled_score := WhatIf.new_score result |}]
  | None => []
  end.

(** The subjects with a Module 1 response. *)
Definition reported_subjects (student_data : list Response.t)
  : list string :=
  filter (fun subject => negb (len (stage1 student_data subject) =? 0))
    subjects.

(** ** The chart *)

(** [needle in s] on strings. *)
Fixpoint contains (needle s : string) : bool :=
  String.prefix needle s
  || match s with
     | EmptyString => false
     | String _ rest => contains needle rest
     end.

(** [s.split('/')[-1]]: what follows the last slash, the whole string
    when there is none. *)
Fixpoint last_segment (s : string) : string :=
  match s with
  | EmptyString => EmptyString
  | String c rest =>
      if contains "/" rest then last_segment rest
      else if Ascii.eqb c "/"%char then rest
      else s
  end.

(** One element of [labels], and the colour of its bar. *)
Definition chart_label (r : Row.t) : string :=
  Row.subject r ++ " (" ++ last_segment (Row.file r) ++ ")".

Definition bar_colour (label : string) : string :=
  if negb (contains "+2" label) then "#4CAF50" else "#66BB6A".

(** [labels], [scores] and the list given as [color]. *)
Definition chart_labels (results : list Row.t) : list string :=
  List.map chart_label results.

Definition chart_scores (results : list Row.t) : list Z :=
  List.map Row.scaled_score results.

Definition chart_colours (results : list Row.t) : list string :=
  List.map bar_colour (chart_labels results).

(** ** Sample surroundings *)

(** A file system with one JSON file, a collection with the documents
    of one file, and a [repr] that shows nothing. *)
Definition one_file (name : string) (records : list Response.t)
  : string -> file_state :=
  fun path => if String.eqb path name then Holds records else Absent.

Definition one_collection (name : string) (documents : list Response.t)
  : string -> find_outcome :=
  fun source_file =>
    if String.eqb source_file name then Found documents else Found [].

Definition no_repr {A : Type} (_ : A) : string := "...".

Definition exception_name (e : exn) : string :=
  match e with
  | ZeroDivisionError => "division by zero"
  | OverflowError => "integer division result too large for a float"
  end.

(** Two records with the same identifier. *)
Definition repeated_identifier : list Response.t :=
  [response "q1" "Math" "Static" "Algebra" true 30000;
   response "q1" "Math" "Static" "Geometry" false 61000].

(** [test] holds on the [2^k] integers from [base] on. *)
Fixpoint holds_on_block (test : Z -> bool) (k : nat) (base : Z) : bool :=
  match k with
  | O => test base
  | S k' =>
      holds_on_block test k' base
      && holds_on_block test k' (base + 2 ^ Z.of_nat k')
  end.

(** The order of the doubles: [SFcompare] is the lexicographic
    comparison of these triples, sign class first. *)
Definition rank (x : float) : option (Z * Z * Z) :=
  match x with
  | S754_nan => None
  | S754_infinity true => Some (-2, 0, 0)
  | S754_finite true m e => Some (-1, - e, Z.neg m)
  | S754_zero _ => Some (0, 0, 0)
  | S754_finite false m e => Some (1, e, Z.pos m)
  | S754_infinity false => Some (2, 0, 0)
  end.

Definition lex_compare (a b : Z * Z * Z) : comparison :=
  let '(a1, a2, a3) := a in
  let '(b1, b2, b3) := b in
  match a1 ?= b1 with
  | Eq => match a2 ?= b2 with
          | Eq => a3 ?= b3
          | c => c
          end
  | c => c
  end.

(** ** Integer division never overflows on a proper fraction

  The counts the analyzer divides satisfy [0 <= a <= b]; the rounded
  quotient is then at most one and [int_true_div] returns. *)

Section DivisionBounds.

Lemma digits2_pos_size (p : positive) : digits2_pos p = Pos.size p.
Proof. induction p; simpl; congruence. Qed.

Lemma Zdigits2_upper (m k : Z) :
  0 <= m < 2 ^ k -> 0 <= k -> Zdigits2 m <= k.
Proof.
  intros [Hm Hlt] Hk. destruct m as [|p|p]; simpl; try lia.
  rewrite digits2_pos_size.
  pose proof (Pos.size_le p) as Hs.
  assert (H2 : 2 ^ Z.pos (Pos.size p) <= 2 * Z.pos p).
  { change (2 * Z.pos p) with (Z.pos p~0).
    rewrite <- Pos2Z.inj_pow. apply Pos2Z.pos_le_pos. exact Hs. }
  destruct (Z_le_gt_dec (Z.pos (Pos.size p)) k) as [|Hgt]; [assumption|].
  exfalso.
  assert (2 ^ (k + 1) <= 2 ^ Z.pos (Pos.size p))
    by (apply Z.pow_le_mono_r; lia).
  replace (k + 1) with (Z.succ k) in H by lia.
  rewrite Z.pow_succ_r in H by lia. lia.
Qed.

Lemma Zdigits2_lower (m : Z) :
  0 < m -> 2 ^ (Zdigits2 m - 1) <= m.
Proof.
  intros Hm. destruct m as [|p|p]; try lia.
  cbn [Zdigits2]. rewrite digits2_pos_size.
  pose proof (Pos.size_le p) as Hs.
  assert (H2 : 2 ^ Z.pos (Pos.size p) <= 2 * Z.pos p).
  { change (2 * Z.pos p) with (Z.pos p~0).
    rewrite <- Pos2Z.inj_pow. apply Pos2Z.pos_le_pos. exact Hs. }
  replace (Z.pos (Pos.size p)) with (Z.succ (Z.pos (Pos.size p) - 1)) in H2
    at 1 by lia.
  rewrite Z.pow_succ_r in H2 by lia. lia.
Qed.

Lemma Zdigits2_nonneg (m : Z) : 0 <= Zdigits2 m.
Proof. destruct m; simpl; lia. Qed.

Lemma shr_1_bound (r : shr_record) :
  0 <= shr_m r -> 0 <= shr_m (shr_1 r) <= shr_m r.
Proof.
  destruct r as [m b s]; simpl; intros Hm.
  destruct m as [|[p|p|]|p]; simpl; lia.
Qed.

Lemma iter_shr_1_bound (p : positive) :
  forall r, 0 <= shr_m r -> 0 <= shr_m (iter_pos shr_1 p r) <= shr_m r.
Proof.
  induction p as [p IH|p IH|]; intros r Hr; simpl.
  - pose proof (shr_1_bound r Hr) as H1.
    pose proof (IH _ (proj1 H1)) as H2.
    pose proof (IH _ (proj1 H2)) as H3. lia.
  - pose proof (IH _ Hr) as H2.
    pose proof (IH _ (proj1 H2)) as H3. lia.
  - apply shr_1_bound; assumption.
Qed.

Lemma shr_fexp_bound (m e : Z) (l : location) :
  0 <= m ->
  let '(r, e') := shr_fexp prec emax m e l in
  0 <= shr_m r <= m /\ e' = Z.max e (fexp prec emax (Zdigits2 m + e)).
Proof.
  intros Hm. unfold shr_fexp, shr.
  assert (Hrec : shr_m (shr_record_of_loc m l) = m)
    by (destruct l as [|[]]; reflexivity).
  destruct (fexp prec emax (Zdigits2 m + e) - e) as [|n|n] eqn:En.
  - split; [rewrite Hrec; lia | lia].
  - split; [|lia].
    rewrite <- Hrec at 3. apply iter_shr_1_bound. rewrite Hrec; exact Hm.
  - split; [rewrite Hrec; lia | lia].
Qed.

Lemma round_nearest_even_bound (m : Z) (l : location) :
  0 <= m -> m <= round_nearest_even m l <= m + 1.
Proof.
  intros Hm. unfold round_nearest_even.
  destruct l as [|[]]; try lia. destruct (Z.even m); lia.
Qed.

Lemma binary_round_aux_finite (s : bool) (m e : Z) (l : location) :
  0 <= m <= 2 ^ (- e) -> -1074 <= e <= -53 ->
  is_finite (binary_round_aux prec emax s m e l) = true.
Proof.
  intros [Hm Hle] He. unfold binary_round_aux.
  pose proof (shr_fexp_bound m e l Hm) as H1.
  destruct (shr_fexp prec emax m e l) as [r1 e1].
  destruct H1 as [Hr1 He1].
  set (m2 := round_nearest_even (shr_m r1) (loc_of_shr_record r1)).
  pose proof (round_nearest_even_bound (shr_m r1) (loc_of_shr_record r1)
                (proj1 Hr1)) as Hm2.
  fold m2 in Hm2.
  assert (Hm2' : 0 <= m2) by lia.
  pose proof (shr_fexp_bound m2 e1 loc_Exact Hm2') as H2.
  destruct (shr_fexp prec emax m2 e1 loc_Exact) as [r2 e2].
  destruct H2 as [Hr2 He2].
  assert (Hd : Zdigits2 m <= - e + 1).
  { apply Zdigits2_upper; [|lia]. split; [lia|].
    rewrite Z.pow_add_r by lia. lia. }
  assert (Hp : 2 ^ (- e) <= 2 ^ 1074) by (apply Z.pow_le_mono_r; lia).
  assert (Hd2 : Zdigits2 m2 <= 1075).
  { apply Zdigits2_upper; [|lia]. split; [lia|].
    change (2 ^ 1075) with (2 ^ 1074 * 2).
    assert (0 < 2 ^ 1074) by (apply Z.pow_pos_nonneg; lia). lia. }
  pose proof (Zdigits2_nonneg m) as Hd0.
  assert (He1' : e1 <= -52)
    by (subst e1; unfold fexp, emin, prec, emax; lia).
  assert (He2' : e2 <= 971)
    by (subst e2; unfold fexp, emin, prec, emax; lia).
  destruct (shr_m r2) as [|p|p]; try lia.
  - reflexivity.
  - replace (e2 <=? emax - prec) with true
      by (symmetry; apply Z.leb_le; unfold prec, emax; lia).
    reflexivity.
Qed.

Lemma Zdigits2_mono (a b : Z) : 0 < a <= b -> Zdigits2 a <= Zdigits2 b.
Proof.
  intros [Ha Hab].
  pose proof (Zdigits2_lower a Ha) as Hl.
  destruct (Z_le_gt_dec (Zdigits2 a) (Zdigits2 b)) as [|Hgt]; [assumption|].
  exfalso.
  assert (Hb : b < 2 ^ (Zdigits2 a - 1)); [|lia].
  assert (Hu : 2 ^ Zdigits2 b <= 2 ^ (Zdigits2 a - 1)).
  { apply Z.pow_le_mono_r; [lia|]. lia. }
  enough (b < 2 ^ Zdigits2 b) by lia.
  destruct b as [|p|p]; try lia. cbn [Zdigits2].
  rewrite digits2_pos_size, <- Pos2Z.inj_pow.
  apply Pos2Z.pos_lt_pos, Pos.size_gt.
Qed.

Lemma SFdiv_proper_fraction_finite (a b : positive) :
  (a <= b)%positive ->
  is_finite (SFdiv prec emax (S754_finite false a 0) (S754_finite false b 0))
  = true.
Proof.
  intros Hab. unfold SFdiv, SFdiv_core_binary.
  assert (Hdig : Zdigits2 (Z.pos a) <= Zdigits2 (Z.pos b))
    by (apply Zdigits2_mono; lia).
  set (e' := Z.min _ _).
  assert (He' : -1074 <= e' <= -53).
  { subst e'. unfold fexp, emin, prec, emax. lia. }
  destruct (0 - 0 - e') as [|s|s] eqn:Es; try lia.
  destruct (Z.div_eucl (Z.shiftl (Z.pos a) (Z.pos s)) (Z.pos b))
    as [q r] eqn:Eq.
  apply binary_round_aux_finite; [|exact He'].
  assert (Hq : q = Z.shiftl (Z.pos a) (Z.pos s) / Z.pos b)
    by (unfold Z.div; rewrite Eq; reflexivity).
  rewrite Z.shiftl_mul_pow2 in Hq by lia.
  replace (- e') with (Z.pos s) by lia.
  assert (Hpow : 0 < 2 ^ Z.pos s) by (apply Z.pow_pos_nonneg; lia).
  subst q. split.
  - apply Z.div_pos; lia.
  - apply Z.div_le_upper_bound; [lia|]. nia.
Qed.

Lemma int_true_div_proper (a b : Z) :
  0 <= a <= b -> 0 < b -> exists r, int_true_div a b = Ok r.
Proof.
  intros Hab Hb. unfold int_true_div.
  replace (b =? 0) with false by (symmetry; apply Z.eqb_neq; lia).
  destruct b as [|pb|pb]; try lia.
  destruct a as [|pa|pa]; try lia.
  - simpl. eexists; reflexivity.
  - cbn [of_int].
    rewrite SFdiv_proper_fraction_finite by lia.
    eexists; reflexivity.
Qed.

End DivisionBounds.

(** ** Laws of the monad *)

Lemma value_ret {A : Type} (a : A) : value (ret a) = Ok a.
Proof. reflexivity. Qed.

Lemma value_lift {A : Type} (r : result A) : value (lift r) = r.
Proof. reflexivity. Qed.

Lemma value_bind {A B : Type} (m : Py A) (f : A -> Py B) :
  value (bind m f) =
  match value m with
  | Ok a => value (f a)
  | Raise e => Raise e
  end.
Proof.
  destruct m as [l [a|e]]; simpl; [|reflexivity].
  destruct (f a); reflexivity.
Qed.

(** ** Counting *)

Lemma len_nonneg {A : Type} (l : list A) : 0 <= len l.
Proof. unfold len; lia. Qed.

Lemma count_if_bounds {A : Type} (p : A -> bool) (l : list A) :
  0 <= count_if p l <= len l.
Proof.
  unfold count_if, len. pose proof (filter_length_le p l). lia.
Qed.

Lemma len_zero_nil {A : Type} (l : list A) : len l = 0 -> l = [].
Proof. destruct l; [reflexivity|]. unfold len; simpl; lia. Qed.

(** ** The order of the doubles *)

Lemma SFcompare_rank (x y : float) :
  SFcompare x y =
  match rank x, rank y with
  | Some a, Some b => Some (lex_compare a b)
  | _, _ => None
  end.
Proof.
  destruct x as [sx|sx| |sx mx ex], y as [sy|sy| |sy my ey];
    try reflexivity;
    try (destruct sx; reflexivity);
    try (destruct sy; reflexivity);
    try (destruct sx, sy; reflexivity).
  destruct sx, sy; try reflexivity; cbn [SFcompare rank lex_compare].
  rewrite Z.compare_opp, (Z.compare_antisym ex ey).
  change (-1 ?= -1) with Eq. cbv iota.
  destruct (ex ?= ey); reflexivity.
Qed.

Lemma lex_compare_trans (a b c : Z * Z * Z) :
  lex_compare a b = Lt -> lex_compare b c = Lt -> lex_compare a c = Lt.
Proof.
  destruct a as [[a1 a2] a3], b as [[b1 b2] b3], c as [[c1 c2] c3].
  unfold lex_compare.
  destruct (Z.compare_spec a1 b1), (Z.compare_spec b1 c1),
    (Z.compare_spec a1 c1); try discriminate; try lia; try reflexivity;
  destruct (Z.compare_spec a2 b2), (Z.compare_spec b2 c2),
    (Z.compare_spec a2 c2); try discriminate; try lia; try reflexivity;
  rewrite ?Z.compare_lt_iff; lia.
Qed.

Lemma lex_compare_le_lt (a b c : Z * Z * Z) :
  lex_compare b a <> Lt -> lex_compare b c = Lt -> lex_compare a c = Lt.
Proof.
  destruct a as [[a1 a2] a3], b as [[b1 b2] b3], c as [[c1 c2] c3].
  unfold lex_compare.
  destruct (Z.compare_spec a1 b1), (Z.compare_spec b1 c1),
    (Z.compare_spec a1 c1), (Z.compare_spec b1 a1);
    try congruence; try lia; try reflexivity;
  destruct (Z.compare_spec a2 b2), (Z.compare_spec b2 c2),
    (Z.compare_spec a2 c2), (Z.compare_spec b2 a2);
    try congruence; try lia; try reflexivity;
  rewrite ?Z.compare_lt_iff; intros; try lia.
Qed.

Lemma lex_compare_eq_sym (a b : Z * Z * Z) :
  lex_compare a b = Eq -> lex_compare b a = Eq.
Proof.
  destruct a as [[a1 a2] a3], b as [[b1 b2] b3]. unfold lex_compare.
  destruct (Z.compare_spec a1 b1); try discriminate.
  destruct (Z.compare_spec a2 b2); try discriminate.
  intros H3. apply Z.compare_eq_iff in H3. subst.
  now rewrite !Z.compare_refl.
Qed.

Lemma ltb_rank (x y : float) :
  ltb x y = true <->
  exists a b, rank x = Some a /\ rank y = Some b /\ lex_compare a b = Lt.
Proof.
  unfold ltb, SFltb. rewrite SFcompare_rank.
  destruct (rank x) as [a|], (rank y) as [b|]; split;
    try discriminate; try (intros (a' & b' & H1 & H2 & _); discriminate).
  - intros H. exists a, b. repeat split.
    destruct (lex_compare a b); congruence.
  - intros (a' & b' & H1 & H2 & H3).
    injection H1 as <-. injection H2 as <-. now rewrite H3.
Qed.

Lemma ltb_trans (x y z : float) :
  ltb x y = true -> ltb y z = true -> ltb x z = true.
Proof.
  rewrite !ltb_rank.
  intros (a & b & Ha & Hb & Hab) (b' & c & Hb' & Hc & Hbc).
  rewrite Hb in Hb'. injection Hb' as <-.
  exists a, c. repeat split; try assumption.
  eapply lex_compare_trans; eassumption.
Qed.

Lemma ltb_le_lt (x y z : float) :
  rank x <> None -> ltb y x = false -> ltb y z = true -> ltb x z = true.
Proof.
  intros Hx Hyx. rewrite !ltb_rank.
  intros (b & c & Hb & Hc & Hbc).
  destruct (rank x) as [a|] eqn:Ha; [|congruence].
  exists a, c. repeat split; try assumption.
  apply (lex_compare_le_lt a b c); [|assumption].
  intros Hlt.
  assert (ltb y x = true) by (apply ltb_rank; eauto).
  congruence.
Qed.

Lemma lex_compare_le_trans (a b c : Z * Z * Z) :
  lex_compare a b <> Gt -> lex_compare b c <> Gt -> lex_compare a c <> Gt.
Proof.
  destruct a as [[a1 a2] a3], b as [[b1 b2] b3], c as [[c1 c2] c3].
  unfold lex_compare.
  destruct (Z.compare_spec a1 b1), (Z.compare_spec b1 c1),
    (Z.compare_spec a1 c1); try congruence; try lia;
  destruct (Z.compare_spec a2 b2), (Z.compare_spec b2 c2),
    (Z.compare_spec a2 c2); try congruence; try lia;
  rewrite !Z.compare_gt_iff; intros; lia.
Qed.

Lemma leb_rank (x y : float) :
  leb x y = true <->
  exists a b, rank x = Some a /\ rank y = Some b /\ lex_compare a b <> Gt.
Proof.
  unfold leb, SFleb. rewrite SFcompare_rank.
  destruct (rank x) as [a|], (rank y) as [b|]; split;
    try discriminate; try (intros (a' & b' & H1 & H2 & _); discriminate).
  - intros H. exists a, b. repeat split.
    destruct (lex_compare a b); congruence.
  - intros (a' & b' & H1 & H2 & H3).
    injection H1 as <-. injection H2 as <-.
    destruct (lex_compare a b); congruence.
Qed.

Lemma leb_trans (x y z : float) :
  leb x y = true -> leb y z = true -> leb x z = true.
Proof.
  rewrite !leb_rank.
  intros (a & b & Ha & Hb & Hab) (b' & c & Hb' & Hc & Hbc).
  rewrite Hb in Hb'. injection Hb' as <-.
  exists a, c. repeat split; try assumption.
  eapply lex_compare_le_trans; eassumption.
Qed.

Lemma eqb_leb (x y : float) : eqb x y = true -> leb y x = true.
Proof.
  unfold eqb, leb, SFeqb, SFleb. rewrite !SFcompare_rank.
  destruct (rank x) as [a|], (rank y) as [b|]; try discriminate.
  destruct (lex_compare a b) eqn:E; try discriminate.
  now rewrite (lex_compare_eq_sym _ _ E).
Qed.


(** ** The difficulty classifier *)

Lemma determine_module2_difficulty_nonzero (self : Analyzer.t) (c t : Z) :
  t <> 0 ->
  determine_module2_difficulty self c t =
  ([Enter_determine_module2_difficulty c t],
   match int_true_div c t with
   | Ok ratio => Ok (tier_of (Analyzer.adaptive_threshold self) ratio)
   | Raise e => Raise e
   end).
Proof.
  intros Ht. unfold determine_module2_difficulty.
  replace (t =? 0) with false by (symmetry; apply Z.eqb_neq; exact Ht).
  destruct (int_true_div c t); reflexivity.
Qed.

(** C3. The classifier returns easy when the total is zero, where the
    quotient itself would raise; for a non-zero total whose quotient is
    the double [ratio] it returns hard exactly when
    [ratio >= adaptive_threshold], and easy otherwise; a ratio equal to
    the threshold is classified hard, and so is every ratio at or above
    one classified hard. *)
Theorem determine_module2_difficulty_spec (self : Analyzer.t) (c t : Z) :
  (t = 0 ->
   value (determine_module2_difficulty self c t) = Ok easy_tier
   /\ int_true_div c t = Raise ZeroDivisionError)
  /\ (forall ratio, t <> 0 -> int_true_div c t = Ok ratio ->
      (value (determine_module2_difficulty self c t) = Ok hard_tier
       <-> leb (Analyzer.adaptive_threshold self) ratio = true)
      /\ (value (determine_module2_difficulty self c t) = Ok easy_tier
          <-> leb (Analyzer.adaptive_threshold self) ratio = false)
      /\ (eqb ratio (Analyzer.adaptive_threshold self) = true ->
          value (determine_module2_difficulty self c t) = Ok hard_tier)
      /\ (forall c' t' ratio',
            t' <> 0 -> int_true_div c' t' = Ok ratio' ->
            leb ratio ratio' = true ->
            value (determine_module2_difficulty self c t) = Ok hard_tier ->
            value (determine_module2_difficulty self c' t') = Ok hard_tier)).
Proof.
  split.
  - intros ->. split; reflexivity.
  - intros ratio Ht Hdiv.
    rewrite (determine_module2_difficulty_nonzero self c t Ht), Hdiv.
    cbn [value snd]. unfold tier_of.
    split; [|split; [|split]].
    + destruct (leb _ ratio); split; congruence.
    + destruct (leb _ ratio); split; congruence.
    + intros Heq. rewrite (eqb_leb _ _ Heq). reflexivity.
    + intros c' t' ratio' Ht' Hdiv' Hle Hhard.
      rewrite (determine_module2_difficulty_nonzero self c' t' Ht'), Hdiv'.
      cbn [value snd]. unfold tier_of.
      destruct (leb (Analyzer.adaptive_threshold self) ratio) eqn:Hthr;
        [|discriminate].
      rewrite (leb_trans _ _ _ Hthr Hle). reflexivity.
Qed.

(** ** The scaled-score calculator *)

Lemma find_none_iff {A : Type} (p : A -> bool) (l : list A) :
  find p l = None <-> forall x, In x l -> p x = false.
Proof.
  split.
  - intros H x Hx. exact (find_none p l H x Hx).
  - induction l as [|a l IH]; intros H; [reflexivity|]. simpl.
    rewrite (H a (or_introl eq_refl)). apply IH.
    intros x Hx. apply H. right; exact Hx.
Qed.

Lemma calculate_scaled_score_value (self : Analyzer.t) (subject : string)
  (raw_score : Z) (d : difficulty) :
  value (calculate_scaled_score self subject raw_score d) =
  Ok match find (fun item => String.eqb (ScoringMap.key item) subject)
             (Analyzer.scoring_maps self) with
     | None => 200
     | Some item =>
         match find (fun score => Score.raw score =? raw_score)
                 (ScoringMap.map item) with
         | Some score => Score.at_tier score d
         | None => 200
         end
     end.
Proof.
  unfold calculate_scaled_score.
  destruct (find _ (Analyzer.scoring_maps self)) as [item|]; cbn [option_map];
    [|reflexivity].
  destruct (ScoringMap.map item) as [|score rest] eqn:Emap; [reflexivity|].
  rewrite value_bind. cbn [value enter snd].
  destruct (find _ (score :: rest)); reflexivity.
Qed.

Lemma calculate_scaled_score_returns (self : Analyzer.t) (subject : string)
  (raw_score : Z) (d : difficulty) :
  exists v, value (calculate_scaled_score self subject raw_score d) = Ok v.
Proof. rewrite calculate_scaled_score_value. eexists; reflexivity. Qed.

(** C4. When no item of the scoring maps has the subject's key, or no
    entry of the subject's map has exactly the raw score, the calculator
    returns 200; and any value it returns is either 200 or the tier's
    value of an entry whose raw score is exactly the one asked for. *)
Theorem calculate_scaled_score_exact_match (self : Analyzer.t)
  (subject : string) (raw_score : Z) (d : difficulty) :
  ((forall item, In item (Analyzer.scoring_maps self) ->
      ScoringMap.key item <> subject)
   \/ (exists item,
         find (fun item => String.eqb (ScoringMap.key item) subject)
           (Analyzer.scoring_maps self) = Some item
         /\ forall score, In score (ScoringMap.map item) ->
                          Score.raw score <> raw_score) ->
   value (calculate_scaled_score self subject raw_score d) = Ok 200)
  /\ (forall v,
        value (calculate_scaled_score self subject raw_score d) = Ok v ->
        v = 200
        \/ exists item score,
             In item (Analyzer.scoring_maps self)
             /\ ScoringMap.key item = subject
             /\ In score (ScoringMap.map item)
             /\ Score.raw score = raw_score
             /\ v = Score.at_tier score d).
Proof.
  rewrite calculate_scaled_score_value. split.
  - intros [Hnone | (item & Hfind & Hraw)].
    + replace (find _ (Analyzer.scoring_maps self)) with (@None ScoringMap.t);
        [reflexivity|].
      symmetry; apply find_none_iff. intros item Hin.
      apply String.eqb_neq. apply Hnone; exact Hin.
    + rewrite Hfind.
      replace (find _ (ScoringMap.map item)) with (@None Score.t);
        [reflexivity|].
      symmetry; apply find_none_iff. intros score Hin.
      apply Z.eqb_neq. apply Hraw; exact Hin.
  - intros v Hv. injection Hv as <-.
    destruct (find _ (Analyzer.scoring_maps self)) as [item|] eqn:Hitem;
      [|left; reflexivity].
    destruct (find _ (ScoringMap.map item)) as [score|] eqn:Hscore;
      [|left; reflexivity].
    right. exists item, score.
    apply find_some in Hitem. apply find_some in Hscore.
    destruct Hitem as [Hin Hkey], Hscore as [Hin' Hraw].
    apply String.eqb_eq in Hkey. apply Z.eqb_eq in Hraw.
    repeat split; assumption.
Qed.

(** ** The placeholder maps *)

Lemma placeholder_mode (adaptive_threshold : float) :
  value (__init__ None adaptive_threshold) =
  Ok {| Analyzer.scoring_maps := placeholder_maps;
        Analyzer.adaptive_threshold := adaptive_threshold;
        Analyzer.placeholder_scoring := true |}.
Proof. reflexivity. Qed.

(** The placeholder values that do lie in [200, 800]: every easy value,
    every Reading and Writing hard value, and the Math hard values up to
    a raw score of 40. *)
Lemma placeholder_values_in_range :
  forall item score,
    In item placeholder_maps -> In score (ScoringMap.map item) ->
    200 <= Score.easy score <= 800
    /\ 200 <= Score.hard score
    /\ (ScoringMap.key item = "Reading and Writing" -> Score.hard score <= 800)
    /\ (ScoringMap.key item = "Math" ->
        (Score.hard score <= 800 <-> Score.raw score <= 40)).
Proof.
  intros item score Hitem Hscore.
  destruct Hitem as [<- | [<- | []]]; cbn [ScoringMap.map ScoringMap.key] in *;
    apply in_map_iff in Hscore; destruct Hscore as (i & <- & Hi);
    unfold range in Hi; apply in_map_iff in Hi; destruct Hi as (n & <- & Hn);
    apply in_seq in Hn; cbn [Score.easy Score.hard Score.raw];
    repeat split; try lia; try discriminate.
Qed.

(** C2. With no map supplied, the Math map the constructor builds holds
    the hard value 860 at raw score 44, above 800. *)
Theorem placeholder_math_hard_exceeds_800 (adaptive_threshold : float) :
  value (self <- __init__ None adaptive_threshold ;;
         calculate_scaled_score self "Math" 44 hard_tier) = Ok 860
  /\ In {| Score.raw := 44; Score.hard := 860; Score.easy := 640 |}
       (match value (__init__ None adaptive_threshold) with
        | Ok self =>
            match Analyzer.scoring_maps self with
            | math :: _ => ScoringMap.map math
            | [] => []
            end
        | Raise _ => []
        end)
  /\ ~ (200 <= 860 <= 800).
Proof.
  split; [reflexivity|]. split; [|lia].
  cbn. do 44 right. left. reflexivity.
Qed.

(** ** Slow questions *)

Lemma times_ok_cons (q : Response.t) (l : list Response.t) :
  times_ok (q :: l) = true ->
  (exists seconds, time_spent_s q = Ok seconds) /\ times_ok l = true.
Proof.
  unfold times_ok; cbn [forallb]. intros H.
  apply andb_true_iff in H. destruct H as [Hq Hl]. split; [|exact Hl].
  destruct (time_spent_s q) as [seconds|e]; [eauto|discriminate].
Qed.

Lemma times_ok_filter (p : Response.t -> bool) (l : list Response.t) :
  times_ok l = true -> times_ok (filter p l) = true.
Proof.
  unfold times_ok. rewrite !forallb_forall.
  intros H q Hq. apply filter_In in Hq. apply H, Hq.
Qed.

Lemma slow_questions_of_spec (l : list Response.t) :
  times_ok l = true ->
  exists entries,
    slow_questions_of l = ([], Ok entries)
    /\ Forall2 slow_entry_of (filter is_slow l) entries.
Proof.
  induction l as [|q l IH]; intros Hok.
  - exists []. split; [reflexivity|constructor].
  - apply times_ok_cons in Hok. destruct Hok as [[seconds Hq] Hl].
    destruct (IH Hl) as (entries & Hrun & Hspec).
    cbn [slow_questions_of filter]. unfold is_slow at 1. rewrite Hq.
    cbn [lift bind app].
    destruct (ltb (float_of_int 60) seconds).
    + cbn [bind app]. rewrite Hrun. cbn [bind app ret].
      eexists. split; [reflexivity|].
      constructor; [|exact Hspec].
      repeat split; assumption.
    + exists entries. rewrite Hrun. split; [reflexivity|exact Hspec].
Qed.


Lemma slow_questions_of_times_ok (l : list Response.t) :
  forall entries,
    value (slow_questions_of l) = Ok entries -> times_ok l = true.
Proof.
  induction l as [|q l IH]; intros entries Hrun; [reflexivity|].
  cbn [slow_questions_of] in Hrun. rewrite value_bind, value_lift in Hrun.
  unfold times_ok. cbn [forallb]. fold (times_ok l).
  destruct (time_spent_s q) as [seconds|e]; [|discriminate].
  cbn [returns andb].
  destruct (ltb (float_of_int 60) seconds).
  - rewrite value_bind, value_lift, value_bind in Hrun.
    destruct (value (slow_questions_of l)) as [rest|e] eqn:Hrest;
      [|discriminate].
    exact (IH rest eq_refl).
  - exact (IH entries Hrun).
Qed.

(** ** The dictionary of topics *)

Lemma count_if_app {A : Type} (p : A -> bool) (l1 l2 : list A) :
  count_if p (l1 ++ l2) = count_if p l1 + count_if p l2.
Proof. unfold count_if, len. rewrite filter_app, length_app. lia. Qed.

Lemma count_if_one {A : Type} (p : A -> bool) (x : A) :
  count_if p [x] = if p x then 1 else 0.
Proof. unfold count_if, len. simpl. destruct (p x); reflexivity. Qed.

Lemma assoc_topics_update (topic k : string)
  (f : TopicStats.t -> TopicStats.t) (d : list (string * TopicStats.t)) :
  assoc k (topics_update topic f d) =
  if String.eqb topic k
  then Some (f match assoc topic d with
               | Some stats => stats
               | None => TopicStats.default
               end)
  else assoc k d.
Proof.
  induction d as [|[k' stats] d IH]; cbn [topics_update assoc].
  - reflexivity.
  - destruct (String.eqb_spec k' topic) as [->|Hk'].
    + cbn [assoc]. destruct (String.eqb topic k); reflexivity.
    + cbn [assoc]. rewrite IH.
      destruct (String.eqb_spec k' k) as [->|Hk].
      * destruct (String.eqb_spec topic k) as [->|]; congruence.
      * reflexivity.
Qed.

Lemma keys_topics_update (topic k : string)
  (f : TopicStats.t -> TopicStats.t) (d : list (string * TopicStats.t)) :
  In k (keys (topics_update topic f d)) <-> k = topic \/ In k (keys d).
Proof.
  induction d as [|[k' stats] d IH]; cbn [topics_update keys List.map fst In].
  - intuition congruence.
  - destruct (String.eqb_spec k' topic) as [->|Hk'];
      cbn [keys List.map fst In].
    + intuition congruence.
    + fold (keys (topics_update topic f d)). rewrite IH.
      fold (keys d). intuition congruence.
Qed.

Lemma nodup_topics_update (topic : string)
  (f : TopicStats.t -> TopicStats.t) (d : list (string * TopicStats.t)) :
  NoDup (keys d) -> NoDup (keys (topics_update topic f d)).
Proof.
  induction d as [|[k' stats] d IH]; cbn [topics_update keys List.map fst].
  - intros _. constructor; [intros []|constructor].
  - intros Hnd. inversion Hnd as [|? ? Hnotin Hnd']; subst.
    destruct (String.eqb_spec k' topic) as [->|Hk'];
      cbn [keys List.map fst]; [exact Hnd|].
    constructor.
    + fold (keys (topics_update topic f d)).
      rewrite keys_topics_update. intros [->|Hin]; [congruence|].
      apply Hnotin. exact Hin.
    + apply IH. exact Hnd'.
Qed.

Lemma has_topic_name (topic : string) (q : Response.t) :
  has_topic topic q = true ->
  Response.topic_name q = Some topic /\ topic <> "".
Proof.
  unfold has_topic, get_eqb. intros H. apply andb_true_iff in H.
  destruct H as [Hname Hne].
  destruct (Response.topic_name q) as [name|]; [|discriminate].
  apply String.eqb_eq in Hname. subst name. split; [reflexivity|].
  intros ->. discriminate.
Qed.

Lemma has_topic_of_name (topic : string) (q : Response.t) :
  Response.topic_name q = Some topic -> topic <> "" ->
  forall k, has_topic k q = String.eqb topic k.
Proof.
  intros Hname Hne k. unfold has_topic, get_eqb. rewrite Hname.
  destruct (String.eqb_spec topic k) as [<-|]; [|reflexivity].
  apply String.eqb_neq in Hne. rewrite Hne. reflexivity.
Qed.

Lemma represents_skip (k : string) (l : list Response.t) (q : Response.t)
  (entry : option TopicStats.t) :
  has_topic k q = false ->
  represents k l entry -> represents k (l ++ [q]) entry.
Proof.
  intros Hq. unfold represents, topic_total, topic_correct.
  rewrite !count_if_app, !count_if_one, filter_app. cbn [filter].
  rewrite Hq, app_nil_r. cbn [andb]. rewrite !Z.add_0_r. exact (fun H => H).
Qed.

Lemma topics_step_spec (d : list (string * TopicStats.t))
  (l : list Response.t) (q : Response.t) (seconds : float) :
  time_spent_s q = Ok seconds ->
  NoDup (keys d) ->
  (forall k, represents k l (assoc k d)) ->
  exists d',
    topics_step d q = ([], Ok d')
    /\ NoDup (keys d')
    /\ forall k, represents k (l ++ [q]) (assoc k d').
Proof.
  intros Hq Hnd Hrep. unfold topics_step.
  destruct (Response.topic_name q) as [topic|] eqn:Hname.
  - destruct (String.eqb_spec topic "") as [->|Hne].
    + exists d. repeat split; try assumption.
      intros k. apply represents_skip; [|apply Hrep].
      unfold has_topic, get_eqb. rewrite Hname.
      destruct (String.eqb_spec "" k) as [<-|]; reflexivity.
    + rewrite Hq. cbn [lift bind ret app].
      eexists. split; [reflexivity|]. split.
      * apply nodup_topics_update; exact Hnd.
      * intros k. rewrite assoc_topics_update.
        pose proof (has_topic_of_name topic q Hname Hne k) as Hk.
        destruct (String.eqb_spec topic k) as [Heq|Hneq].
        -- rewrite <- Heq in *. clear Heq. specialize (Hrep topic).
           unfold represents, topic_total, topic_correct in *.
           rewrite !count_if_app, !count_if_one, filter_app. cbn [filter].
           rewrite Hk. cbn [andb TopicStats.total TopicStats.correct
                              TopicStats.time_spent_s].
           destruct (assoc topic d) as [stats|].
           ++ destruct Hrep as (Ht & Hpos & Hc & Htimes).
              split; [lia|]. split; [lia|]. split.
              ** destruct (is_correct q); lia.
              ** apply Forall2_app; [exact Htimes|].
                 constructor; [exact Hq|constructor].
           ++ cbn [TopicStats.default TopicStats.total TopicStats.correct
                     TopicStats.time_spent_s].
              assert (Hc0 : count_if (fun q0 => has_topic topic q0
                                                && is_correct q0) l = 0).
              { pose proof (count_if_bounds
                              (fun q0 => has_topic topic q0 && is_correct q0) l)
                  as [Hlo _].
                assert (count_if (fun q0 => has_topic topic q0
                                            && is_correct q0) l
                        <= count_if (has_topic topic) l); [|lia].
                unfold count_if, len. apply inj_le.
                clear. induction l as [|x l IH]; [apply le_n|]. cbn [filter].
                destruct (has_topic topic x); cbn [andb].
                - destruct (is_correct x); cbn [List.length]; lia.
                - exact IH. }
              assert (Hnil : filter (has_topic topic) l = []).
              { apply len_zero_nil. exact Hrep. }
              split; [lia|]. split; [lia|]. split.
              ** destruct (is_correct q); lia.
              ** rewrite Hnil. cbn [app].
                 constructor; [exact Hq|constructor].
        -- apply represents_skip; [exact Hk|apply Hrep].
  - exists d. repeat split; try assumption.
    intros k. apply represents_skip; [|apply Hrep].
    unfold has_topic, get_eqb. rewrite Hname. reflexivity.
Qed.

Lemma topics_fold_from (l : list Response.t) :
  forall (d : list (string * TopicStats.t)) (l0 : list Response.t),
    times_ok l = true ->
    NoDup (keys d) ->
    (forall k, represents k l0 (assoc k d)) ->
    exists d',
      foldM topics_step d l = ([], Ok d')
      /\ NoDup (keys d')
      /\ forall k, represents k (l0 ++ l) (assoc k d').
Proof.
  induction l as [|q l IH]; intros d l0 Hok Hnd Hrep.
  - exists d. rewrite app_nil_r. repeat split; assumption.
  - apply times_ok_cons in Hok. destruct Hok as [[seconds Hq] Hl].
    destruct (topics_step_spec d l0 q seconds Hq Hnd Hrep)
      as (d1 & Hstep & Hnd1 & Hrep1).
    destruct (IH d1 (l0 ++ [q]) Hl Hnd1 Hrep1) as (d' & Hrun & Hnd' & Hrep').
    exists d'. cbn [foldM]. rewrite Hstep. cbn [bind app].
    rewrite Hrun. split; [reflexivity|]. split; [exact Hnd'|].
    intros k. specialize (Hrep' k). rewrite <- app_assoc in Hrep'.
    exact Hrep'.
Qed.

Lemma topics_fold_spec (l : list Response.t) :
  times_ok l = true ->
  exists d,
    foldM topics_step [] l = ([], Ok d)
    /\ NoDup (keys d)
    /\ forall k, represents k l (assoc k d).
Proof.
  intros Hok.
  apply (topics_fold_from l [] [] Hok); [constructor|].
  intros k. reflexivity.
Qed.

Lemma topic_correct_le_total (topic : string) (l : list Response.t) :
  0 <= topic_correct topic l <= topic_total topic l.
Proof.
  unfold topic_correct, topic_total. split; [apply count_if_bounds|].
  unfold count_if, len. apply inj_le.
  induction l as [|x l IH]; [apply le_n|]. cbn [filter].
  destruct (has_topic topic x); cbn [andb].
  - destruct (is_correct x); cbn [List.length]; lia.
  - exact IH.
Qed.

Lemma assoc_in {A : Type} (k : string) (v : A) (d : list (string * A)) :
  NoDup (keys d) -> In (k, v) d -> assoc k d = Some v.
Proof.
  induction d as [|[k' v'] d IH]; intros Hnd Hin; [destruct Hin|].
  cbn [keys List.map fst] in Hnd. inversion Hnd as [|? ? Hnotin Hnd']; subst.
  cbn [assoc]. destruct Hin as [Heq|Hin].
  - injection Heq as -> ->. rewrite String.eqb_refl. reflexivity.
  - destruct (String.eqb_spec k' k) as [->|]; [|apply IH; assumption].
    exfalso. apply Hnotin. change (In (fst (k, v)) (List.map fst d)).
    apply in_map. exact Hin.
Qed.

Lemma assoc_none {A : Type} (k : string) (d : list (string * A)) :
  ~ In k (keys d) -> assoc k d = None.
Proof.
  induction d as [|[k' v'] d IH]; intros Hnotin; [reflexivity|].
  cbn [assoc]. cbn [keys List.map fst In] in Hnotin.
  destruct (String.eqb_spec k' k) as [->|]; [tauto|].
  apply IH. intros Hin. apply Hnotin. right. exact Hin.
Qed.

Lemma assoc_keys {A : Type} (k : string) (d : list (string * A)) :
  In k (keys d) <-> exists v, assoc k d = Some v.
Proof.
  induction d as [|[k' v'] d IH]; cbn [keys List.map fst In assoc].
  - split; [intros []|intros [v Hv]; discriminate].
  - destruct (String.eqb_spec k' k) as [->|Hne].
    + split; [eauto|auto].
    + fold (keys d). rewrite IH. split; [intros [?|?]; [congruence|assumption]|auto].
Qed.

Lemma represents_stats_ok (l : list Response.t)
  (d : list (string * TopicStats.t)) :
  NoDup (keys d) ->
  (forall k, represents k l (assoc k d)) ->
  forall k stats, In (k, stats) d -> stats_ok stats.
Proof.
  intros Hnd Hrep k stats Hin. specialize (Hrep k).
  rewrite (assoc_in k stats d Hnd Hin) in Hrep.
  destruct Hrep as (Ht & Hpos & Hc & Htimes).
  pose proof (topic_correct_le_total k l) as Hle.
  unfold stats_ok. rewrite Hc, Ht. repeat split; try lia.
  apply Forall2_length in Htimes. unfold topic_total, count_if, len.
  rewrite Htimes. reflexivity.
Qed.

(** ** The aggregation of one subject *)

Section Aggregation.

Variable py_sum : list float -> float.
Variable format_2f : float -> string.

Lemma weak_topics_of_spec (d : list (string * TopicStats.t)) :
  NoDup (keys d) ->
  (forall k stats, In (k, stats) d -> stats_ok stats) ->
  exists weak,
    weak_topics_of format_2f d = ([], Ok weak)
    /\ forall k,
         assoc k weak =
         match assoc k d with
         | Some stats =>
             match int_true_div (TopicStats.correct stats)
                     (TopicStats.total stats) with
             | Ok ratio =>
                 if ltb ratio (literal 5 10)
                 then Some (weak_topic_text format_2f ratio) else None
             | Raise _ => None
             end
         | None => None
         end.
Proof.
  induction d as [|[topic stats] d IH]; intros Hnd Hok.
  - exists []. split; [reflexivity|]. intros k; reflexivity.
  - cbn [keys List.map fst] in Hnd.
    inversion Hnd as [|? ? Hnotin Hnd']; subst.
    destruct (IH Hnd') as (weak & Hrun & Hspec).
    { intros k st Hin. apply (Hok k st). right; exact Hin. }
    destruct (Hok topic stats (or_introl eq_refl)) as (Hc & Hpos & _).
    destruct (int_true_div_proper _ _ Hc Hpos) as [ratio Hdiv].
    cbn [weak_topics_of].
    replace (0 <? TopicStats.total stats) with true
      by (symmetry; apply Z.ltb_lt; exact Hpos).
    rewrite Hdiv. cbn [lift bind ret app].
    destruct (ltb ratio (literal 5 10)) eqn:Hweak.
    + cbn [bind app]. rewrite Hrun. cbn [bind app ret].
      eexists. split; [reflexivity|].
      intros k. cbn [assoc].
      destruct (String.eqb topic k); [|apply Hspec].
      rewrite Hdiv, Hweak. reflexivity.
    + exists weak. split; [rewrite Hrun; reflexivity|].
      intros k. cbn [assoc].
      destruct (String.eqb_spec topic k) as [<-|]; [|apply Hspec].
      rewrite Hdiv, Hweak, Hspec, (assoc_none topic d Hnotin). reflexivity.
Qed.

Lemma topic_clusters_of_spec (d : list (string * TopicStats.t)) :
  (forall k stats, In (k, stats) d -> stats_ok stats) ->
  exists clusters,
    topic_clusters_of py_sum format_2f d = ([], Ok clusters)
    /\ keys clusters = keys d
    /\ forall k,
         assoc k clusters =
         match assoc k d with
         | Some stats =>
             match int_true_div (TopicStats.correct stats)
                     (TopicStats.total stats),
                   float_div_int (py_sum (TopicStats.time_spent_s stats))
                     (len (TopicStats.time_spent_s stats)) with
             | Ok ratio, Ok mean =>
                 Some (topic_cluster_text format_2f ratio mean)
             | _, _ => None
             end
         | None => None
         end.
Proof.
  induction d as [|[topic stats] d IH]; intros Hok.
  - exists []. repeat split.
  - destruct IH as (clusters & Hrun & Hkeys & Hspec).
    { intros k st Hin. apply (Hok k st). right; exact Hin. }
    destruct (Hok topic stats (or_introl eq_refl)) as (Hc & Hpos & Hlen).
    destruct (int_true_div_proper _ _ Hc Hpos) as [ratio Hdiv].
    assert (Hmean : exists mean,
               float_div_int (py_sum (TopicStats.time_spent_s stats))
                 (len (TopicStats.time_spent_s stats)) = Ok mean).
    { unfold float_div_int. rewrite Hlen.
      replace (TopicStats.total stats =? 0) with false
        by (symmetry; apply Z.eqb_neq; lia).
      eexists; reflexivity. }
    destruct Hmean as [mean Hmean].
    cbn [topic_clusters_of].
    replace (0 <? TopicStats.total stats) with true
      by (symmetry; apply Z.ltb_lt; exact Hpos).
    rewrite Hdiv, Hmean. cbn [lift bind ret app].
    rewrite Hrun. cbn [bind app ret].
    eexists. split; [reflexivity|]. split.
    + cbn [keys List.map fst]. f_equal. exact Hkeys.
    + intros k. cbn [assoc].
      destruct (String.eqb topic k); [|apply Hspec].
      rewrite Hdiv, Hmean. reflexivity.
Qed.

End Aggregation.

Ltac value_step H :=
  rewrite value_bind in H;
  match type of H with
  | match ?v with Ok _ => _ | Raise _ => _ end = _ =>
      let E := fresh "E" in
      destruct v eqn:E; [|discriminate H]
  end.

Section Analysis.

Variable py_sum : list float -> float.
Variable format_2f : float -> string.
Variable self : Analyzer.t.
Variable student_data : list Response.t.
Variable source_file subject : string.

Abbreviation subject_data := (subject_data_of student_data subject).
Abbreviation c1 := (count_if is_correct (stage1 student_data subject)).
Abbreviation t1 := (len (stage1 student_data subject)).
Abbreviation c2 := (count_if is_correct (stage2 student_data subject)).
Abbreviation t2 := (len (stage2 student_data subject)).

Lemma value_module2_note :
  value (if t2 =? 0
         then print ("Warning: No Module 2 questions found for " ++ subject
                     ++ " in " ++ source_file
                     ++ ". Scores based on Module 1 only.")%string
         else ret tt) = Ok tt.
Proof. destruct (t2 =? 0); reflexivity. Qed.

Lemma topics_summarised_intro (l : list Response.t)
  (topics : list (string * TopicStats.t)) (weak clusters : list (string * string)) :
  NoDup (keys topics) ->
  (forall k, represents k l (assoc k topics)) ->
  weak_topics_of format_2f topics = ([], Ok weak) ->
  topic_clusters_of py_sum format_2f topics = ([], Ok clusters) ->
  topics_summarised py_sum format_2f l weak clusters.
Proof.
  intros Hnd Hrep Hweak Hclusters.
  pose proof (represents_stats_ok l topics Hnd Hrep) as Hstats.
  destruct (weak_topics_of_spec format_2f topics Hnd Hstats)
    as (weak' & Hweak' & Hw).
  destruct (topic_clusters_of_spec py_sum format_2f topics Hstats)
    as (clusters' & Hclusters' & _ & Hc).
  rewrite Hweak in Hweak'. injection Hweak' as <-.
  rewrite Hclusters in Hclusters'. injection Hclusters' as <-.
  intros topic. specialize (Hrep topic). rewrite (Hw topic), (Hc topic).
  destruct (assoc topic topics) as [stats|] eqn:Hassoc.
  - destruct Hrep as (Ht & Hpos & Hcorrect & Htimes). split; [lia|].
    intros _.
    assert (Hok : stats_ok stats).
    { apply (Hstats topic). clear - Hassoc.
      induction topics as [|[k v] d IH]; [discriminate|].
      cbn [assoc] in Hassoc.
      destruct (String.eqb_spec k topic) as [->|].
      - injection Hassoc as ->. left; reflexivity.
      - right. apply IH. exact Hassoc. }
    destruct Hok as (Hbounds & _ & Hlen).
    destruct (int_true_div_proper _ _ Hbounds Hpos) as [ratio Hdiv].
    assert (Hnz : (len (TopicStats.time_spent_s stats) =? 0) = false)
      by (apply Z.eqb_neq; lia).
    rewrite Hdiv. rewrite <- Hcorrect, <- Ht.
    exists ratio, (TopicStats.time_spent_s stats). eexists.
    unfold float_div_int. rewrite Hnz.
    split; [exact Hdiv|]. split; [exact Htimes|].
    split; [reflexivity|]. split; reflexivity.
  - cbn [represents] in Hrep. split; [intros _; split; reflexivity|lia].
Qed.

(** With a Module 1 response and representable times the body runs to
    its end, and each field of the summary is the value of the step that
    computes it. *)
Lemma analyze_subject_returns :
  t1 <> 0 -> times_ok subject_data = true ->
  exists ratio scaled slow weak clusters,
    int_true_div c1 t1 = Ok ratio
    /\ value (calculate_scaled_score self subject (c1 + c2)
                (tier_of (Analyzer.adaptive_threshold self) ratio)) = Ok scaled
    /\ Forall2 slow_entry_of (filter is_slow subject_data) slow
    /\ topics_summarised py_sum format_2f subject_data weak clusters
    /\ value (analyze_subject py_sum format_2f self student_data source_file
                subject)
       = Ok {| Performance.Module_1 :=
                 {| Module1.correct := c1; Module1.total := t1;
                    Module1.accuracy := ratio |};
               Performance.Module_2 :=
                 {| Module2.correct := c2; Module2.total := t2;
                    Module2.difficulty :=
                      tier_of (Analyzer.adaptive_threshold self) ratio |};
               Performance.raw_score := c1 + c2;
               Performance.scaled_score := scaled;
               Performance.slow_questions := slow;
               Performance.weak_topics := weak;
               Performance.topic_clusters := clusters |}.
Proof.
  intros Ht Hok.
  assert (Hpos : 0 < t1)
    by (pose proof (len_nonneg (stage1 student_data subject)); lia).
  destruct (int_true_div_proper c1 t1) as [ratio Hdiv];
    [apply count_if_bounds|exact Hpos|].
  destruct (calculate_scaled_score_returns self subject (c1 + c2)
              (tier_of (Analyzer.adaptive_threshold self) ratio))
    as [scaled Hscaled].
  destruct (slow_questions_of_spec subject_data Hok) as (slow & Hslow & Hslow').
  destruct (topics_fold_spec subject_data Hok)
    as (topics & Htopics & Hnd & Hrep).
  pose proof (represents_stats_ok subject_data topics Hnd Hrep) as Hstats.
  destruct (weak_topics_of_spec format_2f topics Hnd Hstats)
    as (weak & Hweak & _).
  destruct (topic_clusters_of_spec py_sum format_2f topics Hstats)
    as (clusters & Hclusters & _).
  exists ratio, scaled, slow, weak, clusters.
  repeat (split; [assumption|]).
  split; [exact (topics_summarised_intro _ _ _ _ Hnd Hrep Hweak Hclusters)|].
  unfold analyze_subject. cbv zeta.
  fold (stage1 student_data subject). fold (stage2 student_data subject).
  replace (t1 =? 0) with false by (symmetry; apply Z.eqb_neq; exact Ht).
  replace (0 <? t1) with true by (symmetry; apply Z.ltb_lt; exact Hpos).
  rewrite value_bind, value_module2_note.
  rewrite value_bind, (determine_module2_difficulty_nonzero self c1 t1 Ht), Hdiv.
  cbn [value snd].
  rewrite value_bind, Hscaled.
  rewrite value_bind, Hslow. cbn [value snd].
  rewrite value_bind, Htopics. cbn [value snd].
  rewrite value_bind, value_lift.
  rewrite value_bind, Hweak. cbn [value snd].
  rewrite value_bind, Hclusters. cbn [value snd].
  reflexivity.
Qed.

(** C5. When the subject has no Module 1 response, the body prints one
    warning and returns the zeroed summary: scaled score 200, raw score
    0, no weak topic, no topic cluster, no slow question; its trace
    holds no entry into the classifier or the calculator. *)
Theorem analyze_subject_without_module1 :
  t1 = 0 ->
  exists summary,
    value (analyze_subject py_sum format_2f self student_data source_file
             subject) = Ok summary
    /\ Performance.scaled_score summary = 200
    /\ Performance.raw_score summary = 0
    /\ Performance.weak_topics summary = []
    /\ Performance.topic_clusters summary = []
    /\ Performance.slow_questions summary = []
    /\ Performance.Module_1 summary
       = {| Module1.correct := 0; Module1.total := 0;
            Module1.accuracy := S754_zero false |}
    /\ Performance.Module_2 summary
       = {| Module2.correct := 0; Module2.total := 0;
            Module2.difficulty := easy_tier |}
    /\ output (analyze_subject py_sum format_2f self student_data source_file
                 subject)
       = [Printed ("Warning: No Module 1 questions found for " ++ subject
                   ++ " in " ++ source_file ++ ". Skipping scoring.")%string]
    /\ forall e,
         In e (output (analyze_subject py_sum format_2f self student_data
                         source_file subject)) ->
         is_call e = false.
Proof.
  intros Ht. exists zeroed_performance.
  unfold analyze_subject. cbv zeta.
  fold (stage1 student_data subject). rewrite Ht.
  cbn [Z.eqb bind print ret app value output fst snd].
  repeat (split; [reflexivity|]).
  intros e [<-|[]]. reflexivity.
Qed.

(** A summary is returned only when every time is representable. *)
Lemma analyze_subject_times_ok (summary : Performance.t) :
  t1 <> 0 ->
  value (analyze_subject py_sum format_2f self student_data source_file
           subject) = Ok summary ->
  times_ok subject_data = true.
Proof.
  intros Ht Hrun. unfold analyze_subject in Hrun. cbv zeta in Hrun.
  fold (stage1 student_data subject) in Hrun.
  replace (t1 =? 0) with false in Hrun
    by (symmetry; apply Z.eqb_neq; exact Ht).
  do 4 value_step Hrun.
  eapply slow_questions_of_times_ok. eassumption.
Qed.


End Analysis.

(** ** The what-if simulation of one subject *)

Lemma determine_module2_difficulty_returns (self : Analyzer.t) (c t : Z) :
  0 <= c <= t ->
  exists d, value (determine_module2_difficulty self c t) = Ok d.
Proof.
  intros Hc. destruct (Z.eq_dec t 0) as [->|Ht].
  - eexists. reflexivity.
  - rewrite (determine_module2_difficulty_nonzero self c t Ht).
    destruct (int_true_div_proper c t Hc) as [ratio ->]; [lia|].
    eexists. reflexivity.
Qed.

Section Simulation.

Variable self : Analyzer.t.
Variable student_data : list Response.t.
Variable subject : string.

Abbreviation c1 := (count_if is_correct (stage1 student_data subject)).
Abbreviation t1 := (len (stage1 student_data subject)).
Abbreviation c2 := (count_if is_correct (stage2 student_data subject)).
Abbreviation incorrect1 :=
  (filter (fun q => negb (is_correct q)) (stage1 student_data subject)).

(** The body of the simulation is its four calls in a row. *)
Lemma what_if_subject_value (additional_correct : Z) :
  value (what_if_subject self student_data subject additional_correct) =
  match value (determine_module2_difficulty self c1 t1) with
  | Raise e => Raise e
  | Ok current_difficulty =>
      match value (calculate_scaled_score self subject (c1 + c2)
                     current_difficulty) with
      | Raise e => Raise e
      | Ok current_score =>
          match value (determine_module2_difficulty self
                         (Z.min (c1 + additional_correct) t1) t1) with
          | Raise e => Raise e
          | Ok new_difficulty =>
              match value (calculate_scaled_score self subject
                             (Z.min (c1 + additional_correct) t1 + c2)
                             new_difficulty) with
              | Raise e => Raise e
              | Ok new_score =>
                  Ok {| WhatIf.current_score := current_score;
                        WhatIf.new_score := new_score;
                        WhatIf.score_gain := new_score - current_score;
                        WhatIf.high_impact_questions :=
                          List.map high_impact_entry
                            (slice_to incorrect1 additional_correct) |}
              end
          end
      end
  end.
Proof.
  unfold what_if_subject. cbv zeta.
  fold (stage1 student_data subject). fold (stage2 student_data subject).
  rewrite value_bind.
  destruct (value (determine_module2_difficulty self c1 t1)) as [d0|e];
    [|reflexivity].
  rewrite value_bind.
  destruct (value (calculate_scaled_score self subject (c1 + c2) d0))
    as [s0|e]; [|reflexivity].
  rewrite value_bind.
  destruct (value (determine_module2_difficulty self
                     (Z.min (c1 + additional_correct) t1) t1)) as [d1|e];
    [|reflexivity].
  rewrite value_bind.
  destruct (value (calculate_scaled_score self subject
                     (Z.min (c1 + additional_correct) t1 + c2) d1))
    as [s1|e]; reflexivity.
Qed.

Lemma what_if_subject_returns (additional_correct : Z) :
  0 <= additional_correct ->
  exists current_difficulty current_score new_difficulty new_score,
    value (determine_module2_difficulty self c1 t1) = Ok current_difficulty
    /\ value (calculate_scaled_score self subject (c1 + c2)
                current_difficulty) = Ok current_score
    /\ value (determine_module2_difficulty self
                (Z.min (c1 + additional_correct) t1) t1) = Ok new_difficulty
    /\ value (calculate_scaled_score self subject
                (Z.min (c1 + additional_correct) t1 + c2) new_difficulty)
       = Ok new_score
    /\ value (what_if_subject self student_data subject additional_correct)
       = Ok {| WhatIf.current_score := current_score;
               WhatIf.new_score := new_score;
               WhatIf.score_gain := new_score - current_score;
               WhatIf.high_impact_questions :=
                 List.map high_impact_entry
                   (slice_to incorrect1 additional_correct) |}.
Proof.
  intros Ha.
  pose proof (count_if_bounds is_correct (stage1 student_data subject)) as Hc.
  destruct (determine_module2_difficulty_returns self c1 t1 Hc) as [d0 Hd0].
  destruct (calculate_scaled_score_returns self subject (c1 + c2) d0)
    as [s0 Hs0].
  destruct (determine_module2_difficulty_returns self
              (Z.min (c1 + additional_correct) t1) t1) as [d1 Hd1]; [lia|].
  destruct (calculate_scaled_score_returns self subject
              (Z.min (c1 + additional_correct) t1 + c2) d1) as [s1 Hs1].
  exists d0, s0, d1, s1. repeat (split; [assumption|]).
  rewrite what_if_subject_value, Hd0, Hs0, Hd1, Hs1. reflexivity.
Qed.

(** C6. For a non-negative number of additional correct answers the
    simulation returns; its new score is the calculator's value at the
    subject, the raw score [min(c1 + additional, t1) + c2] and the
    difficulty the classifier gives for [min(c1 + additional, t1)] out
    of [t1], where [c2] is the unchanged count of correct Module 2
    responses; and the gain is the new score minus the current one. *)
Theorem what_if_subject_hypothetical (additional_correct : Z) :
  0 <= additional_correct ->
  exists outcome new_difficulty,
    value (what_if_subject self student_data subject additional_correct)
    = Ok outcome
    /\ value (determine_module2_difficulty self
                (Z.min (c1 + additional_correct) t1) t1) = Ok new_difficulty
    /\ value (calculate_scaled_score self subject
                (Z.min (c1 + additional_correct) t1 + c2) new_difficulty)
       = Ok (WhatIf.new_score outcome)
    /\ WhatIf.score_gain outcome
       = WhatIf.new_score outcome - WhatIf.current_score outcome.
Proof.
  intros Ha.
  destruct (what_if_subject_returns additional_correct Ha)
    as (d0 & s0 & d1 & s1 & _ & _ & Hd1 & Hs1 & Hrun).
  eexists. exists d1. split; [exact Hrun|]. split; [exact Hd1|].
  split; [exact Hs1|reflexivity].
Qed.

Lemma slice_to_nonneg {A : Type} (l : list A) (n : Z) :
  0 <= n -> slice_to l n = firstn (Z.to_nat n) l.
Proof.
  intros Hn. unfold slice_to.
  replace (0 <=? n) with true by (symmetry; apply Z.leb_le; exact Hn).
  reflexivity.
Qed.

Lemma Forall2_map_right {A B : Type} (R : A -> B -> Prop) (f : A -> B)
  (l : list A) :
  (forall a, R a (f a)) -> Forall2 R l (List.map f l).
Proof.
  intros H. induction l as [|a l IH]; cbn [List.map]; constructor;
    [apply H|exact IH].
Qed.

(** C7. For a non-negative number of additional correct answers,
    [high_impact_questions] holds one entry for each of the first
    [additional_correct] incorrect Module 1 responses, in their order
    in the input, hence [min(additional_correct, number of incorrect
    Module 1 responses)] entries.  The entry of a response carries its
    [question_id], or its [_id] when that key is missing; the name of
    its topic; and as complexity the value of its field [compleixty]
    when present, else the value of its field [complexity] when
    present, else "Unknown".  Every response listed is one of the
    subject, under the label 'Static', and not marked correct. *)
Theorem high_impact_questions_first_incorrect (additional_correct : Z) :
  0 <= additional_correct ->
  exists outcome,
    value (what_if_subject self student_data subject additional_correct)
    = Ok outcome
    /\ WhatIf.high_impact_questions outcome
       = List.map high_impact_entry
           (firstn (Z.to_nat additional_correct) incorrect1)
    /\ len (WhatIf.high_impact_questions outcome)
       = Z.min additional_correct (len incorrect1)
    /\ Forall2
         (fun q entry =>
            HighImpact.question_id entry
            = match Response.question_id q with
              | Some id => Some id
              | None => Response._id q
              end
            /\ HighImpact.topic entry = Response.topic_name q
            /\ HighImpact.complexity entry
               = match Response.compleixty q, Response.complexity q with
                 | Some label, _ => label
                 | None, Some label => label
                 | None, None => "Unknown"
                 end)
         (firstn (Z.to_nat additional_correct) incorrect1)
         (WhatIf.high_impact_questions outcome)
    /\ (forall q,
          In q incorrect1 ->
          In q student_data
          /\ Response.subject_name q = Some subject
          /\ Response.section q = Some "Static"
          /\ Response.correct q <> Some true)
    /\ (forall q,
          HighImpact.question_id (high_impact_entry q) = identifier q
          /\ HighImpact.topic (high_impact_entry q) = Response.topic_name q
          /\ HighImpact.complexity (high_impact_entry q) = complexity_label q)
    /\ (forall q,
          Response.compleixty q = None -> Response.complexity q = None ->
          HighImpact.complexity (high_impact_entry q) = "Unknown").
Proof.
  intros Ha.
  destruct (what_if_subject_returns additional_correct Ha)
    as (d0 & s0 & d1 & s1 & _ & _ & _ & _ & Hrun).
  eexists. split; [exact Hrun|]. cbn [WhatIf.high_impact_questions].
  rewrite (slice_to_nonneg _ _ Ha). split; [reflexivity|].
  split; [|split; [|split; [|split]]].
  - unfold len. rewrite length_map, length_firstn. lia.
  - apply Forall2_map_right. intros q.
    cbn [high_impact_entry HighImpact.question_id HighImpact.topic
           HighImpact.complexity].
    unfold identifier, complexity_label.
    destruct (Response.question_id q), (Response.compleixty q),
      (Response.complexity q); repeat split; reflexivity.
  - intros q Hq. apply filter_In in Hq. destruct Hq as [Hq Hwrong].
    unfold stage1, module1_data_of, subject_data_of in Hq.
    apply filter_In in Hq. destruct Hq as [Hq Hstatic].
    apply filter_In in Hq. destruct Hq as [Hq Hsubject].
    split; [exact Hq|]. unfold get_eqb in Hstatic, Hsubject.
    split; [|split].
    + destruct (Response.subject_name q) as [name|]; [|discriminate].
      apply String.eqb_eq in Hsubject. subst name. reflexivity.
    + destruct (Response.section q) as [label|]; [|discriminate].
      apply String.eqb_eq in Hstatic. subst label. reflexivity.
    + unfold is_correct in Hwrong. intros Hc. rewrite Hc in Hwrong.
      discriminate.
  - intros q. repeat split.
  - intros q H1 H2. cbn [high_impact_entry HighImpact.complexity].
    unfold complexity_label. rewrite H1, H2. reflexivity.
Qed.

End Simulation.

(** ** The two methods as loops over the subjects *)

Lemma analyze_performance_value (py_sum : list float -> float)
  (format_2f : float -> string) (self : Analyzer.t)
  (student_data : list Response.t) (source_file : string) :
  value (analyze_performance py_sum format_2f self student_data source_file) =
  match value (analyze_subject py_sum format_2f self student_data
                 source_file "Math") with
  | Raise e => Raise e
  | Ok math =>
      match value (analyze_subject py_sum format_2f self student_data
                     source_file "Reading and Writing") with
      | Raise e => Raise e
      | Ok reading => Ok [("Math", math); ("Reading and Writing", reading)]
      end
  end.
Proof.
  unfold analyze_performance, subjects. cbn [mapM].
  rewrite !value_bind.
  destruct (value (analyze_subject _ _ _ _ _ "Math")) as [math|e];
    [|reflexivity].
  rewrite value_ret, !value_bind.
  destruct (value (analyze_subject _ _ _ _ _ "Reading and Writing"))
    as [reading|e]; reflexivity.
Qed.

Lemma what_if_analysis_value (self : Analyzer.t)
  (student_data : list Response.t) (source_file : string)
  (additional_correct : Z) :
  value (what_if_analysis self student_data source_file additional_correct) =
  match value (what_if_subject self student_data "Math" additional_correct)
  with
  | Raise e => Raise e
  | Ok math =>
      match value (what_if_subject self student_data "Reading and Writing"
                     additional_correct) with
      | Raise e => Raise e
      | Ok reading => Ok [("Math", math); ("Reading and Writing", reading)]
      end
  end.
Proof.
  unfold what_if_analysis, subjects. cbn [mapM].
  rewrite !value_bind.
  destruct (value (what_if_subject _ _ "Math" _)) as [math|e];
    [|reflexivity].
  rewrite value_ret, !value_bind.
  destruct (value (what_if_subject _ _ "Reading and Writing" _))
    as [reading|e]; reflexivity.
Qed.

Lemma analyze_performance_assoc (py_sum : list float -> float)
  (format_2f : float -> string) (self : Analyzer.t)
  (student_data : list Response.t) (source_file subject : string)
  (performance : list (string * Performance.t)) (summary : Performance.t) :
  value (analyze_performance py_sum format_2f self student_data source_file)
  = Ok performance ->
  assoc subject performance = Some summary ->
  In subject subjects
  /\ value (analyze_subject py_sum format_2f self student_data source_file
              subject) = Ok summary.
Proof.
  rewrite analyze_performance_value.
  destruct (value (analyze_subject _ _ _ _ _ "Math")) as [math|e] eqn:Hmath;
    [|discriminate].
  destruct (value (analyze_subject _ _ _ _ _ "Reading and Writing"))
    as [reading|e] eqn:Hreading; [|discriminate].
  intros Htable Hassoc. injection Htable as <-. cbn [assoc] in Hassoc.
  destruct (String.eqb_spec "Math" subject) as [<-|_].
  - injection Hassoc as <-. split; [left; reflexivity|exact Hmath].
  - destruct (String.eqb_spec "Reading and Writing" subject) as [<-|_];
      [|discriminate].
    injection Hassoc as <-. split; [right; left; reflexivity|exact Hreading].
Qed.

Lemma what_if_analysis_assoc (self : Analyzer.t)
  (student_data : list Response.t) (source_file subject : string)
  (additional_correct : Z) (results : list (string * WhatIf.t))
  (outcome : WhatIf.t) :
  value (what_if_analysis self student_data source_file additional_correct)
  = Ok results ->
  assoc subject results = Some outcome ->
  In subject subjects
  /\ value (what_if_subject self student_data subject additional_correct)
     = Ok outcome.
Proof.
  rewrite what_if_analysis_value.
  destruct (value (what_if_subject _ _ "Math" _)) as [math|e] eqn:Hmath;
    [|discriminate].
  destruct (value (what_if_subject _ _ "Reading and Writing" _))
    as [reading|e] eqn:Hreading; [|discriminate].
  intros Htable Hassoc. injection Htable as <-. cbn [assoc] in Hassoc.
  destruct (String.eqb_spec "Math" subject) as [<-|_].
  - injection Hassoc as <-. split; [left; reflexivity|exact Hmath].
  - destruct (String.eqb_spec "Reading and Writing" subject) as [<-|_];
      [|discriminate].
    injection Hassoc as <-. split; [right; left; reflexivity|exact Hreading].
Qed.

(** ** Current score and scaled score *)

Lemma analyze_subject_scaled_score (py_sum : list float -> float)
  (format_2f : float -> string) (self : Analyzer.t)
  (student_data : list Response.t) (source_file subject : string)
  (summary : Performance.t) :
  len (stage1 student_data subject) <> 0 ->
  value (analyze_subject py_sum format_2f self student_data source_file
           subject) = Ok summary ->
  exists d,
    value (determine_module2_difficulty self
             (count_if is_correct (stage1 student_data subject))
             (len (stage1 student_data subject))) = Ok d
    /\ value (calculate_scaled_score self subject
                (count_if is_correct (stage1 student_data subject)
                 + count_if is_correct (stage2 student_data subject)) d)
       = Ok (Performance.scaled_score summary).
Proof.
  intros Ht Hrun. unfold analyze_subject in Hrun. cbv zeta in Hrun.
  fold (stage1 student_data subject) in Hrun.
  fold (stage2 student_data subject) in Hrun.
  replace (len (stage1 student_data subject) =? 0) with false in Hrun
    by (symmetry; apply Z.eqb_neq; exact Ht).
  do 8 value_step Hrun.
  rewrite value_ret in Hrun. injection Hrun as <-.
  eexists. split; [reflexivity|]. cbn [Performance.scaled_score]. assumption.
Qed.

(** C1, amended. For a subject with at least one Module 1 response, the
    current score of the simulation equals the scaled score of the
    summary whenever both are returned, by the two loop bodies and
    hence in the dictionaries of the two methods; and both are returned
    when the times are representable and the number of additional
    correct answers is not negative. *)
Theorem current_score_is_scaled_score (py_sum : list float -> float)
  (format_2f : float -> string) (self : Analyzer.t)
  (student_data : list Response.t) (source_file subject : string)
  (additional_correct : Z) :
  len (stage1 student_data subject) <> 0 ->
  (forall summary outcome,
     value (analyze_subject py_sum format_2f self student_data source_file
              subject) = Ok summary ->
     value (what_if_subject self student_data subject additional_correct)
     = Ok outcome ->
     WhatIf.current_score outcome = Performance.scaled_score summary)
  /\ (forall performance results summary outcome,
        value (analyze_performance py_sum format_2f self student_data
                 source_file) = Ok performance ->
        value (what_if_analysis self student_data source_file
                 additional_correct) = Ok results ->
        assoc subject performance = Some summary ->
        assoc subject results = Some outcome ->
        WhatIf.current_score outcome = Performance.scaled_score summary)
  /\ (times_ok (subject_data_of student_data subject) = true ->
      0 <= additional_correct ->
      exists summary outcome,
        value (analyze_subject py_sum format_2f self student_data source_file
                 subject) = Ok summary
        /\ value (what_if_subject self student_data subject
                    additional_correct) = Ok outcome
        /\ WhatIf.current_score outcome = Performance.scaled_score summary).
Proof.
  intros Ht.
  assert (Heq : forall summary outcome,
     value (analyze_subject py_sum format_2f self student_data source_file
              subject) = Ok summary ->
     value (what_if_subject self student_data subject additional_correct)
     = Ok outcome ->
     WhatIf.current_score outcome = Performance.scaled_score summary).
  { intros summary outcome Hsummary Houtcome.
    destruct (analyze_subject_scaled_score _ _ _ _ _ _ _ Ht Hsummary)
      as (d & Hd & Hs).
    rewrite what_if_subject_value, Hd, Hs in Houtcome.
    destruct (value (determine_module2_difficulty self _ _)) as [d1|e];
      [|discriminate].
    destruct (value (calculate_scaled_score self subject _ d1)) as [s1|e];
      [|discriminate].
    injection Houtcome as <-. reflexivity. }
  split; [exact Heq|]. split.
  { intros performance results summary outcome Hp Hr Hs Ho.
    apply (Heq summary outcome).
    - exact (proj2 (analyze_performance_assoc _ _ _ _ _ _ _ _ Hp Hs)).
    - exact (proj2 (what_if_analysis_assoc _ _ _ _ _ _ _ Hr Ho)). }
  intros Hok Ha.
  destruct (analyze_subject_returns py_sum format_2f self student_data
              source_file subject Ht Hok)
    as (ratio & scaled & slow & weak & clusters & _ & _ & _ & _ & Hsummary).
  destruct (what_if_subject_returns self student_data subject
              additional_correct Ha)
    as (d0 & s0 & d1 & s1 & _ & _ & _ & _ & Houtcome).
  eexists. eexists. split; [exact Hsummary|]. split; [exact Houtcome|].
  exact (Heq _ _ Hsummary Houtcome).
Qed.

(** C1 as stated fails without Module 1 responses: for a candidate
    whose only Math response is a correct Module 2 one, the summary
    holds the scaled score 200 and the simulation the current score
    210. *)
Lemma current_score_differs_without_module1 :
  exists summary outcome,
    value (analyze_subject sum_from_left format_2f_exact placeholder_analyzer
             module2_only "attempt.json" "Math") = Ok summary
    /\ value (what_if_subject placeholder_analyzer module2_only "Math" 2)
       = Ok outcome
    /\ len (stage1 module2_only "Math") = 0
    /\ Performance.scaled_score summary = 200
    /\ WhatIf.current_score outcome = 210
    /\ WhatIf.current_score outcome <> Performance.scaled_score summary.
Proof.
  eexists. eexists. split; [vm_compute; reflexivity|].
  split; [vm_compute; reflexivity|].
  split; [reflexivity|]. split; [reflexivity|]. split; [reflexivity|].
  cbn. discriminate.
Qed.

(** ** Responses under a label of neither module *)

Lemma filter_swap {A : Type} (p q : A -> bool) (l : list A) :
  filter p (filter q l) = filter q (filter p l).
Proof.
  induction l as [|x l IH]; [reflexivity|]. cbn [filter].
  destruct (p x) eqn:Hp, (q x) eqn:Hq; cbn [filter];
    rewrite ?Hp, ?Hq, IH; reflexivity.
Qed.

Lemma filter_absorb {A : Type} (p q : A -> bool) (l : list A) :
  (forall x, p x = true -> q x = true) ->
  filter p (filter q l) = filter p l.
Proof.
  intros Himp. induction l as [|x l IH]; [reflexivity|]. cbn [filter].
  destruct (q x) eqn:Hq; cbn [filter].
  - rewrite IH. reflexivity.
  - rewrite IH. destruct (p x) eqn:Hp; [|reflexivity].
    rewrite (Himp x Hp) in Hq. discriminate.
Qed.

Lemma subject_data_of_filter (p : Response.t -> bool)
  (student_data : list Response.t) (subject : string) :
  subject_data_of (filter p student_data) subject
  = filter p (subject_data_of student_data subject).
Proof. unfold subject_data_of. apply filter_swap. Qed.

Lemma stage1_without_unlabelled (student_data : list Response.t)
  (subject : string) :
  stage1 (filter (fun q => negb (unlabelled q)) student_data) subject
  = stage1 student_data subject.
Proof.
  unfold stage1. rewrite subject_data_of_filter.
  unfold module1_data_of. apply filter_absorb.
  intros q Hq. unfold unlabelled. rewrite Hq. reflexivity.
Qed.

Lemma stage2_without_unlabelled (student_data : list Response.t)
  (subject : string) :
  stage2 (filter (fun q => negb (unlabelled q)) student_data) subject
  = stage2 student_data subject.
Proof.
  unfold stage2. rewrite subject_data_of_filter.
  unfold module2_data_of. apply filter_absorb.
  intros q Hq. unfold unlabelled. rewrite Hq.
  rewrite andb_false_r. reflexivity.
Qed.

Lemma unlabelled_in_neither_stage (student_data : list Response.t)
  (subject : string) (q : Response.t) :
  unlabelled q = true ->
  ~ In q (stage1 student_data subject) /\ ~ In q (stage2 student_data subject).
Proof.
  unfold unlabelled. intros H. apply andb_true_iff in H.
  destruct H as [H1 H2]. apply negb_true_iff in H1, H2.
  unfold stage1, stage2, module1_data_of, module2_data_of.
  split; intros Hin; apply filter_In in Hin; destruct Hin as [_ Hin];
    congruence.
Qed.

Lemma Forall2_in_left {A B : Type} (R : A -> B -> Prop) (l : list A)
  (l' : list B) (x : A) :
  Forall2 R l l' -> In x l -> exists y, In y l' /\ R x y.
Proof.
  induction 1 as [|a b l l' Hab _ IH]; intros Hin; [destruct Hin|].
  destruct Hin as [->|Hin].
  - exists b. split; [left; reflexivity|exact Hab].
  - destruct (IH Hin) as (y & Hy & HR). exists y. split; [right|]; assumption.
Qed.

Lemma count_if_positive {A : Type} (p : A -> bool) (l : list A) (x : A) :
  In x l -> p x = true -> 0 < count_if p l.
Proof.
  intros Hin Hp. unfold count_if, len.
  assert (Hx : In x (filter p l)) by (apply filter_In; split; assumption).
  destruct (filter p l); [destruct Hx|]. cbn [List.length]. lia.
Qed.

(** C10. For a subject with a Module 1 response, the responses whose
    section is neither the Module 1 label nor a Module 2 label belong
    to neither module's list, and removing them from the input leaves
    both modules' counts, the raw score and the scaled score unchanged;
    yet the slow questions and the two dictionaries of topics are
    computed from all the subject's responses: such a response is
    listed among the slow questions when its time exceeds sixty
    seconds, its topic has a cluster, and that topic is weak exactly
    when the accuracy over all the subject's responses on the topic is
    below one half.  This holds of every summary returned, and one is
    returned when every time is representable. *)
Theorem unlabelled_responses_in_summary (py_sum : list float -> float)
  (format_2f : float -> string) (self : Analyzer.t)
  (student_data : list Response.t) (source_file subject : string) :
  len (stage1 student_data subject) <> 0 ->
  (forall summary,
     value (analyze_subject py_sum format_2f self student_data source_file
              subject) = Ok summary ->
     exists summary',
       value (analyze_subject py_sum format_2f self
                (filter (fun q => negb (unlabelled q)) student_data)
                source_file subject) = Ok summary'
       /\ Performance.Module_1 summary = Performance.Module_1 summary'
       /\ Performance.Module_2 summary = Performance.Module_2 summary'
       /\ Performance.raw_score summary = Performance.raw_score summary'
       /\ Performance.scaled_score summary = Performance.scaled_score summary'
       /\ Forall2 slow_entry_of
            (filter is_slow (subject_data_of student_data subject))
            (Performance.slow_questions summary)
       /\ topics_summarised py_sum format_2f
            (subject_data_of student_data subject)
            (Performance.weak_topics summary)
            (Performance.topic_clusters summary)
       /\ forall q,
            In q (subject_data_of student_data subject) ->
            unlabelled q = true ->
            ~ In q (stage1 student_data subject)
            /\ ~ In q (stage2 student_data subject)
            /\ (is_slow q = true ->
                exists entry,
                  In entry (Performance.slow_questions summary)
                  /\ slow_entry_of q entry)
            /\ (forall topic,
                  has_topic topic q = true ->
                  0 < topic_total topic
                        (subject_data_of student_data subject)
                  /\ In topic (keys (Performance.topic_clusters summary))
                  /\ (In topic (keys (Performance.weak_topics summary)) <->
                      exists ratio,
                        int_true_div
                          (topic_correct topic
                             (subject_data_of student_data subject))
                          (topic_total topic
                             (subject_data_of student_data subject))
                        = Ok ratio
                        /\ ltb ratio (literal 5 10) = true)))
  /\ (times_ok (subject_data_of student_data subject) = true ->
      exists summary,
        value (analyze_subject py_sum format_2f self student_data source_file
                 subject) = Ok summary).
Proof.
  intros Ht. split.
  2:{ intros Hok.
      destruct (analyze_subject_returns py_sum format_2f self student_data
                  source_file subject Ht Hok)
        as (ratio & scaled & slow & weak & clusters & _ & _ & _ & _ & Hrun).
      eexists. exact Hrun. }
  intros summary Hsummary.
  pose proof (analyze_subject_times_ok py_sum format_2f self student_data
                source_file subject summary Ht Hsummary) as Hok.
  destruct (analyze_subject_returns py_sum format_2f self student_data
              source_file subject Ht Hok)
    as (ratio & scaled & slow & weak & clusters
        & Hratio & Hscaled & Hslow & Htopics & Hrun).
  rewrite Hrun in Hsummary. injection Hsummary as <-.
  destruct (analyze_subject_returns py_sum format_2f self
              (filter (fun q => negb (unlabelled q)) student_data)
              source_file subject)
    as (ratio' & scaled' & slow' & weak' & clusters'
        & Hratio' & Hscaled' & _ & _ & Hrun').
  { rewrite stage1_without_unlabelled. exact Ht. }
  { rewrite subject_data_of_filter. apply times_ok_filter. exact Hok. }
  rewrite stage1_without_unlabelled, ?stage2_without_unlabelled in *.
  rewrite Hratio in Hratio'. injection Hratio' as <-.
  rewrite Hscaled in Hscaled'. injection Hscaled' as <-.
  eexists. split; [exact Hrun'|].
  cbn [Performance.Module_1 Performance.Module_2 Performance.raw_score
         Performance.scaled_score Performance.slow_questions
         Performance.weak_topics Performance.topic_clusters].
  do 4 (split; [reflexivity|]).
  split; [exact Hslow|]. split; [exact Htopics|].
  intros q Hin Hun.
  destruct (unlabelled_in_neither_stage student_data subject q Hun)
    as [Hn1 Hn2].
  split; [exact Hn1|]. split; [exact Hn2|]. split.
  - intros Hq. apply (Forall2_in_left _ _ _ q Hslow).
    apply filter_In. split; assumption.
  - intros topic Htopic.
    assert (Hpos : 0 < topic_total topic
                         (subject_data_of student_data subject))
      by (apply (count_if_positive _ _ q); assumption).
    destruct (Htopics topic) as [_ Hsome].
    destruct (Hsome Hpos)
      as (r & times & mean & Hr & _ & _ & Hcluster & Hweak).
    split; [exact Hpos|]. split.
    + apply assoc_keys. eauto.
    + rewrite assoc_keys, Hweak, Hr. split.
      * intros [v Hv]. exists r. split; [reflexivity|].
        destruct (ltb r (literal 5 10)); [reflexivity|discriminate].
      * intros (r' & Hr' & Hlt). injection Hr' as <-. rewrite Hlt. eauto.
Qed.

(** ** The threshold calibrator *)

Lemma count_if_cons {A : Type} (p : A -> bool) (x : A) (l : list A) :
  count_if p (x :: l) = (if p x then 1 else 0) + count_if p l.
Proof.
  unfold count_if, len. cbn [filter].
  destruct (p x); cbn [List.length]; lia.
Qed.

Lemma int_true_div_finite (a b : Z) (r : float) :
  int_true_div a b = Ok r -> rank r <> None.
Proof.
  unfold int_true_div. destruct (b =? 0); [discriminate|].
  destruct (is_finite _) eqn:Hfin; [|discriminate].
  intros H. injection H as <-.
  destruct (SFdiv prec emax (of_int a) (of_int b)) as [s|s| |s m e];
    try discriminate; destruct s; discriminate.
Qed.

Lemma prediction_counts_spec (threshold : float) (data : list Sample.t) :
  forallb sample_ok data = true ->
  forall correct_predictions total_valid,
    prediction_counts data threshold correct_predictions total_valid
    = ([], Ok (correct_predictions + count_if (predicted_right threshold) data,
               total_valid + count_if valid_sample data)).
Proof.
  induction data as [|s data IH]; intros Hok cp tv.
  - cbn [prediction_counts]. unfold count_if, len. cbn.
    rewrite !Z.add_0_r. reflexivity.
  - cbn [forallb] in Hok. apply andb_true_iff in Hok.
    destruct Hok as [Hs Hdata]. unfold sample_ok in Hs.
    apply andb_true_iff in Hs. destruct Hs as [Hlo Hhi].
    apply Z.leb_le in Hlo, Hhi.
    cbn [prediction_counts]. rewrite !count_if_cons.
    unfold predicted_right at 1, valid_sample at 1 2.
    destruct (Z.eqb_spec (Sample.module1_total s) 0) as [Hz|Hnz].
    + rewrite Hz. cbn [Z.ltb Z.compare andb]. rewrite (IH Hdata).
      rewrite !Z.add_0_l. reflexivity.
    + replace (0 <? Sample.module1_total s) with true
        by (symmetry; apply Z.ltb_lt; lia).
      destruct (int_true_div_proper (Sample.module1_correct s)
                  (Sample.module1_total s)) as [ratio Hdiv]; [lia|lia|].
      rewrite Hdiv. cbn [lift bind app andb]. rewrite (IH Hdata).
      unfold tier_of.
      destruct (difficulty_eqb _ _); f_equal; f_equal; f_equal; lia.
Qed.

Lemma predicted_right_valid (threshold : float) (data : list Sample.t) :
  0 <= count_if (predicted_right threshold) data
  <= count_if valid_sample data.
Proof.
  split; [apply count_if_bounds|].
  induction data as [|s data IH]; [apply Z.le_refl|].
  rewrite !count_if_cons. unfold predicted_right at 1.
  destruct (valid_sample s); cbn [andb]; [|lia].
  destruct (match int_true_div _ _ with Ok _ => _ | Raise _ => _ end); lia.
Qed.

Lemma calculate_prediction_accuracy_spec (data : list Sample.t)
  (threshold : float) :
  forallb sample_ok data = true ->
  exists accuracy,
    accuracy_by_counting data threshold = Ok accuracy
    /\ rank accuracy <> None
    /\ calculate_prediction_accuracy data threshold = ([], Ok accuracy).
Proof.
  intros Hok. unfold calculate_prediction_accuracy, accuracy_by_counting.
  rewrite (prediction_counts_spec threshold data Hok).
  cbn [bind]. rewrite !Z.add_0_l.
  destruct (Z.eqb_spec (count_if valid_sample data) 0) as [Hz|Hnz].
  - exists (S754_zero false). repeat split. discriminate.
  - pose proof (predicted_right_valid threshold data) as Hb.
    destruct (int_true_div_proper _ _ Hb) as [accuracy Hdiv]; [lia|].
    exists accuracy. rewrite Hdiv. repeat split.
    exact (int_true_div_finite _ _ _ Hdiv).
Qed.

Lemma sorted_after {A : Type} (R : A -> A -> Prop) (pre post : list A)
  (x : A) :
  StronglySorted R (pre ++ x :: post) -> Forall (R x) post.
Proof.
  induction pre as [|a pre IH]; cbn [app]; intros Hs;
    inversion Hs as [|? ? Hs' Hall]; subst.
  - exact Hall.
  - apply IH. exact Hs'.
Qed.

Section Scan.

Variable data : list Sample.t.
Variable accuracy : float -> float.
Hypothesis accuracy_runs :
  forall threshold,
    calculate_prediction_accuracy data threshold
    = ([], Ok (accuracy threshold)).
Hypothesis accuracy_number : forall threshold, rank (accuracy threshold) <> None.

(** What the loop returns when it starts from a best accuracy and a best
    threshold: the threshold it started from, if no threshold left beats
    the accuracy it started from; otherwise the first threshold left
    whose accuracy beats that one and every accuracy before it, and is
    beaten by none after it. *)
Lemma threshold_scan_spec (thresholds : list float) :
  forall best_accuracy best_threshold,
  exists best,
    threshold_scan data thresholds best_accuracy best_threshold
    = ([], Ok best)
    /\ ((best = best_threshold
         /\ forall threshold, In threshold thresholds ->
                              ltb best_accuracy (accuracy threshold) = false)
        \/ exists before after,
             thresholds = before ++ best :: after
             /\ ltb best_accuracy (accuracy best) = true
             /\ (forall threshold, In threshold before ->
                   ltb (accuracy threshold) (accuracy best) = true)
             /\ (forall threshold, In threshold after ->
                   ltb (accuracy best) (accuracy threshold) = false)).
Proof.
  induction thresholds as [|threshold rest IH];
    intros best_accuracy best_threshold.
  - exists best_threshold. split; [reflexivity|]. left.
    split; [reflexivity|]. intros ? [].
  - cbn [threshold_scan]. rewrite accuracy_runs. cbn [bind app].
    destruct (ltb best_accuracy (accuracy threshold)) eqn:Hbeats.
    + destruct (IH (accuracy threshold) threshold)
        as (best & Hrun & [[-> Hrest] | (before & after & -> & Hb & Hbefore & Hafter)]).
      * exists threshold. rewrite Hrun. split; [reflexivity|]. right.
        exists [], rest. repeat split; try assumption. intros ? [].
      * exists best. rewrite Hrun. split; [reflexivity|]. right.
        exists (threshold :: before), after. repeat split; try assumption.
        -- exact (ltb_trans _ _ _ Hbeats Hb).
        -- intros x [<-|Hx]; [exact Hb|apply Hbefore; exact Hx].
    + destruct (IH best_accuracy best_threshold)
        as (best & Hrun & [[-> Hrest] | (before & after & -> & Hb & Hbefore & Hafter)]).
      * exists best_threshold. rewrite Hrun. split; [reflexivity|]. left.
        split; [reflexivity|].
        intros x [<-|Hx]; [exact Hbeats|apply Hrest; exact Hx].
      * exists best. rewrite Hrun. split; [reflexivity|]. right.
        exists (threshold :: before), after. repeat split; try assumption.
        intros x [<-|Hx]; [|apply Hbefore; exact Hx].
        exact (ltb_le_lt _ _ _ (accuracy_number threshold) Hbeats Hb).
Qed.

End Scan.

Lemma accuracy_value_spec (data : list Sample.t) (threshold : float) :
  forallb sample_ok data = true ->
  accuracy_by_counting data threshold = Ok (accuracy_value data threshold)
  /\ rank (accuracy_value data threshold) <> None
  /\ calculate_prediction_accuracy data threshold
     = ([], Ok (accuracy_value data threshold)).
Proof.
  intros Hok.
  destruct (calculate_prediction_accuracy_spec data threshold Hok)
    as (accuracy & Hcount & Hrank & Hrun).
  unfold accuracy_value. rewrite Hcount. repeat split; assumption.
Qed.

(** C8, amended. On samples with [0 <= correct <= total], the accuracy
    of a threshold is the share of rightly predicted samples among
    those with a positive total, and [0] when there is none.  The
    calibrator returns the default 0.5 when no threshold has an
    accuracy above [0], in particular when no sample is valid;
    otherwise it returns the first threshold whose accuracy is above
    [0], above the accuracy of every threshold before it and below the
    accuracy of none after it; in an ascending sequence every threshold
    after it is greater. *)
Theorem find_optimal_threshold_first_best (thresholds : list float)
  (data : list Sample.t) :
  forallb sample_ok data = true ->
  (forall threshold,
     value (calculate_prediction_accuracy data threshold)
     = accuracy_by_counting data threshold
     /\ accuracy_by_counting data threshold
        = Ok (accuracy_value data threshold))
  /\ (exists best,
        value (find_optimal_threshold thresholds data) = Ok best
        /\ ((best = literal 5 10
             /\ forall threshold, In threshold thresholds ->
                  ltb (S754_zero false) (accuracy_value data threshold)
                  = false)
            \/ exists before after,
                 thresholds = before ++ best :: after
                 /\ ltb (S754_zero false) (accuracy_value data best) = true
                 /\ (forall threshold, In threshold before ->
                       ltb (accuracy_value data threshold)
                         (accuracy_value data best) = true)
                 /\ (forall threshold, In threshold after ->
                       ltb (accuracy_value data best)
                         (accuracy_value data threshold) = false)
                 /\ (ascending thresholds ->
                     forall threshold, In threshold after ->
                       ltb best threshold = true)))
  /\ (count_if valid_sample data = 0 ->
      value (find_optimal_threshold thresholds data) = Ok (literal 5 10)).
Proof.
  intros Hok.
  assert (Hruns : forall threshold,
            calculate_prediction_accuracy data threshold
            = ([], Ok (accuracy_value data threshold)))
    by (intros threshold; apply (accuracy_value_spec data threshold Hok)).
  assert (Hrank : forall threshold,
            rank (accuracy_value data threshold) <> None)
    by (intros threshold; apply (accuracy_value_spec data threshold Hok)).
  destruct (threshold_scan_spec data (accuracy_value data) Hruns Hrank
              thresholds (S754_zero false) (literal 5 10))
    as (best & Hrun & Hbest).
  split; [|split].
  - intros threshold. rewrite Hruns.
    split; [symmetry|]; apply (accuracy_value_spec data threshold Hok).
  - exists best. unfold find_optimal_threshold. rewrite Hrun.
    split; [reflexivity|].
    destruct Hbest as [Hdefault | (before & after & Hsplit & Hb & Hbefore & Hafter)];
      [left; exact Hdefault|right].
    exists before, after. repeat split; try assumption.
    intros Hsorted threshold Hin. unfold ascending in Hsorted.
    rewrite Hsplit in Hsorted. apply sorted_after in Hsorted.
    rewrite Forall_forall in Hsorted. apply Hsorted. exact Hin.
  - intros Hnone. unfold find_optimal_threshold. rewrite Hrun.
    destruct Hbest as [[-> _] | (before & after & _ & Hb & _)];
      [reflexivity|].
    exfalso. unfold accuracy_value, accuracy_by_counting in Hb.
    rewrite Hnone in Hb. cbn in Hb. discriminate.
Qed.

(** C8 as stated fails when valid samples exist and no threshold
    predicts any of them: every threshold has accuracy 0, the first of
    them is 0.3, and the calibrator returns 0.5, which is not among the
    thresholds. *)
Lemma find_optimal_threshold_default_despite_valid_samples :
  value (find_optimal_threshold three_thresholds easy_after_20_of_22)
  = Ok (literal 5 10)
  /\ ascending three_thresholds
  /\ count_if valid_sample easy_after_20_of_22 = 1
  /\ (forall threshold, In threshold three_thresholds ->
        value (calculate_prediction_accuracy easy_after_20_of_22 threshold)
        = Ok (S754_zero false))
  /\ hd (S754_zero false) three_thresholds = literal 3 10
  /\ literal 5 10 <> literal 3 10
  /\ ~ In (literal 5 10) three_thresholds.
Proof.
  split; [vm_compute; reflexivity|]. split.
  { unfold ascending, three_thresholds.
    repeat first [apply SSorted_nil | apply SSorted_cons
                 | apply Forall_nil | apply Forall_cons];
      vm_compute; reflexivity. }
  split; [reflexivity|]. split.
  { intros threshold [<-|[<-|[<-|[]]]]; vm_compute; reflexivity. }
  split; [vm_compute; reflexivity|]. split.
  { vm_compute. discriminate. }
  vm_compute. intros [H|[H|[H|[]]]]; discriminate.
Qed.

(** The scenario of the script: 20 of 22 in Module 1 is hard under the
    threshold 0.6, and the two samples calibrate to the lowest
    threshold. *)
Example twenty_of_twenty_two_is_hard :
  value (determine_module2_difficulty placeholder_analyzer 20 22)
  = Ok hard_tier
  /\ value (calculate_scaled_score placeholder_analyzer "Math" 20 hard_tier)
     = Ok 500
  /\ value (calculate_scaled_score placeholder_analyzer "Math" 22 hard_tier)
     = Ok 530.
Proof. repeat split; vm_compute; reflexivity. Qed.

Example twenty_of_twenty_two_what_if :
  exists summary outcome,
    value (analyze_subject sum_from_left format_2f_exact placeholder_analyzer
             twenty_of_twenty_two "attempt.json" "Math") = Ok summary
    /\ value (what_if_subject placeholder_analyzer twenty_of_twenty_two
                "Math" 2) = Ok outcome
    /\ Performance.raw_score summary = 20
    /\ Performance.scaled_score summary = 500
    /\ WhatIf.current_score outcome = 500
    /\ WhatIf.new_score outcome = 530
    /\ WhatIf.score_gain outcome = 30
    /\ List.map HighImpact.question_id (WhatIf.high_impact_questions outcome)
       = [Some "wrong-1"; Some "wrong-2"].
Proof.
  eexists. eexists. split; [vm_compute; reflexivity|].
  split; [vm_compute; reflexivity|]. repeat split.
Qed.

(** Whole milliseconds around the boundary: 60001 is slow, 60000 and
    59999 are not. *)
Example slow_around_sixty_seconds :
  List.map (fun ms => is_slow (response "q" "Math" "Static" "Algebra" true ms))
    [59999; 60000; 60001]
  = [false; false; true].
Proof. vm_compute. reflexivity. Qed.

Example script_samples_calibrate_to_lowest :
  value (find_optimal_threshold three_thresholds script_samples)
  = Ok (literal 30 100).
Proof. vm_compute. reflexivity. Qed.

Example mixed_sections_summary :
  exists summary,
    value (analyze_subject sum_from_left format_2f_exact placeholder_analyzer
             mixed_sections "attempt.json" "Math") = Ok summary
    /\ Module1.total (Performance.Module_1 summary) = 2
    /\ Module2.total (Performance.Module_2 summary) = 2
    /\ Performance.raw_score summary = 2
    /\ List.map SlowQuestion.question_id (Performance.slow_questions summary)
       = [Some "q2"; Some "q4"]
    /\ Performance.weak_topics summary = [("Geometry", "0.00%")]
    /\ Performance.topic_clusters summary
       = [("Algebra", "Acc: 66.67%, Avg Time: 45.00s");
          ("Geometry", "Acc: 0.00%, Avg Time: 75.50s")].
Proof. eexists. split; [vm_compute; reflexivity|]. repeat split. Qed.

(** ** The theorems at sample inputs *)

Lemma current_score_is_scaled_score_witness :
  len (stage1 mixed_sections "Math") <> 0
  /\ times_ok (subject_data_of mixed_sections "Math") = true
  /\ 0 <= 2
  /\ exists summary outcome,
       value (analyze_subject sum_from_left format_2f_exact placeholder_analyzer
                mixed_sections "attempt.json" "Math") = Ok summary
       /\ value (what_if_subject placeholder_analyzer mixed_sections "Math" 2)
          = Ok outcome
       /\ WhatIf.current_score outcome = Performance.scaled_score summary.
Proof.
  split; [vm_compute; discriminate|]. split; [reflexivity|].
  split; [lia|].
  apply (current_score_is_scaled_score sum_from_left format_2f_exact
           placeholder_analyzer mixed_sections "attempt.json" "Math" 2);
    [vm_compute; discriminate|reflexivity|lia].
Defined.

Lemma determine_module2_difficulty_spec_witness :
  (0 = 0
   /\ value (determine_module2_difficulty placeholder_analyzer 5 0)
      = Ok easy_tier)
  /\ (5 <> 0
      /\ int_true_div 3 5 = Ok (literal 6 10)
      /\ eqb (literal 6 10) (Analyzer.adaptive_threshold placeholder_analyzer)
         = true
      /\ value (determine_module2_difficulty placeholder_analyzer 3 5)
         = Ok hard_tier).
Proof.
  split.
  - split; [reflexivity|].
    apply (proj1 (determine_module2_difficulty_spec placeholder_analyzer 5 0)).
    reflexivity.
  - split; [discriminate|]. split; [reflexivity|]. split; [reflexivity|].
    apply (proj2 (determine_module2_difficulty_spec placeholder_analyzer 3 5)
             (literal 6 10));
      [discriminate|reflexivity|reflexivity].
Defined.

Lemma calculate_scaled_score_exact_match_witness :
  (exists item,
     find (fun item => String.eqb (ScoringMap.key item) "Math")
       (Analyzer.scoring_maps placeholder_analyzer) = Some item
     /\ forall score, In score (ScoringMap.map item) -> Score.raw score <> 45)
  /\ value (calculate_scaled_score placeholder_analyzer "Math" 45 hard_tier)
     = Ok 200.
Proof.
  assert (H : exists item,
     find (fun item => String.eqb (ScoringMap.key item) "Math")
       (Analyzer.scoring_maps placeholder_analyzer) = Some item
     /\ forall score, In score (ScoringMap.map item) -> Score.raw score <> 45).
  { eexists. split; [reflexivity|].
    intros score Hin. cbn [ScoringMap.map] in Hin.
    apply in_map_iff in Hin. destruct Hin as (i & <- & Hi).
    unfold range in Hi. apply in_map_iff in Hi. destruct Hi as (n & <- & Hn).
    apply in_seq in Hn. cbn [Score.raw]. lia. }
  split; [exact H|].
  apply (proj1 (calculate_scaled_score_exact_match placeholder_analyzer
                  "Math" 45 hard_tier)).
  right. exact H.
Defined.

Lemma analyze_subject_without_module1_witness :
  len (stage1 module2_only "Math") = 0
  /\ exists summary,
       value (analyze_subject sum_from_left format_2f_exact placeholder_analyzer
                module2_only "attempt.json" "Math") = Ok summary
       /\ Performance.scaled_score summary = 200.
Proof.
  split; [reflexivity|].
  destruct (analyze_subject_without_module1 sum_from_left format_2f_exact
              placeholder_analyzer module2_only "attempt.json" "Math"
              eq_refl) as (summary & Hrun & Hscore & _).
  exists summary. split; assumption.
Defined.

Lemma what_if_subject_hypothetical_witness :
  0 <= 2
  /\ exists outcome,
       value (what_if_subject placeholder_analyzer mixed_sections "Math" 2)
       = Ok outcome
       /\ WhatIf.score_gain outcome
          = WhatIf.new_score outcome - WhatIf.current_score outcome.
Proof.
  split; [lia|].
  destruct (what_if_subject_hypothetical placeholder_analyzer mixed_sections
              "Math" 2) as (outcome & d & Hrun & _ & _ & Hgain); [lia|].
  exists outcome. split; assumption.
Defined.

Lemma high_impact_questions_first_incorrect_witness :
  0 <= 5
  /\ exists outcome,
       value (what_if_subject placeholder_analyzer three_labels "Math" 5)
       = Ok outcome
       /\ len (WhatIf.high_impact_questions outcome) = 3
       /\ List.map HighImpact.complexity (WhatIf.high_impact_questions outcome)
          = ["medium"; "hard"; "Unknown"]
       /\ List.map HighImpact.question_id
            (WhatIf.high_impact_questions outcome)
          = [Some "q1"; Some "q2"; Some "q3"].
Proof.
  split; [lia|].
  destruct (high_impact_questions_first_incorrect placeholder_analyzer
              three_labels "Math" 5)
    as (outcome & Hrun & Hlist & Hlen & _); [lia|].
  exists outcome. split; [exact Hrun|]. split; [rewrite Hlen; reflexivity|].
  rewrite Hlist. split; reflexivity.
Defined.

Lemma find_optimal_threshold_first_best_witness :
  forallb sample_ok script_samples = true
  /\ exists best,
       value (find_optimal_threshold three_thresholds script_samples)
       = Ok best.
Proof.
  split; [reflexivity|].
  destruct (find_optimal_threshold_first_best three_thresholds script_samples
              eq_refl) as (_ & (best & Hrun & _) & _).
  exists best. exact Hrun.
Defined.


Lemma unlabelled_responses_in_summary_witness :
  len (stage1 mixed_sections "Math") <> 0
  /\ times_ok (subject_data_of mixed_sections "Math") = true
  /\ exists summary summary',
       value (analyze_subject sum_from_left format_2f_exact placeholder_analyzer
                mixed_sections "attempt.json" "Math") = Ok summary
       /\ value (analyze_subject sum_from_left format_2f_exact
                   placeholder_analyzer
                   (filter (fun q => negb (unlabelled q)) mixed_sections)
                   "attempt.json" "Math") = Ok summary'
       /\ Performance.raw_score summary = Performance.raw_score summary'.
Proof.
  split; [vm_compute; discriminate|]. split; [reflexivity|].
  destruct (unlabelled_responses_in_summary sum_from_left format_2f_exact
              placeholder_analyzer mixed_sections "attempt.json" "Math")
    as (Hall & Hreturns); [vm_compute; discriminate|].
  destruct (Hreturns eq_refl) as [summary Hrun].
  destruct (Hall summary Hrun) as (summary' & Hrun' & _ & _ & Hraw & _).
  exists summary, summary'. repeat split; assumption.
Defined.

(** * Further properties of the engine *)

(** ** The placeholder maps as a function of the raw score *)

Lemma find_in_range (f : Z -> Score.t) (raw_score : Z) (n : nat) :
  (forall i, Score.raw (f i) = i) ->
  find (fun score => Score.raw score =? raw_score) (List.map f (range n))
  = if (0 <=? raw_score) && (raw_score <? Z.of_nat n)
    then Some (f raw_score) else None.
Proof.
  intros Hraw. unfold range.
  assert (H : forall start,
             find (fun score => Score.raw score =? raw_score)
               (List.map f (List.map Z.of_nat (seq start n)))
             = if (Z.of_nat start <=? raw_score)
                  && (raw_score <? Z.of_nat (start + n))
               then Some (f raw_score) else None).
  { induction n as [|n IH]; intros start.
    - cbn [seq List.map find]. rewrite Nat.add_0_r.
      destruct (Z.leb_spec (Z.of_nat start) raw_score),
        (Z.ltb_spec raw_score (Z.of_nat start)); try reflexivity; lia.
    - cbn [seq List.map find]. rewrite Hraw, IH.
      destruct (Z.eqb_spec (Z.of_nat start) raw_score) as [<-|Hne].
      + replace (Z.of_nat start <=? Z.of_nat start) with true
          by (symmetry; apply Z.leb_le; lia).
        replace (Z.of_nat start <? Z.of_nat (start + S n)) with true
          by (symmetry; apply Z.ltb_lt; lia).
        reflexivity.
      + replace (Z.of_nat (S start + n)) with (Z.of_nat (start + S n))
          by lia.
        destruct (Z.leb_spec (Z.of_nat (S start)) raw_score),
          (Z.leb_spec (Z.of_nat start) raw_score); try reflexivity; lia. }
  exact (H 0%nat).
Qed.

(** X1. Without supplied maps ([None] or an empty list), the calculator
    is linear on the raw scores the placeholder maps hold and 200
    elsewhere: for Math, [200 + 15 raw] (hard) and [200 + 10 raw]
    (easy) for [0 <= raw < 45]; for Reading and Writing,
    [200 + 11 raw] and [200 + 8 raw] for [0 <= raw < 55]; 200 for any
    other raw score and for any other subject. *)
Theorem placeholder_calculator_linear (adaptive_threshold : float)
  (subject : string) (raw_score : Z) (d : difficulty) :
  let expected :=
    if String.eqb subject "Math" then
      if (0 <=? raw_score) && (raw_score <? 45)
      then 200 + raw_score * (match d with hard_tier => 15 | easy_tier => 10 end)
      else 200
    else if String.eqb subject "Reading and Writing" then
      if (0 <=? raw_score) && (raw_score <? 55)
      then 200 + raw_score * (match d with hard_tier => 11 | easy_tier => 8 end)
      else 200
    else 200 in
  value (self <- __init__ None adaptive_threshold ;;
         calculate_scaled_score self subject raw_score d) = Ok expected
  /\ value (self <- __init__ (Some []) adaptive_threshold ;;
            calculate_scaled_score self subject raw_score d) = Ok expected.
Proof.
  cbv zeta.
  assert (H : forall self,
            Analyzer.scoring_maps self = placeholder_maps ->
            value (calculate_scaled_score self subject raw_score d)
            = Ok (if String.eqb subject "Math" then
                    if (0 <=? raw_score) && (raw_score <? 45)
                    then 200 + raw_score
                               * (match d with hard_tier => 15
                                          | easy_tier => 10 end)
                    else 200
                  else if String.eqb subject "Reading and Writing" then
                    if (0 <=? raw_score) && (raw_score <? 55)
                    then 200 + raw_score
                               * (match d with hard_tier => 11
                                          | easy_tier => 8 end)
                    else 200
                  else 200)).
  { intros self Hmaps. rewrite calculate_scaled_score_value, Hmaps.
    unfold placeholder_maps. cbn [find ScoringMap.key ScoringMap.map].
    rewrite (String.eqb_sym "Math" subject),
      (String.eqb_sym "Reading and Writing" subject).
    destruct (String.eqb subject "Math").
    - cbv iota. cbn [ScoringMap.map].
      rewrite find_in_range by reflexivity.
      change (Z.of_nat 45) with 45.
      destruct ((0 <=? raw_score) && (raw_score <? 45)); [|reflexivity].
      destruct d; reflexivity.
    - destruct (String.eqb subject "Reading and Writing"); [|reflexivity].
      cbv iota. cbn [ScoringMap.map].
      rewrite find_in_range by reflexivity.
      change (Z.of_nat 55) with 55.
      destruct ((0 <=? raw_score) && (raw_score <? 55)); [|reflexivity].
      destruct d; reflexivity. }
  split.
  - rewrite value_bind. cbn [__init__ value bind print ret snd app].
    apply H. reflexivity.
  - rewrite value_bind. cbn [__init__ value bind print ret snd app].
    apply H. reflexivity.
Qed.

(** ** The simulation at its ends *)

Lemma correct_plus_incorrect (l : list Response.t) :
  count_if is_correct l + len (filter (fun q => negb (is_correct q)) l)
  = len l.
Proof.
  unfold count_if, len.
  induction l as [|q l IH]; [reflexivity|]. cbn [filter].
  destruct (is_correct q); cbn [negb List.length]; lia.
Qed.

Lemma firstn_whole {A : Type} (l : list A) (n : Z) :
  len l <= n -> slice_to l n = l.
Proof.
  intros Hn. unfold slice_to.
  pose proof (len_nonneg l) as Hl.
  replace (0 <=? n) with true by (symmetry; apply Z.leb_le; lia).
  apply firstn_all2. unfold len in Hn. lia.
Qed.

Section SimulationEnds.

Variable self : Analyzer.t.
Variable student_data : list Response.t.
Variable subject : string.

Abbreviation c1 := (count_if is_correct (stage1 student_data subject)).
Abbreviation t1 := (len (stage1 student_data subject)).
Abbreviation c2 := (count_if is_correct (stage2 student_data subject)).
Abbreviation incorrect1 :=
  (filter (fun q => negb (is_correct q)) (stage1 student_data subject)).

Lemma what_if_subject_congruence (a a' : Z) :
  Z.min (c1 + a) t1 = Z.min (c1 + a') t1 ->
  slice_to incorrect1 a = slice_to incorrect1 a' ->
  what_if_subject self student_data subject a
  = what_if_subject self student_data subject a'.
Proof.
  intros Hmin Hslice. unfold what_if_subject. cbv zeta.
  fold (stage1 student_data subject). fold (stage2 student_data subject).
  rewrite Hmin, Hslice. reflexivity.
Qed.

(** X2. With no additional correct answer the simulation changes
    nothing: it returns, its new score is its current score, the gain
    is 0 and no question is listed. *)
Theorem what_if_nothing_added :
  exists outcome,
    value (what_if_subject self student_data subject 0) = Ok outcome
    /\ WhatIf.new_score outcome = WhatIf.current_score outcome
    /\ WhatIf.score_gain outcome = 0
    /\ WhatIf.high_impact_questions outcome = [].
Proof.
  destruct (what_if_subject_returns self student_data subject 0)
    as (d0 & s0 & d1 & s1 & Hd0 & Hs0 & Hd1 & Hs1 & Hrun); [lia|].
  pose proof (count_if_bounds is_correct (stage1 student_data subject)) as Hc.
  replace (Z.min (c1 + 0) t1) with c1 in Hd1, Hs1 by lia.
  rewrite Hd0 in Hd1. injection Hd1 as <-.
  rewrite Hs0 in Hs1. injection Hs1 as <-.
  eexists. split; [exact Hrun|].
  cbn [WhatIf.new_score WhatIf.current_score WhatIf.score_gain
         WhatIf.high_impact_questions].
  split; [reflexivity|]. split; [lia|].
  unfold slice_to. cbn. reflexivity.
Qed.

(** X3. Once every incorrect Module 1 response is counted as corrected,
    asking for more changes nothing: for any two numbers of additional
    correct answers that are both at least the number of incorrect
    Module 1 responses, the simulation prints and returns the same; it
    classifies [t1] out of [t1], scores the raw score [t1 + c2] and
    lists every incorrect Module 1 response. *)
Theorem what_if_saturates (a a' : Z) :
  len incorrect1 <= a -> len incorrect1 <= a' ->
  what_if_subject self student_data subject a
  = what_if_subject self student_data subject a'
  /\ exists outcome new_difficulty,
       value (what_if_subject self student_data subject a) = Ok outcome
       /\ value (determine_module2_difficulty self t1 t1) = Ok new_difficulty
       /\ value (calculate_scaled_score self subject (t1 + c2) new_difficulty)
          = Ok (WhatIf.new_score outcome)
       /\ WhatIf.high_impact_questions outcome
          = List.map high_impact_entry incorrect1.
Proof.
  intros Ha Ha'.
  pose proof (correct_plus_incorrect (stage1 student_data subject)) as Hsum.
  pose proof (len_nonneg incorrect1) as Hinc.
  split.
  - apply what_if_subject_congruence.
    + lia.
    + rewrite !firstn_whole by assumption. reflexivity.
  - destruct (what_if_subject_returns self student_data subject a)
      as (d0 & s0 & d1 & s1 & _ & _ & Hd1 & Hs1 & Hrun); [lia|].
    replace (Z.min (c1 + a) t1) with t1 in Hd1, Hs1 by lia.
    eexists. exists d1. split; [exact Hrun|]. split; [exact Hd1|].
    split; [exact Hs1|].
    cbn [WhatIf.high_impact_questions].
    rewrite firstn_whole by assumption. reflexivity.
Qed.

(** X4. For a subject with no Module 1 response and a non-negative
    number of additional correct answers, the simulation scores the
    count of correct Module 2 responses at tier easy twice over: new
    and current score are that one value, the gain is 0, no question is
    listed, and the classifier's warning is printed by each of its two
    calls. *)
Theorem what_if_without_module1 (a : Z) :
  t1 = 0 -> 0 <= a ->
  exists outcome,
    value (what_if_subject self student_data subject a) = Ok outcome
    /\ value (calculate_scaled_score self subject c2 easy_tier)
       = Ok (WhatIf.current_score outcome)
    /\ WhatIf.new_score outcome = WhatIf.current_score outcome
    /\ WhatIf.score_gain outcome = 0
    /\ WhatIf.high_impact_questions outcome = []
    /\ output (what_if_subject self student_data subject a)
       = (determine_warning
            ++ output (calculate_scaled_score self subject c2 easy_tier))
         ++ (determine_warning
               ++ output (calculate_scaled_score self subject c2 easy_tier)).
Proof.
  intros Ht Ha.
  pose proof (count_if_bounds is_correct (stage1 student_data subject)) as Hc.
  assert (Hc0 : c1 = 0) by lia.
  assert (Hnil : stage1 student_data subject = [])
    by (apply len_zero_nil; exact Ht).
  destruct (calculate_scaled_score self subject c2 easy_tier)
    as [trace [score|e]] eqn:Hcalc.
  2:{ pose proof (calculate_scaled_score_returns self subject c2 easy_tier)
        as [v Hv]. rewrite Hcalc in Hv. discriminate. }
  unfold what_if_subject. cbv zeta.
  fold (stage1 student_data subject). fold (stage2 student_data subject).
  rewrite Hnil. change (count_if is_correct []) with 0.
  change (len (@nil Response.t)) with 0.
  replace (Z.min (0 + a) 0) with 0 by lia.
  cbn [Z.add]. unfold determine_module2_difficulty.
  cbn [Z.eqb bind enter print ret app]. rewrite Hcalc.
  cbn [bind enter print ret app filter slice_to List.map firstn value
         output fst snd].
  eexists. split; [reflexivity|].
  cbn [WhatIf.new_score WhatIf.current_score WhatIf.score_gain
         WhatIf.high_impact_questions].
  split; [reflexivity|]. split; [reflexivity|]. split; [lia|].
  split.
  - unfold slice_to. destruct (0 <=? a); rewrite firstn_nil; reflexivity.
  - unfold determine_warning. rewrite app_nil_r.
    rewrite <- !app_assoc. reflexivity.
Qed.

End SimulationEnds.

(** ** The three kinds of response of a subject *)

Lemma static_is_no_module2_label (q : Response.t) :
  get_eqb (Response.section q) "Static" = true ->
  get_in (Response.section q) module2_labels = false.
Proof.
  unfold get_in, get_eqb. destruct (Response.section q) as [label|];
    [|discriminate].
  intros H. apply String.eqb_eq in H. subst label. reflexivity.
Qed.

Lemma stage_counts (student_data : list Response.t)
  (subject : string) :
  (forall q, In q (stage1 student_data subject) ->
             ~ In q (stage2 student_data subject))
  /\ len (stage1 student_data subject) + len (stage2 student_data subject)
     + count_if unlabelled (subject_data_of student_data subject)
     = len (subject_data_of student_data subject)
  /\ count_if is_correct (stage1 student_data subject)
     + count_if is_correct (stage2 student_data subject)
     + count_if (fun q => unlabelled q && is_correct q)
         (subject_data_of student_data subject)
     = count_if is_correct (subject_data_of student_data subject).
Proof.
  unfold stage1, stage2, module1_data_of, module2_data_of.
  set (l := subject_data_of student_data subject). clearbody l.
  split; [|split].
  - intros q H1 H2. apply filter_In in H1, H2.
    destruct H1 as [_ H1], H2 as [_ H2].
    rewrite (static_is_no_module2_label q H1) in H2. discriminate.
  - unfold count_if, len. induction l as [|q l IH]; [reflexivity|].
    cbn [filter]. unfold unlabelled at 1.
    destruct (get_eqb (Response.section q) "Static") eqn:H1.
    + rewrite (static_is_no_module2_label q H1).
      cbn [negb andb List.length]. lia.
    + destruct (get_in (Response.section q) module2_labels);
        cbn [negb andb List.length]; lia.
  - unfold count_if, len. induction l as [|q l IH]; [reflexivity|].
    cbn [filter]. unfold unlabelled at 1.
    destruct (get_eqb (Response.section q) "Static") eqn:H1.
    + rewrite (static_is_no_module2_label q H1). cbn [negb andb filter].
      destruct (is_correct q); cbn [List.length]; lia.
    + destruct (get_in (Response.section q) module2_labels);
        cbn [negb andb filter]; destruct (is_correct q);
        cbn [List.length]; lia.
Qed.

(** X5. Every response of a subject is of exactly one kind: Module 1,
    Module 2, or under a label of neither.  No response is in both
    modules' lists; the three counts add up to the number of the
    subject's responses, and the raw score [c1 + c2] is the number of
    the subject's correct responses less the correct ones under a
    label of neither module. *)
Theorem responses_partition (student_data : list Response.t)
  (subject : string) :
  (forall q, In q (stage1 student_data subject) ->
             ~ In q (stage2 student_data subject))
  /\ len (stage1 student_data subject) + len (stage2 student_data subject)
     + count_if unlabelled (subject_data_of student_data subject)
     = len (subject_data_of student_data subject)
  /\ count_if is_correct (stage1 student_data subject)
     + count_if is_correct (stage2 student_data subject)
     + count_if (fun q => unlabelled q && is_correct q)
         (subject_data_of student_data subject)
     = count_if is_correct (subject_data_of student_data subject).
Proof. exact (stage_counts student_data subject). Qed.

(** ** What every returned summary satisfies *)

Lemma analyze_subject_zeroed (py_sum : list float -> float)
  (format_2f : float -> string) (self : Analyzer.t)
  (student_data : list Response.t) (source_file subject : string) :
  len (stage1 student_data subject) = 0 ->
  value (analyze_subject py_sum format_2f self student_data source_file
           subject) = Ok zeroed_performance.
Proof.
  intros Ht. unfold analyze_subject. cbv zeta.
  fold (stage1 student_data subject). rewrite Ht. reflexivity.
Qed.

Lemma slow_entries_over_sixty (l : list Response.t)
  (slow : list SlowQuestion.t) :
  Forall2 slow_entry_of (filter is_slow l) slow ->
  len slow <= len l
  /\ forall entry, In entry slow ->
       ltb (float_of_int 60) (SlowQuestion.time_spent_s entry) = true.
Proof.
  intros H. split.
  - unfold len. rewrite <- (Forall2_length H).
    pose proof (filter_length_le is_slow l). lia.
  - assert (Hall : Forall (fun q => is_slow q = true) (filter is_slow l)).
    { apply Forall_forall. intros q Hq. apply filter_In in Hq. apply Hq. }
    induction H as [|q entry qs entries Hqe _ IH]; intros e He;
      [destruct He|].
    inversion Hall as [|? ? Hq Hrest]; subst.
    destruct He as [<-|He]; [|exact (IH Hrest e He)].
    destruct Hqe as (_ & _ & Htime). unfold is_slow in Hq.
    rewrite Htime in Hq. exact Hq.
Qed.

(** X6. Every summary the aggregation returns for a subject is
    consistent: in each module [0 <= correct <= total]; the raw score is
    the sum of the two correct counts; the two totals together do not
    exceed the number of the subject's responses; there are no more
    slow entries than responses and each one's time is above 60.  With
    no Module 1 response the summary is the zeroed one, whose Module 2
    counts are 0 whatever the Module 2 responses; otherwise the counts
    are those of the two lists, the accuracy is the quotient
    [correct / total] of Module 1, the difficulty is the tier of that
    quotient, and the scaled score is the calculator's value at the raw
    score and that tier. *)
Theorem summary_consistent (py_sum : list float -> float)
  (format_2f : float -> string) (self : Analyzer.t)
  (student_data : list Response.t) (source_file subject : string)
  (summary : Performance.t) :
  value (analyze_subject py_sum format_2f self student_data source_file
           subject) = Ok summary ->
  let m1 := Performance.Module_1 summary in
  let m2 := Performance.Module_2 summary in
  0 <= Module1.correct m1 <= Module1.total m1
  /\ 0 <= Module2.correct m2 <= Module2.total m2
  /\ Performance.raw_score summary = Module1.correct m1 + Module2.correct m2
  /\ Module1.total m1 + Module2.total m2
     <= len (subject_data_of student_data subject)
  /\ len (Performance.slow_questions summary)
     <= len (subject_data_of student_data subject)
  /\ (forall entry, In entry (Performance.slow_questions summary) ->
        ltb (float_of_int 60) (SlowQuestion.time_spent_s entry) = true)
  /\ (len (stage1 student_data subject) = 0 ->
      summary = zeroed_performance)
  /\ (len (stage1 student_data subject) <> 0 ->
      Module1.total m1 = len (stage1 student_data subject)
      /\ Module1.correct m1
         = count_if is_correct (stage1 student_data subject)
      /\ Module2.total m2 = len (stage2 student_data subject)
      /\ Module2.correct m2
         = count_if is_correct (stage2 student_data subject)
      /\ int_true_div (Module1.correct m1) (Module1.total m1)
         = Ok (Module1.accuracy m1)
      /\ Module2.difficulty m2
         = tier_of (Analyzer.adaptive_threshold self) (Module1.accuracy m1)
      /\ value (calculate_scaled_score self subject
                  (Performance.raw_score summary) (Module2.difficulty m2))
         = Ok (Performance.scaled_score summary)).
Proof.
  intros Hrun. cbv zeta.
  pose proof (len_nonneg (subject_data_of student_data subject)) as Hlen.
  destruct (Z.eq_dec (len (stage1 student_data subject)) 0) as [Hz|Hnz].
  - rewrite (analyze_subject_zeroed _ _ _ _ _ _ Hz) in Hrun.
    injection Hrun as <-.
    cbn [zeroed_performance Performance.Module_1 Performance.Module_2
           Performance.raw_score Performance.slow_questions Module1.correct
           Module1.total Module2.correct Module2.total].
    split; [lia|]. split; [lia|]. split; [reflexivity|]. split; [lia|].
    split; [exact Hlen|]. split; [intros ? []|]. split; [reflexivity|].
    intros Hnz. contradiction.
  - pose proof (analyze_subject_times_ok py_sum format_2f self student_data
                  source_file subject summary Hnz Hrun) as Hok.
    destruct (analyze_subject_returns py_sum format_2f self student_data
                source_file subject Hnz Hok)
      as (ratio & scaled & slow & weak & clusters
          & Hratio & Hscaled & Hslow & _ & Hrun').
    rewrite Hrun' in Hrun. injection Hrun as <-.
    cbn [Performance.Module_1 Performance.Module_2 Performance.raw_score
           Performance.scaled_score Performance.slow_questions
           Module1.correct Module1.total Module1.accuracy Module2.correct
           Module2.total Module2.difficulty].
    destruct (slow_entries_over_sixty _ _ Hslow) as [Hslow1 Hslow2].
    destruct (stage_counts student_data subject) as (_ & Hpart & _).
    pose proof (count_if_bounds unlabelled
                  (subject_data_of student_data subject)) as Hun.
    split; [apply count_if_bounds|]. split; [apply count_if_bounds|].
    split; [reflexivity|]. split; [lia|]. split; [exact Hslow1|].
    split; [exact Hslow2|]. split; [intros; contradiction|].
    intros _. repeat (split; [reflexivity|]).
    split; [exact Hratio|]. split; [reflexivity|exact Hscaled].
Qed.

(** ** What an outcome depends on *)

(** X7. The body of either method reads the input only through the
    subject's own responses: two inputs with the same responses for a
    subject, such as one input and the same with responses of other
    subjects or of no subject added anywhere, give the same printed
    lines and the same result for that subject. *)
Theorem other_subjects_ignored (py_sum : list float -> float)
  (format_2f : float -> string) (self : Analyzer.t)
  (student_data student_data' : list Response.t)
  (source_file subject : string) (additional_correct : Z) :
  subject_data_of student_data subject
  = subject_data_of student_data' subject ->
  analyze_subject py_sum format_2f self student_data source_file subject
  = analyze_subject py_sum format_2f self student_data' source_file subject
  /\ what_if_subject self student_data subject additional_correct
     = what_if_subject self student_data' subject additional_correct.
Proof.
  intros H. unfold analyze_subject, what_if_subject. rewrite H.
  split; reflexivity.
Qed.

Lemma subject_data_of_insert (before extra after : list Response.t)
  (subject : string) :
  (forall q, In q extra -> Response.subject_name q <> Some subject) ->
  subject_data_of (before ++ extra ++ after) subject
  = subject_data_of (before ++ after) subject.
Proof.
  intros Hextra. unfold subject_data_of. rewrite !filter_app.
  replace (filter _ extra) with (@nil Response.t); [reflexivity|].
  symmetry. induction extra as [|q extra IH]; [reflexivity|].
  cbn [filter].
  assert (Hq : get_eqb (Response.subject_name q) subject = false).
  { unfold get_eqb. pose proof (Hextra q (or_introl eq_refl)) as Hne.
    destruct (Response.subject_name q) as [name|]; [|reflexivity].
    apply String.eqb_neq. congruence. }
  rewrite Hq. apply IH. intros q' Hq'. apply Hextra. right. exact Hq'.
Qed.

Lemma Permutation_filter_length {A : Type} (p : A -> bool) (l l' : list A) :
  Permutation l l' -> len (filter p l) = len (filter p l').
Proof.
  unfold len. induction 1 as [|x l l' _ IH|x y l|l l' l'' _ IH1 _ IH2].
  - reflexivity.
  - cbn [filter]. destruct (p x); cbn [List.length]; lia.
  - cbn [filter]. destruct (p x), (p y); reflexivity.
  - lia.
Qed.

Lemma Permutation_filter {A : Type} (p : A -> bool) (l l' : list A) :
  Permutation l l' -> Permutation (filter p l) (filter p l').
Proof.
  induction 1 as [|x l l' _ IH|x y l|l l' l'' _ IH1 _ IH2].
  - constructor.
  - cbn [filter]. destruct (p x); [constructor|]; exact IH.
  - cbn [filter]. destruct (p x), (p y); try apply Permutation_refl.
    apply perm_swap.
  - eapply Permutation_trans; eassumption.
Qed.

(** X8. The scores do not depend on the order of the responses: for two
    inputs that are permutations of one another, the simulation returns
    the same current score, new score and gain, and the aggregation
    returns for the one whenever it returns for the other, with the
    same two module summaries, raw score and scaled score. *)
Theorem scores_order_independent (py_sum : list float -> float)
  (format_2f : float -> string) (self : Analyzer.t)
  (student_data student_data' : list Response.t)
  (source_file subject : string) (additional_correct : Z) :
  Permutation student_data student_data' ->
  (forall outcome,
     value (what_if_subject self student_data subject additional_correct)
     = Ok outcome ->
     exists outcome',
       value (what_if_subject self student_data' subject additional_correct)
       = Ok outcome'
       /\ WhatIf.current_score outcome' = WhatIf.current_score outcome
       /\ WhatIf.new_score outcome' = WhatIf.new_score outcome
       /\ WhatIf.score_gain outcome' = WhatIf.score_gain outcome)
  /\ (forall summary,
        value (analyze_subject py_sum format_2f self student_data
                 source_file subject) = Ok summary ->
        exists summary',
          value (analyze_subject py_sum format_2f self student_data'
                   source_file subject) = Ok summary'
          /\ Performance.Module_1 summary' = Performance.Module_1 summary
          /\ Performance.Module_2 summary' = Performance.Module_2 summary
          /\ Performance.raw_score summary' = Performance.raw_score summary
          /\ Performance.scaled_score summary'
             = Performance.scaled_score summary).
Proof.
  intros Hperm.
  assert (Hsd : Permutation (subject_data_of student_data subject)
                  (subject_data_of student_data' subject))
    by (apply Permutation_filter; exact Hperm).
  assert (Ht1 : len (stage1 student_data subject)
                = len (stage1 student_data' subject))
    by (apply Permutation_filter_length; exact Hsd).
  assert (Hc1 : count_if is_correct (stage1 student_data subject)
                = count_if is_correct (stage1 student_data' subject))
    by (apply Permutation_filter_length, Permutation_filter; exact Hsd).
  assert (Ht2 : len (stage2 student_data subject)
                = len (stage2 student_data' subject))
    by (apply Permutation_filter_length; exact Hsd).
  assert (Hc2 : count_if is_correct (stage2 student_data subject)
                = count_if is_correct (stage2 student_data' subject))
    by (apply Permutation_filter_length, Permutation_filter; exact Hsd).
  split.
  - intros outcome Hrun.
    rewrite what_if_subject_value in Hrun.
    rewrite what_if_subject_value, <- Hc1, <- Ht1, <- Hc2.
    destruct (value (determine_module2_difficulty self _ _)) as [d0|e];
      [|discriminate].
    destruct (value (calculate_scaled_score self subject _ d0)) as [s0|e];
      [|discriminate].
    destruct (value (determine_module2_difficulty self _ _)) as [d1|e];
      [|discriminate].
    destruct (value (calculate_scaled_score self subject _ d1)) as [s1|e];
      [|discriminate].
    injection Hrun as <-. eexists. split; [reflexivity|].
    repeat split.
  - intros summary Hrun.
    destruct (Z.eq_dec (len (stage1 student_data subject)) 0) as [Hz|Hnz].
    + rewrite (analyze_subject_zeroed _ _ _ _ _ _ Hz) in Hrun.
      injection Hrun as <-. exists zeroed_performance.
      split; [apply analyze_subject_zeroed; lia|]. repeat split.
    + pose proof (analyze_subject_times_ok py_sum format_2f self student_data
                    source_file subject summary Hnz Hrun) as Hok.
      assert (Hok' : times_ok (subject_data_of student_data' subject) = true).
      { unfold times_ok in *. rewrite forallb_forall in *.
        intros q Hq. apply Hok.
        apply (Permutation_in q (Permutation_sym Hsd)). exact Hq. }
      destruct (analyze_subject_returns py_sum format_2f self student_data
                  source_file subject Hnz Hok)
        as (ratio & scaled & slow & weak & clusters
            & Hratio & Hscaled & _ & _ & Hrun0).
      rewrite Hrun0 in Hrun. injection Hrun as <-.
      destruct (analyze_subject_returns py_sum format_2f self student_data'
                  source_file subject)
        as (ratio' & scaled' & slow' & weak' & clusters'
            & Hratio' & Hscaled' & _ & _ & Hrun');
        [lia|exact Hok'|].
      rewrite <- Hc1, <- Ht1, <- Hc2, <- ?Ht2 in *.
      rewrite Hratio in Hratio'. injection Hratio' as <-.
      rewrite Hscaled in Hscaled'. injection Hscaled' as <-.
      eexists. split; [exact Hrun'|]. repeat split.
Qed.

(** ** More on the order of the doubles *)

Lemma lex_compare_antisym (a b : Z * Z * Z) :
  lex_compare b a = CompOpp (lex_compare a b).
Proof.
  destruct a as [[a1 a2] a3], b as [[b1 b2] b3]. unfold lex_compare.
  rewrite (Z.compare_antisym a1 b1), (Z.compare_antisym a2 b2),
    (Z.compare_antisym a3 b3).
  destruct (a1 ?= b1), (a2 ?= b2), (a3 ?= b3); reflexivity.
Qed.

Lemma ltb_not_leb (x y : float) : ltb x y = true -> leb y x = false.
Proof.
  unfold ltb, leb, SFltb, SFleb. rewrite !SFcompare_rank.
  destruct (rank x) as [a|], (rank y) as [b|]; try discriminate.
  rewrite (lex_compare_antisym a b).
  destruct (lex_compare a b); try discriminate. reflexivity.
Qed.

Lemma not_ltb_leb (x y : float) :
  rank x <> None -> rank y <> None -> ltb x y = false -> leb y x = true.
Proof.
  unfold ltb, leb, SFltb, SFleb. rewrite !SFcompare_rank.
  destruct (rank x) as [a|], (rank y) as [b|]; try congruence.
  intros _ _. rewrite (lex_compare_antisym a b).
  destruct (lex_compare a b); try discriminate; reflexivity.
Qed.

(** ** Exact quotients *)

Lemma int_true_div_zero (b : Z) :
  b <> 0 -> exists s, int_true_div 0 b = Ok (S754_zero s).
Proof.
  intros Hb. unfold int_true_div.
  replace (b =? 0) with false by (symmetry; apply Z.eqb_neq; exact Hb).
  destruct b as [|p|p]; [contradiction| |]; eexists; reflexivity.
Qed.

Lemma int_true_div_same (n : Z) :
  0 < n -> int_true_div n n = Ok (literal 1 1).
Proof.
  intros Hn. destruct n as [|p|p]; try lia.
  unfold int_true_div. cbn [Z.eqb of_int].
  assert (H : SFdiv prec emax (S754_finite false p 0) (S754_finite false p 0)
              = literal 1 1); [|rewrite H; reflexivity].
  unfold SFdiv, SFdiv_core_binary.
  replace (Zdigits2 (Z.pos p) + 0 - (Zdigits2 (Z.pos p) + 0)) with 0 by lia.
  change (Z.min (fexp prec emax 0) (0 - 0)) with (-53).
  change (0 - 0 - -53) with 53.
  cbv iota.
  assert (Hdiv : Z.div_eucl (Z.shiftl (Z.pos p) 53) (Z.pos p) = (2 ^ 53, 0)).
  { rewrite Z.shiftl_mul_pow2 by lia.
    pose proof (Z.div_eucl_eq (Z.pos p * 2 ^ 53) (Z.pos p)) as Heq.
    pose proof (Z.mod_pos_bound (Z.pos p * 2 ^ 53) (Z.pos p)) as Hbound.
    unfold Z.modulo in Hbound.
    destruct (Z.div_eucl (Z.pos p * 2 ^ 53) (Z.pos p)) as [q r].
    specialize (Heq ltac:(lia)). specialize (Hbound ltac:(lia)).
    cbn [snd] in Hbound.
    assert (q = 2 ^ 53) by nia. subst q.
    assert (r = 0) by lia. subst r. reflexivity. }
  rewrite Hdiv.
  assert (Hloc : new_location (Z.pos p) 0 = loc_Exact)
    by (unfold new_location; destruct (Z.even (Z.pos p)); reflexivity).
  rewrite Hloc. vm_compute. reflexivity.
Qed.

(** X9. With at least one Module 1 response and the quotient computed in
    doubles: when every Module 1 response is correct the quotient is
    exactly 1.0 and the classifier returns hard for every threshold at
    most 1.0; when none is correct the quotient is zero and the
    classifier returns easy for every threshold above zero. *)
Theorem determine_module2_difficulty_at_the_ends (self : Analyzer.t) (t : Z) :
  0 < t ->
  (leb (Analyzer.adaptive_threshold self) (literal 1 1) = true ->
   value (determine_module2_difficulty self t t) = Ok hard_tier)
  /\ (ltb (S754_zero false) (Analyzer.adaptive_threshold self) = true ->
      value (determine_module2_difficulty self 0 t) = Ok easy_tier).
Proof.
  intros Ht. split.
  - intros Hthr.
    rewrite (determine_module2_difficulty_nonzero self t t) by lia.
    rewrite (int_true_div_same t Ht). cbn [value snd]. unfold tier_of.
    rewrite Hthr. reflexivity.
  - intros Hthr.
    rewrite (determine_module2_difficulty_nonzero self 0 t) by lia.
    destruct (int_true_div_zero t) as [s Hs]; [lia|]. rewrite Hs.
    cbn [value snd]. unfold tier_of.
    replace (leb (Analyzer.adaptive_threshold self) (S754_zero s)) with false;
      [reflexivity|].
    symmetry. apply (ltb_not_leb (S754_zero s)).
    destruct s; exact Hthr.
Qed.

(** ** Whole milliseconds against one minute *)

Lemma shr_1_half (r : shr_record) :
  0 <= shr_m r -> shr_m (shr_1 r) = shr_m r / 2.
Proof.
  destruct r as [m b s]; cbn [shr_m]; intros Hm.
  destruct m as [|[p|p|]|p]; cbn [shr_1 shr_m]; try reflexivity; try lia.
  - apply Z.div_unique with (r := 1); lia.
  - apply Z.div_unique with (r := 0); lia.
Qed.

Lemma shr_1_nonneg (r : shr_record) : 0 <= shr_m r -> 0 <= shr_m (shr_1 r).
Proof.
  intros H. rewrite shr_1_half by exact H. apply Z.div_pos; lia.
Qed.

Lemma iter_shr_1_shift (p : positive) :
  forall r, 0 <= shr_m r ->
            shr_m (iter_pos shr_1 p r) = shr_m r / 2 ^ Z.pos p.
Proof.
  induction p as [p IH|p IH|]; intros r Hr; cbn [iter_pos].
  - pose proof (shr_1_nonneg r Hr) as H1.
    assert (H2 : 0 <= shr_m (iter_pos shr_1 p (shr_1 r)))
      by (rewrite IH by exact H1; apply Z.div_pos; [exact H1|apply Z.pow_pos_nonneg; lia]).
    rewrite IH by exact H2. rewrite IH by exact H1.
    rewrite shr_1_half by exact Hr.
    rewrite !Z.div_div by (try lia; apply Z.pow_pos_nonneg; lia).
    f_equal. change 2 with (2 ^ 1) at 1.
    rewrite <- !Z.pow_add_r by lia. f_equal. lia.
  - assert (H2 : 0 <= shr_m (iter_pos shr_1 p r))
      by (rewrite IH by exact Hr; apply Z.div_pos; [exact Hr|apply Z.pow_pos_nonneg; lia]).
    rewrite IH by exact H2. rewrite IH by exact Hr.
    rewrite !Z.div_div by (try lia; apply Z.pow_pos_nonneg; lia).
    f_equal. rewrite <- Z.pow_add_r by lia. f_equal. lia.
  - rewrite shr_1_half by exact Hr. reflexivity.
Qed.

Lemma shr_fexp_positive (m e : Z) (l : location) :
  0 < m -> -1021 <= Zdigits2 m + e ->
  0 < shr_m (fst (shr_fexp prec emax m e l))
  /\ e <= snd (shr_fexp prec emax m e l).
Proof.
  intros Hm Hnormal. unfold shr_fexp, shr.
  assert (Hrec : shr_m (shr_record_of_loc m l) = m)
    by (destruct l as [|[]]; reflexivity).
  assert (Hfexp : fexp prec emax (Zdigits2 m + e) - e = Zdigits2 m - 53)
    by (unfold fexp, emin, prec, emax; lia).
  rewrite Hfexp.
  destruct (Zdigits2 m - 53) as [|n|n] eqn:En; cbn [fst snd].
  - rewrite Hrec. lia.
  - split; [|lia]. rewrite iter_shr_1_shift by (rewrite Hrec; lia).
    rewrite Hrec.
    pose proof (Zdigits2_lower m Hm) as Hlow.
    assert (Hle : 2 ^ Z.pos n <= 2 ^ (Zdigits2 m - 1))
      by (apply Z.pow_le_mono_r; lia).
    apply Z.div_str_pos. split; [apply Z.pow_pos_nonneg; lia|lia].
  - rewrite Hrec. lia.
Qed.

Lemma Zdigits2_above (m : Z) : 0 <= m -> m < 2 ^ Zdigits2 m.
Proof.
  intros Hm. destruct m as [|p|p]; try lia; [reflexivity|].
  cbn [Zdigits2]. rewrite digits2_pos_size, <- Pos2Z.inj_pow.
  apply Pos2Z.pos_lt_pos, Pos.size_gt.
Qed.

Lemma binary_round_aux_large (s : bool) (m e : Z) (l : location) :
  0 < m -> -46 <= e ->
  match binary_round_aux prec emax s m e l with
  | S754_finite s' _ e' => s' = s /\ -46 <= e'
  | S754_infinity _ => True
  | _ => False
  end.
Proof.
  intros Hm He. unfold binary_round_aux.
  pose proof (Zdigits2_nonneg m) as Hd.
  pose proof (shr_fexp_positive m e l Hm ltac:(lia)) as [Hm1 He1].
  destruct (shr_fexp prec emax m e l) as [r1 e1]. cbn [fst snd] in Hm1, He1.
  pose proof (round_nearest_even_bound (shr_m r1) (loc_of_shr_record r1)
                ltac:(lia)) as Hm2.
  set (m2 := round_nearest_even (shr_m r1) (loc_of_shr_record r1)) in *.
  pose proof (Zdigits2_nonneg m2) as Hd2.
  pose proof (shr_fexp_positive m2 e1 loc_Exact ltac:(lia) ltac:(lia))
    as [Hm3 He3].
  destruct (shr_fexp prec emax m2 e1 loc_Exact) as [r2 e2].
  cbn [fst snd] in Hm3, He3.
  destruct (shr_m r2) as [|p|p]; try lia.
  destruct (e2 <=? emax - prec); [split; [reflexivity|lia]|exact I].
Qed.

Lemma binary_round_aux_sign (s : bool) (m e : Z) (l : location) :
  match binary_round_aux prec emax s m e l with
  | S754_finite s' _ _ | S754_zero s' | S754_infinity s' => s' = s
  | S754_nan => True
  end.
Proof.
  unfold binary_round_aux.
  destruct (shr_fexp prec emax m e l) as [r1 e1].
  destruct (shr_fexp prec emax _ e1 loc_Exact) as [r2 e2].
  destruct (shr_m r2); [reflexivity| |exact I].
  destruct (e2 <=? emax - prec); reflexivity.
Qed.

Lemma sixty_as_double :
  float_of_int 60 = S754_finite false 8444249301319680 (-47).
Proof. reflexivity. Qed.

Lemma quotient_of_nonpositive (ms : Z) (seconds : float) :
  ms <= 0 -> int_true_div ms 1000 = Ok seconds ->
  ltb (float_of_int 60) seconds = false.
Proof.
  intros Hms. unfold int_true_div. cbn [Z.eqb].
  destruct ms as [|p|p]; try lia.
  - cbn. intros H. injection H as <-. reflexivity.
  - cbn [of_int]. unfold SFdiv.
    destruct (SFdiv_core_binary prec emax (Z.pos p) 0 1000 0) as [[mz ez] lz].
    pose proof (binary_round_aux_sign (xorb true false) mz ez lz) as Hsign.
    destruct (binary_round_aux prec emax (xorb true false) mz ez lz)
      as [s|s| |s m e]; cbn [is_finite]; try discriminate;
      intros H; injection H as <-; cbn [xorb] in Hsign; subst s;
      reflexivity.
Qed.

Lemma quotient_from_65536 (ms : Z) (seconds : float) :
  65536 <= ms -> int_true_div ms 1000 = Ok seconds ->
  ltb (float_of_int 60) seconds = true.
Proof.
  intros Hms. unfold int_true_div. cbn [Z.eqb].
  destruct ms as [|p|p]; try lia. cbn [of_int]. unfold SFdiv, SFdiv_core_binary.
  change (Zdigits2 1000) with 10.
  assert (Hd : 17 <= Zdigits2 (Z.pos p)).
  { pose proof (Zdigits2_above (Z.pos p) ltac:(lia)) as Habove.
    destruct (Z_le_gt_dec 17 (Zdigits2 (Z.pos p))) as [|Hgt]; [assumption|].
    exfalso.
    assert (2 ^ Zdigits2 (Z.pos p) <= 2 ^ 16)
      by (apply Z.pow_le_mono_r; lia).
    change (2 ^ 16) with 65536 in *. lia. }
  set (e' := Z.min _ _).
  assert (He' : -46 <= e' <= 0)
    by (subst e'; unfold fexp, emin, prec, emax; lia).
  set (m' := match 0 - 0 - e' with
             | 0 => Z.pos p
             | Z.pos _ => Z.shiftl (Z.pos p) (0 - 0 - e')
             | Z.neg _ => 0
             end).
  assert (Hm' : 65536 <= m').
  { subst m'. destruct (0 - 0 - e') as [|n|n] eqn:En; try lia.
    rewrite Z.shiftl_mul_pow2 by lia.
    assert (0 < 2 ^ Z.pos n) by (apply Z.pow_pos_nonneg; lia). nia. }
  destruct (Z.div_eucl m' 1000) as [q r] eqn:Hdiv.
  assert (Hq : 0 < q).
  { assert (q = m' / 1000) by (unfold Z.div; rewrite Hdiv; reflexivity).
    subst q. apply Z.div_str_pos. lia. }
  pose proof (binary_round_aux_large (xorb false false) q e'
                (new_location 1000 r) Hq ltac:(lia)) as Hlarge.
  destruct (binary_round_aux prec emax (xorb false false) q e'
              (new_location 1000 r)) as [s|s| |s m e];
    cbn [is_finite]; try discriminate; try contradiction.
  intros H. injection H as <-. destruct Hlarge as [-> He].
  rewrite sixty_as_double. unfold ltb, SFltb. cbn [SFcompare xorb].
  replace (-47 ?= e) with Lt by (symmetry; apply Z.compare_lt_iff; lia).
  reflexivity.
Qed.

Lemma holds_on_block_spec (test : Z -> bool) (k : nat) :
  forall base,
    holds_on_block test k base = true ->
    forall n, base <= n < base + 2 ^ Z.of_nat k -> test n = true.
Proof.
  induction k as [|k IH]; intros base H n Hn.
  - cbn in *. assert (n = base) by lia. subst n. exact H.
  - cbn [holds_on_block] in H. apply andb_true_iff in H.
    destruct H as [Hlo Hhi].
    rewrite Nat2Z.inj_succ, Z.pow_succ_r in Hn by lia.
    destruct (Z_lt_ge_dec n (base + 2 ^ Z.of_nat k)) as [Hlt|Hge].
    + apply (IH base Hlo). lia.
    + apply (IH _ Hhi). lia.
Qed.

Lemma quotient_below_65536 :
  holds_on_block
    (fun ms => Bool.eqb
                 match int_true_div ms 1000 with
                 | Ok seconds => ltb (float_of_int 60) seconds
                 | Raise _ => false
                 end
                 (60000 <? ms)) 16 0 = true.
Proof. vm_compute. reflexivity. Qed.

Lemma whole_milliseconds_over_sixty (ms : Z) (seconds : float) :
  int_true_div ms 1000 = Ok seconds ->
  ltb (float_of_int 60) seconds = (60000 <? ms).
Proof.
  intros Hdiv.
  destruct (Z_le_gt_dec ms 0) as [Hneg|Hpos].
  - rewrite (quotient_of_nonpositive ms seconds Hneg Hdiv).
    symmetry. apply Z.ltb_ge. lia.
  - destruct (Z_le_gt_dec 65536 ms) as [Hbig|Hsmall].
    + rewrite (quotient_from_65536 ms seconds Hbig Hdiv).
      symmetry. apply Z.ltb_lt. lia.
    + pose proof (holds_on_block_spec _ 16 0 quotient_below_65536 ms)
        as Hall.
      cbv beta in Hall. rewrite Hdiv in Hall.
      apply Bool.eqb_prop. apply Hall.
      change (2 ^ Z.of_nat 16) with 65536. lia.
Qed.

(** ** The slow questions of whole milliseconds *)

Lemma is_slow_whole_time (q : Response.t) :
  whole_time q = true -> returns (time_spent_s q) = true ->
  is_slow q = over_one_minute q.
Proof.
  unfold whole_time, returns, is_slow, over_one_minute, time_spent_s.
  destruct (Response.time_spent q) as [[ms|f]|]; intros Hwhole Hret;
    try discriminate.
  - destruct (int_true_div ms 1000) as [seconds|e] eqn:Hdiv;
      [|discriminate].
    apply whole_milliseconds_over_sixty. exact Hdiv.
  - reflexivity.
Qed.

(** X10. A response whose time is a whole number of milliseconds, or is
    missing, passes the test of [slow_questions] exactly when the number
    is greater than 60000: the division by 1000 and the comparison of
    doubles lose nothing at the limit of one minute. *)
Theorem whole_milliseconds_slow (q : Response.t) :
  whole_time q = true -> returns (time_spent_s q) = true ->
  is_slow q = over_one_minute q.
Proof. exact (is_slow_whole_time q). Qed.

(** X11. When every time of the subject's responses is a whole number
    of milliseconds or missing: for a subject with a Module 1 response
    the [slow_questions] of a returned summary are, in order, the
    subject's responses of more than 60000 milliseconds; for a subject
    without a Module 1 response they are empty, whatever the times. *)
Theorem slow_questions_of_whole_milliseconds (py_sum : list float -> float)
  (format_2f : float -> string) (self : Analyzer.t)
  (student_data : list Response.t) (source_file subject : string)
  (summary : Performance.t) :
  forallb whole_time (subject_data_of student_data subject) = true ->
  value (analyze_subject py_sum format_2f self student_data source_file
           subject) = Ok summary ->
  (len (stage1 student_data subject) <> 0 ->
   Forall2 slow_entry_of
     (filter over_one_minute (subject_data_of student_data subject))
     (Performance.slow_questions summary))
  /\ (len (stage1 student_data subject) = 0 ->
      Performance.slow_questions summary = []).
Proof.
  intros Hwhole Hrun. split.
  - intros Ht.
    pose proof (analyze_subject_times_ok py_sum format_2f self student_data
                  source_file subject summary Ht Hrun) as Hok.
    destruct (analyze_subject_returns py_sum format_2f self student_data
                source_file subject Ht Hok)
      as (ratio & scaled & slow & weak & clusters
          & _ & _ & Hslow & _ & Hrun').
    rewrite Hrun' in Hrun. injection Hrun as <-.
    cbn [Performance.slow_questions].
    replace (filter over_one_minute (subject_data_of student_data subject))
      with (filter is_slow (subject_data_of student_data subject));
      [exact Hslow|].
    apply filter_ext_in. intros q Hq.
    rewrite forallb_forall in Hwhole. unfold times_ok in Hok.
    rewrite forallb_forall in Hok.
    apply is_slow_whole_time; auto.
  - intros Hz.
    rewrite (analyze_subject_zeroed _ _ _ _ _ _ Hz) in Hrun.
    injection Hrun as <-. reflexivity.
Qed.

(** ** What the calibration depends on *)

Lemma prediction_counts_counted (threshold : float) (data : list Sample.t) :
  forall correct_predictions total_valid,
    prediction_counts data threshold correct_predictions total_valid
    = prediction_counts (filter counted_sample data) threshold
        correct_predictions total_valid.
Proof.
  induction data as [|s data IH]; intros cp tv; [reflexivity|].
  cbn [filter prediction_counts]. unfold counted_sample at 1.
  destruct (Sample.module1_total s =? 0) eqn:Hz; cbn [negb].
  - apply IH.
  - cbn [prediction_counts]. rewrite Hz.
    destruct (int_true_div _ _) as [ratio|e]; [|reflexivity].
    cbn [lift bind]. rewrite IH. reflexivity.
Qed.

Lemma threshold_scan_ext (data data' : list Sample.t) :
  (forall threshold,
     calculate_prediction_accuracy data threshold
     = calculate_prediction_accuracy data' threshold) ->
  forall thresholds best_accuracy best_threshold,
    threshold_scan data thresholds best_accuracy best_threshold
    = threshold_scan data' thresholds best_accuracy best_threshold.
Proof.
  intros Hext thresholds.
  induction thresholds as [|threshold rest IH]; intros ba bt; [reflexivity|].
  cbn [threshold_scan]. rewrite Hext.
  destruct (calculate_prediction_accuracy data' threshold) as [l [a|e]];
    [|reflexivity].
  cbn [bind]. destruct (ltb ba a); rewrite IH; reflexivity.
Qed.

(** X12. A sample whose Module 1 total is 0 never influences the
    calibration: the accuracy of every threshold and the threshold the
    calibrator returns are those of the samples left when such samples
    are removed. *)
Theorem zero_total_samples_ignored (thresholds : list float)
  (data : list Sample.t) :
  (forall threshold,
     calculate_prediction_accuracy data threshold
     = calculate_prediction_accuracy (filter counted_sample data) threshold)
  /\ find_optimal_threshold thresholds data
     = find_optimal_threshold thresholds (filter counted_sample data).
Proof.
  assert (Hacc : forall threshold,
             calculate_prediction_accuracy data threshold
             = calculate_prediction_accuracy (filter counted_sample data)
                 threshold).
  { intros threshold. unfold calculate_prediction_accuracy.
    rewrite prediction_counts_counted. reflexivity. }
  split; [exact Hacc|].
  unfold find_optimal_threshold. apply threshold_scan_ext. exact Hacc.
Qed.

Lemma int_true_div_raises (a b : Z) (e : exn) :
  b <> 0 -> int_true_div a b = Raise e -> e = OverflowError.
Proof.
  intros Hb. unfold int_true_div.
  replace (b =? 0) with false by (symmetry; apply Z.eqb_neq; exact Hb).
  destruct (is_finite _); [discriminate|].
  intros H. injection H as <-. reflexivity.
Qed.

Lemma prediction_counts_permutation (threshold : float)
  (data data' : list Sample.t) :
  Permutation data data' ->
  forall cp tv,
    prediction_counts data threshold cp tv
    = prediction_counts data' threshold cp tv.
Proof.
  induction 1 as [|s l l' Hperm IH|s s' l|l l' l'' _ IH1 _ IH2];
    intros cp tv.
  - reflexivity.
  - cbn [prediction_counts].
    destruct (Sample.module1_total s =? 0); [apply IH|].
    destruct (int_true_div _ _) as [ratio|e]; [|reflexivity].
    cbn [lift bind]. rewrite IH. reflexivity.
  - cbn [prediction_counts].
    destruct (Z.eqb_spec (Sample.module1_total s) 0) as [Hs|Hs];
      destruct (Z.eqb_spec (Sample.module1_total s') 0) as [Hs'|Hs'];
      try reflexivity.
    destruct (int_true_div (Sample.module1_correct s) _) as [r|e] eqn:Hd;
      destruct (int_true_div (Sample.module1_correct s') _) as [r'|e'] eqn:Hd';
      cbn [lift bind app].
    + set (right_s := difficulty_eqb (if leb threshold r then _ else _) _).
      set (right_s' := difficulty_eqb (if leb threshold r' then _ else _) _).
      replace (if right_s
               then (if right_s' then cp + 1 else cp) + 1
               else (if right_s' then cp + 1 else cp))
        with (if right_s'
              then (if right_s then cp + 1 else cp) + 1
              else (if right_s then cp + 1 else cp))
        by (destruct right_s, right_s'; lia).
      reflexivity.
    + rewrite (int_true_div_raises _ _ e' Hs' Hd'). reflexivity.
    + rewrite (int_true_div_raises _ _ e Hs Hd). reflexivity.
    + rewrite (int_true_div_raises _ _ e Hs Hd),
        (int_true_div_raises _ _ e' Hs' Hd'). reflexivity.
  - rewrite IH1. apply IH2.
Qed.

(** X13. The calibration does not depend on the order of the samples:
    for a rearrangement of the same samples every accuracy and the
    returned threshold are the same, exceptions included. *)
Theorem calibration_order_independent (thresholds : list float)
  (data data' : list Sample.t) :
  Permutation data data' ->
  (forall threshold,
     calculate_prediction_accuracy data threshold
     = calculate_prediction_accuracy data' threshold)
  /\ find_optimal_threshold thresholds data
     = find_optimal_threshold thresholds data'.
Proof.
  intros Hperm.
  assert (Hacc : forall threshold,
             calculate_prediction_accuracy data threshold
             = calculate_prediction_accuracy data' threshold).
  { intros threshold. unfold calculate_prediction_accuracy.
    rewrite (prediction_counts_permutation threshold data data' Hperm).
    reflexivity. }
  split; [exact Hacc|].
  unfold find_optimal_threshold. apply threshold_scan_ext. exact Hacc.
Qed.

(** ** The order of the topics *)

Lemma keys_topics_update_order (topic : string)
  (f : TopicStats.t -> TopicStats.t) (d : list (string * TopicStats.t)) :
  keys (topics_update topic f d) = add_label (keys d) topic.
Proof.
  unfold add_label. induction d as [|[k stats] d IH].
  - reflexivity.
  - cbn [topics_update keys List.map fst].
    destruct (String.eqb_spec k topic) as [->|Hneq].
    + destruct (in_dec string_dec topic (topic :: List.map fst d)) as [_|Hn];
        [reflexivity|].
      exfalso. apply Hn. left. reflexivity.
    + cbn [keys List.map fst]. fold (keys (topics_update topic f d)).
      rewrite IH. fold (keys d).
      destruct (in_dec string_dec topic (keys d)) as [Hin|Hnin];
        destruct (in_dec string_dec topic (k :: keys d)) as [Hin'|Hnin'];
        try reflexivity.
      * exfalso. apply Hnin'. right. exact Hin.
      * exfalso. destruct Hin' as [Heq|Hin']; [congruence|contradiction].
Qed.

Lemma keys_topics_fold (l : list Response.t) :
  forall d d',
    value (foldM topics_step d l) = Ok d' ->
    keys d' = fold_left add_label (topic_labels l) (keys d).
Proof.
  induction l as [|q l IH]; intros d d' Hrun.
  - cbn in Hrun. injection Hrun as <-. reflexivity.
  - cbn [foldM] in Hrun. value_step Hrun.
    rewrite (IH _ _ Hrun). unfold topic_labels at 2. cbn [flat_map].
    fold (topic_labels l). rewrite fold_left_app. f_equal.
    unfold topics_step in E.
    destruct (Response.topic_name q) as [topic|].
    + destruct (String.eqb topic "").
      * injection E as <-. reflexivity.
      * value_step E. rewrite value_ret in E. injection E as <-.
        rewrite keys_topics_update_order. reflexivity.
    + injection E as <-. reflexivity.
Qed.

Lemma fold_add_label_spec (l : list string) :
  fold_left add_label l [] = first_occurrences l.
Proof.
  unfold first_occurrences.
  induction l as [|x l IH] using rev_ind; [reflexivity|].
  rewrite fold_left_app. cbn [fold_left]. rewrite IH.
  rewrite rev_app_distr. cbn [rev app nodup]. unfold add_label.
  destruct (in_dec string_dec x (rev (nodup string_dec (rev l))))
    as [Hin|Hnin];
    destruct (in_dec string_dec x (rev l)) as [Hin'|Hnin'].
  - reflexivity.
  - exfalso. apply Hnin'. apply in_rev in Hin.
    apply nodup_In in Hin. exact Hin.
  - exfalso. apply Hnin. apply -> in_rev. apply nodup_In. exact Hin'.
  - reflexivity.
Qed.

Lemma first_occurrences_NoDup (l : list string) :
  NoDup (first_occurrences l).
Proof.
  unfold first_occurrences. apply NoDup_rev. apply NoDup_nodup.
Qed.

Lemma keys_weak_topics (format_2f : float -> string)
  (d : list (string * TopicStats.t)) :
  NoDup (keys d) ->
  forall weak,
    value (weak_topics_of format_2f d) = Ok weak ->
    keys weak = filter (has_key weak) (keys d).
Proof.
  induction d as [|[topic stats] d IH]; intros Hnd weak Hrun.
  - cbn in Hrun. injection Hrun as <-. reflexivity.
  - cbn [keys List.map fst] in Hnd. fold (keys d) in Hnd.
    inversion Hnd as [|? ? Hnotin Hnd']; subst.
    cbn [weak_topics_of] in Hrun. value_step Hrun.
    assert (Hsub : forall w : list (string * string),
               keys w = filter (has_key w) (keys d) ->
                             ~ In topic (keys w)).
    { intros w Hw Hin. rewrite Hw in Hin. apply filter_In in Hin.
      apply Hnotin. apply Hin. }
    destruct a.
    + value_step Hrun. value_step Hrun. rewrite value_ret in Hrun.
      injection Hrun as <-. specialize (IH Hnd' _ eq_refl).
      cbn [keys List.map fst filter]. fold (keys a0). fold (keys d).
      unfold has_key at 1. cbn [assoc]. rewrite String.eqb_refl.
      f_equal. rewrite IH. apply filter_ext_in. intros k Hk.
      unfold has_key. cbn [assoc].
      destruct (String.eqb_spec topic k) as [<-|]; [contradiction|].
      reflexivity.
    + specialize (IH Hnd' _ Hrun).
      cbn [keys List.map fst filter]. fold (keys d).
      replace (has_key weak topic) with false; [exact IH|].
      unfold has_key. rewrite (assoc_none topic weak (Hsub weak IH)).
      reflexivity.
Qed.

Lemma analyze_subject_topics (py_sum : list float -> float)
  (format_2f : float -> string) (self : Analyzer.t)
  (student_data : list Response.t) (source_file subject : string)
  (summary : Performance.t) :
  len (stage1 student_data subject) <> 0 ->
  value (analyze_subject py_sum format_2f self student_data source_file
           subject) = Ok summary ->
  exists topics,
    value (foldM topics_step [] (subject_data_of student_data subject))
    = Ok topics
    /\ value (weak_topics_of format_2f topics)
       = Ok (Performance.weak_topics summary)
    /\ value (topic_clusters_of py_sum format_2f topics)
       = Ok (Performance.topic_clusters summary).
Proof.
  intros Ht Hrun. unfold analyze_subject in Hrun. cbv zeta in Hrun.
  fold (stage1 student_data subject) in Hrun.
  replace (len (stage1 student_data subject) =? 0) with false in Hrun
    by (symmetry; apply Z.eqb_neq; exact Ht).
  do 8 value_step Hrun. rewrite value_ret in Hrun. injection Hrun as <-.
  exists a3. cbn [Performance.weak_topics Performance.topic_clusters].
  repeat split; assumption.
Qed.

Lemma weak_keys_by_accuracy (py_sum : list float -> float)
  (format_2f : float -> string) (l : list Response.t)
  (weak clusters : list (string * string)) :
  topics_summarised py_sum format_2f l weak clusters ->
  filter (has_key weak) (keys clusters)
  = filter (is_weak_topic l) (keys clusters).
Proof.
  intros Hsum. apply filter_ext_in. intros topic Hin.
  destruct (Hsum topic) as [Hnone Hsome].
  pose proof (count_if_bounds (has_topic topic) l) as Hcount.
  fold (topic_total topic l) in Hcount.
  assert (Hpos : 0 < topic_total topic l).
  { destruct (Z.eq_dec (topic_total topic l) 0) as [Hz|Hnz]; [|lia].
    exfalso. destruct (Hnone Hz) as [Hc _].
    apply assoc_keys in Hin. destruct Hin as [v Hv]. congruence. }
  destruct (Hsome Hpos) as (ratio & times & mean & Hdiv & _ & _ & _ & Hweak).
  unfold has_key, is_weak_topic. rewrite Hweak, Hdiv.
  destruct (ltb ratio (literal 5 10)); reflexivity.
Qed.

(** X14. For a subject with a Module 1 response, the two dictionaries
    of topics of a returned summary keep the order in which the topics
    first appear among the subject's responses: the keys of
    [topic_clusters] are the distinct non-empty topic names, each at
    its first occurrence, and the keys of [weak_topics] are, in the
    same order, those of them whose quotient of correct responses by
    responses, taken over all the subject's responses, is below one
    half.  For a subject without a Module 1 response both dictionaries
    are empty. *)
Theorem topics_in_order_of_appearance (py_sum : list float -> float)
  (format_2f : float -> string) (self : Analyzer.t)
  (student_data : list Response.t) (source_file subject : string)
  (summary : Performance.t) :
  value (analyze_subject py_sum format_2f self student_data source_file
           subject) = Ok summary ->
  (len (stage1 student_data subject) <> 0 ->
   keys (Performance.topic_clusters summary)
   = first_occurrences (topic_labels (subject_data_of student_data subject))
   /\ NoDup (keys (Performance.topic_clusters summary))
   /\ keys (Performance.weak_topics summary)
      = filter (is_weak_topic (subject_data_of student_data subject))
          (keys (Performance.topic_clusters summary)))
  /\ (len (stage1 student_data subject) = 0 ->
      Performance.topic_clusters summary = []
      /\ Performance.weak_topics summary = []).
Proof.
  intros Hrun. split.
  - intros Ht.
    pose proof (analyze_subject_times_ok py_sum format_2f self student_data
                  source_file subject summary Ht Hrun) as Hok.
    destruct (analyze_subject_topics py_sum format_2f self student_data
                source_file subject summary Ht Hrun)
      as (topics & Hfold & Hweak & Hclusters).
    destruct (topics_fold_spec _ Hok) as (topics' & Hfold' & Hnd & Hrep).
    rewrite Hfold' in Hfold. injection Hfold as ->.
    pose proof (represents_stats_ok _ topics Hnd Hrep) as Hstats.
    destruct (topic_clusters_of_spec py_sum format_2f topics Hstats)
      as (clusters & Hc & Hkeys & _).
    destruct (weak_topics_of_spec format_2f topics Hnd Hstats)
      as (weak & Hw & _).
    assert (Hsum : topics_summarised py_sum format_2f
                     (subject_data_of student_data subject) weak clusters)
      by exact (topics_summarised_intro py_sum format_2f _ _ _ _ Hnd Hrep
                  Hw Hc).
    rewrite Hc in Hclusters. injection Hclusters as Hclusters.
    rewrite Hw in Hweak. injection Hweak as Hweak'.
    rewrite <- Hclusters, <- Hweak'.
    assert (Hlabels : keys topics
                      = first_occurrences
                          (topic_labels
                             (subject_data_of student_data subject))).
    { rewrite <- fold_add_label_spec.
      apply (keys_topics_fold _ [] topics). rewrite Hfold'. reflexivity. }
    split; [rewrite Hkeys; exact Hlabels|].
    split; [rewrite Hkeys; exact Hnd|].
    rewrite <- (weak_keys_by_accuracy py_sum format_2f _ weak clusters Hsum).
    rewrite Hkeys. apply (keys_weak_topics format_2f topics Hnd).
    rewrite Hw. reflexivity.
  - intros Hz.
    rewrite (analyze_subject_zeroed _ _ _ _ _ _ Hz) in Hrun.
    injection Hrun as <-. split; reflexivity.
Qed.

(** ** The loader *)

Lemma snd_load_bind {A B : Type} (m : Load A) (f : A -> Load B) :
  snd (load_bind m f) =
  match snd m with
  | Returned a => snd (f a)
  | Raised e => Raised e
  end.
Proof.
  destruct m as [l [a|e]]; cbn [load_bind snd]; [|reflexivity].
  destruct (f a); reflexivity.
Qed.

Lemma fst_load_bind {A B : Type} (m : Load A) (f : A -> Load B) :
  fst (load_bind m f) =
  match snd m with
  | Returned a => fst m ++ fst (f a)
  | Raised e => fst m
  end.
Proof.
  destruct m as [l [a|e]]; cbn [load_bind snd fst]; [|reflexivity].
  destruct (f a); reflexivity.
Qed.

Section LoaderFacts.

Variable files : string -> file_state.
Variable repr_sections : list string -> string.
Variable repr_records : list Response.t -> string.

Abbreviation load := (load_student_data files repr_sections repr_records).

Lemma report_loaded_value (source_file : string) (data : list Response.t) :
  snd (report_loaded repr_sections repr_records source_file data) =
  if is_empty data
  then Raised (ValueError ("No valid data loaded from " ++ source_file ++ "."))
  else Returned data.
Proof.
  unfold report_loaded. destruct data as [|q data]; [reflexivity|].
  cbn [is_empty]. rewrite snd_load_bind.
  destruct (negb _); reflexivity.
Qed.

Lemma query_collection_value (collection : option (string -> find_outcome))
  (source_file : string) (use_mongodb : bool) :
  snd (query_collection collection source_file use_mongodb) =
  match query_raises collection source_file use_mongodb with
  | Some e => Raised (Other_exception e)
  | None =>
      match database_answer collection source_file use_mongodb with
      | Some data => Returned (data, true)
      | None =>
          Returned ([], if use_mongodb
                        then match collection with
                             | Some _ => false
                             | None => true
                             end
                        else false)
      end
  end.
Proof.
  unfold query_collection, query_raises, database_answer.
  destruct use_mongodb; [|destruct collection; reflexivity].
  destruct collection as [find|]; [|reflexivity].
  destruct (find source_file) as [[|q data]|e|e]; reflexivity.
Qed.

Lemma load_student_data_value (collection : option (string -> find_outcome))
  (source_file : string) (use_mongodb : bool) :
  snd (load collection source_file use_mongodb) =
  match query_raises collection source_file use_mongodb with
  | Some e => Raised (Other_exception e)
  | None =>
      match database_answer collection source_file use_mongodb with
      | Some data => Returned data
      | None =>
          match files source_file with
          | Absent =>
              Raised (FileNotFoundError
                        ("File " ++ source_file ++ " not found."))
          | Unreadable e => Raised (Other_exception e)
          | Holds [] =>
              Raised (ValueError
                        ("No valid data loaded from " ++ source_file ++ "."))
          | Holds (q :: data) => Returned (q :: data)
          end
      end
  end.
Proof.
  unfold load_student_data.
  rewrite snd_load_bind, query_collection_value.
  destruct (query_raises collection source_file use_mongodb); [reflexivity|].
  destruct (database_answer collection source_file use_mongodb)
    as [data|] eqn:Hdb.
  - cbn [fst snd]. rewrite snd_load_bind. unfold read_local_file.
    assert (Hne : is_empty data = false).
    { unfold database_answer in Hdb.
      destruct use_mongodb; [|discriminate].
      destruct collection as [find|]; [|discriminate].
      destruct (find source_file) as [[|q d]|e|e]; try discriminate.
      injection Hdb as <-. reflexivity. }
    rewrite Hne. cbn [negb orb load_ret snd].
    rewrite report_loaded_value, Hne. reflexivity.
  - cbn [fst snd]. rewrite snd_load_bind. unfold read_local_file.
    cbn [is_empty]. rewrite orb_true_r.
    destruct (files source_file) as [|records|e]; try reflexivity.
    cbn [load_ret snd]. rewrite report_loaded_value.
    destruct records; reflexivity.
Qed.

Lemma database_answer_nonempty
  (collection : option (string -> find_outcome)) (source_file : string)
  (use_mongodb : bool) (data : list Response.t) :
  database_answer collection source_file use_mongodb = Some data ->
  data <> []
  /\ use_mongodb = true
  /\ exists find, collection = Some find /\ find source_file = Found data.
Proof.
  unfold database_answer. destruct use_mongodb; [|discriminate].
  destruct collection as [find|]; [|discriminate].
  destruct (find source_file) as [[|q d]|e|e] eqn:Hfind; try discriminate.
  intros H. injection H as <-. split; [discriminate|].
  split; [reflexivity|]. exists find. split; [reflexivity|exact Hfind].
Qed.

(** X15. The loader never returns an empty list, and what it returns
    is either the non-empty answer of the collection, with
    [use_mongodb] set and a collection given, or, when there is no such
    answer, the content of the local file. *)
Theorem loaded_data_never_empty
  (collection : option (string -> find_outcome)) (source_file : string)
  (use_mongodb : bool) (data : list Response.t) :
  snd (load collection source_file use_mongodb) = Returned data ->
  data <> []
  /\ ((use_mongodb = true
       /\ exists find, collection = Some find
                       /\ find source_file = Found data)
      \/ (database_answer collection source_file use_mongodb = None
          /\ files source_file = Holds data)).
Proof.
  rewrite load_student_data_value.
  destruct (query_raises collection source_file use_mongodb);
    [discriminate|].
  destruct (database_answer collection source_file use_mongodb)
    as [answer|] eqn:Hdb.
  - intros H. injection H as <-.
    destruct (database_answer_nonempty _ _ _ _ Hdb) as (Hne & Hu & Hfind).
    split; [exact Hne|]. left. split; assumption.
  - destruct (files source_file) as [|[|q records]|e]; try discriminate.
    intros H. injection H as <-. split; [discriminate|].
    right. split; reflexivity.
Qed.

(** X16. Without an answer of the collection the local file decides:
    when [use_mongodb] is off, when no collection is given, when the
    query finds nothing and when it fails with a [PyMongoError], the
    loader raises [FileNotFoundError] for an absent file and
    [ValueError] for an empty one, and returns the records of any
    other. *)
Theorem local_file_decides
  (collection : option (string -> find_outcome)) (source_file : string)
  (use_mongodb : bool) :
  (use_mongodb = false \/ collection = None
   \/ exists find,
        collection = Some find
        /\ (find source_file = Found []
            \/ exists e, find source_file = PyMongoError e)) ->
  snd (load collection source_file use_mongodb)
  = local_file_outcome files source_file.
Proof.
  intros Hcase. rewrite load_student_data_value.
  unfold query_raises, database_answer, local_file_outcome.
  destruct Hcase as [->|[->|(find & -> & [Hf|[e Hf]])]].
  - reflexivity.
  - destruct use_mongodb; reflexivity.
  - destruct use_mongodb; rewrite ?Hf; reflexivity.
  - destruct use_mongodb; rewrite ?Hf; reflexivity.
Qed.

End LoaderFacts.

(** X17. When the collection answers with a non-empty list, the loader
    returns it and the file system is not looked at: the outcome and
    the printed lines are the same whatever the files are. *)
Theorem database_answer_needs_no_file (files files' : string -> file_state)
  (repr_sections : list string -> string)
  (repr_records : list Response.t -> string)
  (find : string -> find_outcome) (source_file : string)
  (q : Response.t) (data : list Response.t) :
  find source_file = Found (q :: data) ->
  load_student_data files repr_sections repr_records (Some find)
    source_file true
  = load_student_data files' repr_sections repr_records (Some find)
      source_file true
  /\ snd (load_student_data files repr_sections repr_records (Some find)
            source_file true) = Returned (q :: data).
Proof.
  intros Hfind. split.
  - unfold load_student_data, query_collection. rewrite Hfind.
    reflexivity.
  - rewrite load_student_data_value.
    unfold query_raises, database_answer. rewrite Hfind. reflexivity.
Qed.

Lemma nodup_length_le {A : Type} (dec : forall a b : A, {a = b} + {a <> b})
  (l : list A) :
  (List.length (nodup dec l) <= List.length l)%nat.
Proof.
  induction l as [|a l IH]; [apply le_n|]. cbn [nodup].
  destruct (in_dec dec a l); cbn [List.length]; lia.
Qed.

Lemma nodup_length_NoDup {A : Type}
  (dec : forall a b : A, {a = b} + {a <> b}) (l : list A) :
  List.length (nodup dec l) = List.length l <-> NoDup l.
Proof.
  split.
  - induction l as [|a l IH]; intros Hlen; [constructor|].
    cbn [nodup] in Hlen. destruct (in_dec dec a l) as [Hin|Hnin].
    + pose proof (nodup_length_le dec l). cbn [List.length] in Hlen. lia.
    + cbn [List.length] in Hlen. constructor; [exact Hnin|].
      apply IH. lia.
  - intros Hnd. rewrite (nodup_fixed_point dec Hnd). reflexivity.
Qed.

(** X18. When the loader returns, the warning about duplicate question
    identifiers is among the printed lines exactly when two records
    have the same identifier [q.get('question_id', q.get('_id'))]. *)
Theorem duplicate_warning_iff (files : string -> file_state)
  (repr_sections : list string -> string)
  (repr_records : list Response.t -> string)
  (collection : option (string -> find_outcome)) (source_file : string)
  (use_mongodb : bool) (data : list Response.t) :
  snd (load_student_data files repr_sections repr_records collection
         source_file use_mongodb) = Returned data ->
  In (Printed (duplicate_warning source_file))
    (fst (load_student_data files repr_sections repr_records collection
            source_file use_mongodb))
  <-> ~ NoDup (List.map identifier data).
Proof.
  intros Hrun. unfold load_student_data in *.
  rewrite snd_load_bind in Hrun. rewrite fst_load_bind.
  destruct (snd (query_collection collection source_file use_mongodb))
    as [state|e] eqn:Hq; [|discriminate].
  rewrite snd_load_bind in Hrun. rewrite fst_load_bind.
  destruct (snd (read_local_file files source_file (fst state) (snd state)))
    as [records|e] eqn:Hr; [|discriminate].
  rewrite report_loaded_value in Hrun.
  destruct (is_empty records) eqn:Hne; [discriminate|].
  injection Hrun as ->.
  assert (Hquery : ~ In (Printed (duplicate_warning source_file))
                     (fst (query_collection collection source_file
                             use_mongodb))).
  { unfold query_collection.
    destruct use_mongodb; [|intros []].
    destruct collection as [find|]; [|intros []].
    destruct (find source_file) as [[|q d]|e|e]; cbn; intros H;
      try contradiction; destruct H as [H|[]]; discriminate. }
  assert (Hread : fst (read_local_file files source_file (fst state)
                         (snd state)) = []).
  { unfold read_local_file.
    destruct (negb (snd state) || is_empty (fst state)); [|reflexivity].
    destruct (files source_file); reflexivity. }
  rewrite Hread. cbn [app].
  unfold report_loaded. rewrite Hne. cbv zeta.
  rewrite <- (nodup_length_NoDup identifier_eq_dec).
  unfold len.
  destruct (Z.eqb_spec
              (Z.of_nat (List.length (List.map identifier data)))
              (Z.of_nat (List.length (nodup identifier_eq_dec
                                        (List.map identifier data)))))
    as [Heq|Hneq]; cbn [negb load_bind load_print load_ret app fst].
  - split.
    + intros Hin. apply in_app_or in Hin. destruct Hin as [Hin|Hin];
        [contradiction|].
      destruct Hin as [H|[H|[]]]; discriminate.
    + intros Hn. exfalso. apply Hn. lia.
  - split.
    + intros _ Heq. apply Hneq. lia.
    + intros _. apply in_or_app. right. left. reflexivity.
Qed.

(** ** The loop of the script *)

Lemma summary_totals (py_sum : list float -> float)
  (format_2f : float -> string) (self : Analyzer.t)
  (student_data : list Response.t) (source_file subject : string)
  (summary : Performance.t) :
  value (analyze_subject py_sum format_2f self student_data source_file
           subject) = Ok summary ->
  (Module1.total (Performance.Module_1 summary) =? 0)
  && (Module2.total (Performance.Module_2 summary) =? 0)
  = (len (stage1 student_data subject) =? 0)
  /\ (Module1.total (Performance.Module_1 summary) =? 0)
     = (len (stage1 student_data subject) =? 0).
Proof.
  intros Hrun.
  destruct (Z.eqb_spec (len (stage1 student_data subject)) 0) as [Hz|Hnz].
  - rewrite (analyze_subject_zeroed _ _ _ _ _ _ Hz) in Hrun.
    injection Hrun as <-. split; reflexivity.
  - pose proof (analyze_subject_times_ok py_sum format_2f self student_data
                  source_file subject summary Hnz Hrun) as Hok.
    destruct (analyze_subject_returns py_sum format_2f self student_data
                source_file subject Hnz Hok)
      as (ratio & scaled & slow & weak & clusters & _ & _ & _ & _ & Hrun').
    rewrite Hrun' in Hrun. injection Hrun as <-.
    cbn [Performance.Module_1 Performance.Module_2 Module1.total].
    replace (len (stage1 student_data subject) =? 0) with false
      by (symmetry; apply Z.eqb_neq; exact Hnz).
    split; reflexivity.
Qed.

Lemma what_if_analysis_returns (self : Analyzer.t)
  (student_data : list Response.t) (source_file : string) :
  exists math reading,
    value (what_if_subject self student_data "Math" 2) = Ok math
    /\ value (what_if_subject self student_data "Reading and Writing" 2)
       = Ok reading
    /\ value (what_if_analysis self student_data source_file 2)
       = Ok [("Math", math); ("Reading and Writing", reading)].
Proof.
  destruct (what_if_subject_returns self student_data "Math" 2)
    as (? & ? & ? & ? & _ & _ & _ & _ & Hmath); [lia|].
  destruct (what_if_subject_returns self student_data "Reading and Writing" 2)
    as (? & ? & ? & ? & _ & _ & _ & _ & Hreading); [lia|].
  eexists. eexists. split; [exact Hmath|]. split; [exact Hreading|].
  rewrite what_if_analysis_value, Hmath, Hreading. reflexivity.
Qed.

Section ScriptFacts.

Variable py_sum : list float -> float.
Variable format_2f : float -> string.
Variable files : string -> file_state.
Variable repr_sections : list string -> string.
Variable repr_records : list Response.t -> string.
Variable repr_topics : list (string * string) -> string.
Variable repr_slow : list SlowQuestion.t -> string.
Variable repr_high_impact : list HighImpact.t -> string.
Variable exception_text : exn -> string.
Variable analyzer : Analyzer.t.
Variable student_collection : string -> find_outcome.
Variable use_mongodb : bool.

Abbreviation run_file :=
  (analyze_file py_sum format_2f files repr_sections repr_records
     repr_topics repr_slow repr_high_impact exception_text analyzer
     student_collection use_mongodb).
Abbreviation loaded file_path :=
  (load_student_data files repr_sections repr_records
     (if use_mongodb then Some student_collection else None)
     file_path use_mongodb).

Lemma analyze_file_rows (file_path : string)
  (student_data : list Response.t)
  (performance : list (string * Performance.t)) :
  snd (loaded file_path) = Returned student_data ->
  value (analyze_performance py_sum format_2f analyzer student_data
           file_path) = Ok performance ->
  exists what_if_results,
    value (what_if_analysis analyzer student_data file_path 2)
    = Ok what_if_results
    /\ snd (run_file file_path) = None
    /\ snd (fst (run_file file_path))
       = flat_map (fun subject => current_row file_path subject performance)
           (reported_subjects student_data)
         ++ flat_map
              (fun subject => what_if_row file_path subject what_if_results)
              (reported_subjects student_data).
Proof.
  intros Hload Hrun.
  destruct (what_if_analysis_returns analyzer student_data file_path)
    as (wmath & wreading & _ & _ & Hwhat).
  exists [("Math", wmath); ("Reading and Writing", wreading)].
  split; [exact Hwhat|].
  rewrite analyze_performance_value in Hrun.
  destruct (value (analyze_subject _ _ _ _ _ "Math")) as [math|e] eqn:Hmath;
    [|discriminate].
  destruct (value (analyze_subject _ _ _ _ _ "Reading and Writing"))
    as [reading|e] eqn:Hreading; [|discriminate].
  injection Hrun as <-.
  destruct (summary_totals _ _ _ _ _ _ _ Hmath) as [Hm_both Hm_one].
  destruct (summary_totals _ _ _ _ _ _ _ Hreading) as [Hr_both Hr_one].
  assert (Hperf : value (analyze_performance py_sum format_2f analyzer
                           student_data file_path)
                  = Ok [("Math", math); ("Reading and Writing", reading)])
    by (rewrite analyze_performance_value, Hmath, Hreading; reflexivity).
  unfold analyze_file.
  destruct (load_student_data _ _ _ _ _ _) as [out1 r1].
  cbn [snd] in Hload. subst r1.
  destruct (analyze_performance _ _ _ _ _) as [out2 r2].
  cbn [value snd] in Hperf. subst r2.
  destruct (what_if_analysis _ _ _ _) as [out4 r4].
  cbn [value snd] in Hwhat. subst r4.
  unfold reported_subjects, subjects, current_row, what_if_row.
  cbn [report_performance report_metrics report_what_if assoc String.eqb
         Ascii.eqb Bool.eqb filter].
  rewrite Hm_both, Hr_both, Hm_one, Hr_one.
  destruct (len (stage1 student_data "Math") =? 0);
    destruct (len (stage1 student_data "Reading and Writing") =? 0);
    cbn [negb flat_map app assoc String.eqb Ascii.eqb Bool.eqb fst snd];
    split; reflexivity.
Qed.

(** X19. For a file whose data is loaded and analysed, the loop of the
    script catches no exception and appends, for the subjects with a
    Module 1 response and in their order, one row with the scaled score
    of the summary each, followed by one row labelled [(+2)] with the
    new score of the simulation each; a subject without a Module 1
    response gets no row of either kind. *)
Theorem rows_of_an_analysed_file (file_path : string)
  (student_data : list Response.t)
  (performance : list (string * Performance.t)) :
  snd (loaded file_path) = Returned student_data ->
  value (analyze_performance py_sum format_2f analyzer student_data
           file_path) = Ok performance ->
  exists what_if_results,
    value (what_if_analysis analyzer student_data file_path 2)
    = Ok what_if_results
    /\ snd (run_file file_path) = None
    /\ snd (fst (run_file file_path))
       = flat_map (fun subject => current_row file_path subject performance)
           (reported_subjects student_data)
         ++ flat_map
              (fun subject => what_if_row file_path subject what_if_results)
              (reported_subjects student_data).
Proof. exact (analyze_file_rows file_path student_data performance). Qed.

(** X20. A file leaves all of its rows or none: when the handler of the
    loop catches an exception, it is one of the loader or of the
    aggregation, and no row of the file has been appended. *)
Theorem failed_file_adds_no_row (file_path : string) (e : script_error) :
  snd (run_file file_path) = Some e ->
  snd (fst (run_file file_path)) = []
  /\ ((exists e', e = Load_error e' /\ snd (loaded file_path) = Raised e')
      \/ exists e' student_data,
           e = Engine_error e'
           /\ snd (loaded file_path) = Returned student_data
           /\ value (analyze_performance py_sum format_2f analyzer
                       student_data file_path) = Raise e').
Proof.
  destruct (snd (loaded file_path)) as [student_data|e'] eqn:Hload.
  - destruct (value (analyze_performance py_sum format_2f analyzer
                       student_data file_path)) as [performance|e'] eqn:Hrun.
    + destruct (analyze_file_rows file_path student_data performance
                  Hload Hrun) as (_ & _ & Hnone & _).
      rewrite Hnone. discriminate.
    + unfold analyze_file.
      destruct (load_student_data _ _ _ _ _ _) as [out1 r1].
      cbn [snd] in Hload. subst r1.
      destruct (analyze_performance _ _ _ _ _) as [out2 r2] eqn:Hperf.
      cbn [value snd] in Hrun. subst r2. cbn [fst snd].
      intros H. injection H as <-. split; [reflexivity|].
      right. exists e', student_data.
      split; [reflexivity|]. split; [reflexivity|].
      rewrite Hperf. reflexivity.
  - unfold analyze_file.
    destruct (load_student_data _ _ _ _ _ _) as [out1 r1].
    cbn [snd] in Hload. subst r1. cbn [fst snd].
    intros H. injection H as <-. split; [reflexivity|].
    left. exists e'. split; reflexivity.
Qed.

End ScriptFacts.

(** ** The colours of the chart *)

Lemma prefix_empty (s : string) : String.prefix "" s = true.
Proof. destruct s; reflexivity. Qed.

Lemma prefix_2_append (a b : string) :
  String.prefix "2" b = false ->
  String.prefix "2" (a ++ b) = String.prefix "2" a.
Proof.
  intros Hb. destruct a as [|c a]; [exact Hb|].
  cbn [append String.prefix].
  destruct (Ascii.ascii_dec "2"%char c); [|reflexivity].
  rewrite !prefix_empty. reflexivity.
Qed.

Lemma contains_plus2_append (a b : string) :
  String.prefix "2" b = false ->
  contains "+2" (a ++ b) = contains "+2" a || contains "+2" b.
Proof.
  intros Hb. induction a as [|c a IH].
  - cbn [append contains String.prefix orb]. reflexivity.
  - cbn [append contains]. rewrite IH.
    replace (String.prefix "+2" (String c (a ++ b)))
      with (String.prefix "+2" (String c a)).
    + rewrite <- !orb_assoc. reflexivity.
    + cbn [String.prefix].
      destruct (Ascii.ascii_dec "+"%char c); [|reflexivity].
      change (String.prefix "2" a = String.prefix "2" (a ++ b)).
      symmetry. apply prefix_2_append. exact Hb.
Qed.

Lemma contains_plus2_label (subject base : string) :
  contains "+2" (subject ++ " (" ++ base ++ ")")
  = contains "+2" subject || contains "+2" base.
Proof.
  rewrite contains_plus2_append by reflexivity. f_equal.
  change (" (" ++ base ++ ")")%string
    with (String " " (String "(" (base ++ ")"))).
  cbn [contains String.prefix].
  destruct (Ascii.ascii_dec "+"%char " "%char) as [H|_]; [discriminate H|].
  destruct (Ascii.ascii_dec "+"%char "("%char) as [H|_]; [discriminate H|].
  cbn [orb]. rewrite contains_plus2_append by reflexivity.
  cbn. rewrite orb_false_r. reflexivity.
Qed.

(** X21. In the chart, the bar of a row labelled [(+2)] always has the
    lighter colour, and the bar of a row of one of the two subjects has
    the darker colour unless the base name of its file contains [+2],
    in which case it has the lighter colour as well. *)
Theorem bar_colours (file_path subject : string) (score score' : Z) :
  In subject subjects ->
  bar_colour (chart_label {| Row.file := file_path;
                             Row.subject := subject ++ " (+2)";
                             Row.scaled_score := score' |}) = "#66BB6A"
  /\ bar_colour (chart_label {| Row.file := file_path;
                                Row.subject := subject;
                                Row.scaled_score := score |})
     = if contains "+2" (last_segment file_path)
       then "#66BB6A" else "#4CAF50".
Proof.
  intros Hsubject. unfold bar_colour, chart_label.
  cbn [Row.subject Row.file]. rewrite !contains_plus2_label. split.
  - replace (contains "+2" (subject ++ " (+2)")) with true; [reflexivity|].
    symmetry. destruct Hsubject as [<-|[<-|[]]]; reflexivity.
  - replace (contains "+2" subject) with false.
    + cbn [orb]. destruct (contains "+2" (last_segment file_path));
        reflexivity.
    + symmetry. destruct Hsubject as [<-|[<-|[]]]; reflexivity.
Qed.

(** ** The further properties at sample inputs *)

Lemma what_if_saturates_witness :
  what_if_subject placeholder_analyzer mixed_sections "Math" 1
  = what_if_subject placeholder_analyzer mixed_sections "Math" 5.
Proof.
  apply (what_if_saturates placeholder_analyzer mixed_sections "Math" 1 5);
    vm_compute; discriminate.
Defined.

Lemma what_if_without_module1_witness :
  len (stage1 module2_only "Math") = 0
  /\ exists outcome,
       value (what_if_subject placeholder_analyzer module2_only "Math" 2)
       = Ok outcome
       /\ WhatIf.score_gain outcome = 0.
Proof.
  split; [reflexivity|].
  destruct (what_if_without_module1 placeholder_analyzer module2_only "Math" 2)
    as (outcome & Hrun & _ & _ & Hgain & _); [reflexivity|lia|].
  exists outcome. split; [exact Hrun|exact Hgain].
Defined.

Lemma summary_consistent_witness :
  exists summary,
    value (analyze_subject sum_from_left format_2f_exact placeholder_analyzer
             mixed_sections "attempt.json" "Math") = Ok summary
    /\ Performance.raw_score summary
       = Module1.correct (Performance.Module_1 summary)
         + Module2.correct (Performance.Module_2 summary).
Proof.
  destruct (value (analyze_subject sum_from_left format_2f_exact
                     placeholder_analyzer mixed_sections "attempt.json"
                     "Math")) as [summary|e] eqn:Hrun;
    [|vm_compute in Hrun; discriminate].
  exists summary. split; [reflexivity|].
  apply (summary_consistent sum_from_left format_2f_exact
           placeholder_analyzer mixed_sections "attempt.json" "Math" summary
           Hrun).
Defined.

Lemma other_subjects_ignored_witness :
  what_if_subject placeholder_analyzer mixed_sections "Math" 2
  = what_if_subject placeholder_analyzer
      (response "r1" "Reading and Writing" "Static" "Grammar" true 1000
         :: mixed_sections) "Math" 2.
Proof.
  apply (other_subjects_ignored sum_from_left format_2f_exact
           placeholder_analyzer mixed_sections
           (response "r1" "Reading and Writing" "Static" "Grammar" true 1000
              :: mixed_sections) "attempt.json" "Math" 2).
  reflexivity.
Defined.

Lemma scores_order_independent_witness :
  exists outcome outcome',
    value (what_if_subject placeholder_analyzer mixed_sections "Math" 2)
    = Ok outcome
    /\ value (what_if_subject placeholder_analyzer (rev mixed_sections)
                "Math" 2) = Ok outcome'
    /\ WhatIf.new_score outcome' = WhatIf.new_score outcome.
Proof.
  destruct (value (what_if_subject placeholder_analyzer mixed_sections
                     "Math" 2)) as [outcome|e] eqn:Hrun;
    [|vm_compute in Hrun; discriminate].
  destruct (scores_order_independent sum_from_left format_2f_exact
              placeholder_analyzer mixed_sections (rev mixed_sections)
              "attempt.json" "Math" 2 (Permutation_rev mixed_sections))
    as [Hwhat _].
  destruct (Hwhat outcome Hrun) as (outcome' & Hrun' & _ & Hnew & _).
  exists outcome, outcome'. repeat split; assumption.
Defined.

Lemma determine_module2_difficulty_at_the_ends_witness :
  value (determine_module2_difficulty placeholder_analyzer 22 22)
  = Ok hard_tier
  /\ value (determine_module2_difficulty placeholder_analyzer 0 22)
     = Ok easy_tier.
Proof.
  destruct (determine_module2_difficulty_at_the_ends placeholder_analyzer 22)
    as [Hall Hnone]; [lia|].
  split; [apply Hall|apply Hnone]; reflexivity.
Defined.

Lemma whole_milliseconds_slow_witness :
  is_slow (response "q1" "Math" "Static" "Algebra" true 60001) = true.
Proof.
  rewrite (whole_milliseconds_slow
             (response "q1" "Math" "Static" "Algebra" true 60001));
    reflexivity.
Defined.

Lemma slow_questions_of_whole_milliseconds_witness :
  exists summary,
    value (analyze_subject sum_from_left format_2f_exact placeholder_analyzer
             mixed_sections "attempt.json" "Math") = Ok summary
    /\ Forall2 slow_entry_of
         (filter over_one_minute (subject_data_of mixed_sections "Math"))
         (Performance.slow_questions summary)
    /\ List.map SlowQuestion.question_id (Performance.slow_questions summary)
       = [Some "q2"; Some "q4"].
Proof.
  destruct (value (analyze_subject sum_from_left format_2f_exact
                     placeholder_analyzer mixed_sections "attempt.json"
                     "Math")) as [summary|e] eqn:Hrun;
    [|vm_compute in Hrun; discriminate].
  exists summary. split; [reflexivity|].
  destruct (slow_questions_of_whole_milliseconds sum_from_left
              format_2f_exact placeholder_analyzer mixed_sections
              "attempt.json" "Math" summary) as [Hslow _];
    [reflexivity|exact Hrun|].
  split; [apply Hslow; vm_compute; discriminate|].
  vm_compute in Hrun. injection Hrun as <-. reflexivity.
Defined.

Lemma calibration_order_independent_witness :
  find_optimal_threshold three_thresholds script_samples
  = find_optimal_threshold three_thresholds (rev script_samples).
Proof.
  apply (calibration_order_independent three_thresholds script_samples
           (rev script_samples)).
  apply Permutation_rev.
Defined.

Lemma topics_in_order_of_appearance_witness :
  exists summary,
    value (analyze_subject sum_from_left format_2f_exact placeholder_analyzer
             mixed_sections "attempt.json" "Math") = Ok summary
    /\ keys (Performance.topic_clusters summary) = ["Algebra"; "Geometry"]
    /\ keys (Performance.weak_topics summary) = ["Geometry"].
Proof.
  destruct (value (analyze_subject sum_from_left format_2f_exact
                     placeholder_analyzer mixed_sections "attempt.json"
                     "Math")) as [summary|e] eqn:Hrun;
    [|vm_compute in Hrun; discriminate].
  exists summary. split; [reflexivity|].
  destruct (topics_in_order_of_appearance sum_from_left format_2f_exact
              placeholder_analyzer mixed_sections "attempt.json" "Math"
              summary Hrun) as [Hsome _].
  destruct Hsome as (Hkeys & _ & Hweak); [vm_compute; discriminate|].
  rewrite Hweak, Hkeys. split; reflexivity.
Defined.

Lemma loaded_data_never_empty_witness :
  snd (load_student_data (one_file "attempt.json" mixed_sections) no_repr
         no_repr None "attempt.json" true) = Returned mixed_sections
  /\ mixed_sections <> [].
Proof.
  split; [reflexivity|].
  apply (loaded_data_never_empty (one_file "attempt.json" mixed_sections)
           no_repr no_repr None "attempt.json" true mixed_sections).
  reflexivity.
Defined.

Lemma local_file_decides_witness :
  snd (load_student_data (one_file "attempt.json" mixed_sections) no_repr
         no_repr (Some (one_collection "attempt.json" mixed_sections))
         "missing.json" true)
  = Raised (FileNotFoundError "File missing.json not found.").
Proof.
  rewrite (local_file_decides (one_file "attempt.json" mixed_sections)
             no_repr no_repr
             (Some (one_collection "attempt.json" mixed_sections))
             "missing.json" true); [reflexivity|].
  right. right. exists (one_collection "attempt.json" mixed_sections).
  split; [reflexivity|]. left. reflexivity.
Defined.

Lemma database_answer_needs_no_file_witness :
  snd (load_student_data (fun _ => Absent) no_repr no_repr
         (Some (one_collection "attempt.json" module2_only))
         "attempt.json" true) = Returned module2_only.
Proof.
  apply (database_answer_needs_no_file (fun _ => Absent) (fun _ => Absent)
           no_repr no_repr (one_collection "attempt.json" module2_only)
           "attempt.json"
           (response "q1" "Math" "Hard" "Algebra" true 30000) []).
  reflexivity.
Defined.

Lemma duplicate_warning_iff_witness :
  In (Printed (duplicate_warning "attempt.json"))
    (fst (load_student_data (one_file "attempt.json" repeated_identifier)
            no_repr no_repr None "attempt.json" false)).
Proof.
  apply (duplicate_warning_iff (one_file "attempt.json" repeated_identifier)
           no_repr no_repr None "attempt.json" false repeated_identifier);
    [reflexivity|].
  intros Hnd. inversion Hnd as [|? ? Hnotin _]. apply Hnotin.
  left. reflexivity.
Defined.

Lemma rows_of_an_analysed_file_witness :
  snd (fst (analyze_file sum_from_left format_2f_exact
              (one_file "attempt.json" mixed_sections) no_repr no_repr
              no_repr no_repr no_repr exception_name placeholder_analyzer
              (one_collection "attempt.json" []) false "attempt.json"))
  = [ {| Row.file := "attempt.json"; Row.subject := "Math";
         Row.scaled_score := 220 |};
      {| Row.file := "attempt.json"; Row.subject := "Math (+2)";
         Row.scaled_score := 245 |} ].
Proof.
  destruct (value (analyze_performance sum_from_left format_2f_exact
                     placeholder_analyzer mixed_sections "attempt.json"))
    as [performance|e] eqn:Hrun; [|vm_compute in Hrun; discriminate].
  destruct (rows_of_an_analysed_file sum_from_left format_2f_exact
              (one_file "attempt.json" mixed_sections) no_repr no_repr
              no_repr no_repr no_repr exception_name placeholder_analyzer
              (one_collection "attempt.json" []) false "attempt.json"
              mixed_sections performance)
    as (what_if_results & Hwhat & _ & Hrows); [reflexivity|exact Hrun|].
  rewrite Hrows. vm_compute in Hrun. injection Hrun as <-.
  vm_compute in Hwhat. injection Hwhat as <-. reflexivity.
Defined.

Lemma failed_file_adds_no_row_witness :
  snd (fst (analyze_file sum_from_left format_2f_exact
              (one_file "attempt.json" mixed_sections) no_repr no_repr
              no_repr no_repr no_repr exception_name placeholder_analyzer
              (one_collection "attempt.json" []) false "missing.json"))
  = [].
Proof.
  apply (failed_file_adds_no_row sum_from_left format_2f_exact
           (one_file "attempt.json" mixed_sections) no_repr no_repr
           no_repr no_repr no_repr exception_name placeholder_analyzer
           (one_collection "attempt.json" []) false "missing.json"
           (Load_error (FileNotFoundError "File missing.json not found."))).
  reflexivity.
Defined.

Lemma bar_colours_witness :
  chart_colours
    [ {| Row.file := "data/attempt+2.json"; Row.subject := "Math";
         Row.scaled_score := 220 |};
      {| Row.file := "data/attempt.json"; Row.subject := "Math";
         Row.scaled_score := 220 |} ]
  = ["#66BB6A"; "#4CAF50"].
Proof.
  unfold chart_colours, chart_labels. cbn [List.map].
  rewrite (proj2 (bar_colours "data/attempt+2.json" "Math" 220 0
                    (or_introl eq_refl))).
  rewrite (proj2 (bar_colours "data/attempt.json" "Math" 220 0
                    (or_introl eq_refl))).
  reflexivity.
Defined.
